(** * get_microsoft_patches: a shallow embedding and its checked properties

    The program scrapes the Microsoft Update Catalog and, when the catalog
    has nothing, the Download Center, and normalises what it finds into flat
    records.  This development embeds the normalisation logic of
    [get_microsoft_patches.py]: the helpers working on the per-file download
    descriptors, the two [WindowsUpdate] properties that parse text
    ([kb_numbers], [superseeds]), the catalog normaliser with its
    supersedes filter, and the download-center record builder.

    Conventions.
    - A Python [str] is a [string]; its 8-bit characters are read as the
      code points U+0000..U+00FF, and [str.isspace], [str.isdigit] and
      [str.lower] are the restrictions of Python's to that range.
    - A value decoded by [json.loads], or stored in a record, is a [PyVal].
      A [dict] with string keys is a [gmap string PyVal].
    - A computation that may raise is an [exc]; [try: ... except: ...]
      is a match on it.
    - Pages fetched over the network and parsed by BeautifulSoup enter as
      data: what [find] and [get_text] returned. *)

From Stdlib Require Import ZArith NArith String Ascii Lia DecimalString.
From stdpp Require Import gmap strings list.

Set Warnings "-register-all".

(** ** Python strings *)

Module PyStr.

Definition code (c : ascii) : N := N_of_ascii c.

Definition between (lo hi n : N) : bool := ((lo <=? n) && (n <=? hi))%N.

(** [str.isspace] on U+0000..U+00FF: TAB..CR, FS..US, SPACE, NEL, NBSP. *)
Definition isspace (c : ascii) : bool :=
  let n := code c in
  between 9 13 n || between 28 31 n || (n =? 32)%N || (n =? 133)%N || (n =? 160)%N.

(** [str.isdigit] on U+0000..U+00FF: 0..9 and the superscripts 2, 3, 1. *)
Definition isdigit (c : ascii) : bool :=
  let n := code c in
  between 48 57 n || (n =? 178)%N || (n =? 179)%N || (n =? 185)%N.

(** The characters [int()] accepts as decimal digits: 0..9 only. *)
Definition isdecimal (c : ascii) : bool := between 48 57 (code c).

Definition digit_value (c : ascii) : Z := Z.of_N (code c) - 48.

(** The blanks [int()] skips around a literal: C's [isspace] on ASCII
    (so not FS..US) and the non-ASCII Unicode blanks NEL and NBSP. *)
Definition int_space (c : ascii) : bool :=
  let n := code c in
  between 9 13 n || (n =? 32)%N || (n =? 133)%N || (n =? 160)%N.

Definition lower_char (c : ascii) : ascii :=
  let n := code c in
  if between 65 90 n || (between 192 222 n && negb (n =? 215)%N)
  then ascii_of_N (n + 32) else c.

(** [s.lower()] *)
Fixpoint lower (s : string) : string :=
  match s with
  | EmptyString => EmptyString
  | String c s' => String (lower_char c) (lower s')
  end.

Definition is_empty (s : string) : bool :=
  match s with EmptyString => true | String _ _ => false end.

(** [s.lstrip()], [s.rstrip()], [s.strip()] *)
Fixpoint lstrip (s : string) : string :=
  match s with
  | EmptyString => EmptyString
  | String c s' => if isspace c then lstrip s' else s
  end.

Fixpoint rstrip (s : string) : string :=
  match s with
  | EmptyString => EmptyString
  | String c s' =>
      let r := rstrip s' in
      if isspace c && is_empty r then EmptyString else String c r
  end.

Definition strip (s : string) : string := rstrip (lstrip s).

Fixpoint drop (n : nat) (s : string) : string :=
  match n, s with
  | O, _ => s
  | S _, EmptyString => EmptyString
  | S n', String _ s' => drop n' s'
  end.

(** [sub in s] *)
Fixpoint contains (sub s : string) : bool :=
  if String.prefix sub s then true
  else match s with
       | EmptyString => false
       | String _ s' => contains sub s'
       end.

(** [s.index(sub)]: the first position of [sub], [None] where Python
    raises ValueError. *)
Fixpoint index (sub s : string) : option nat :=
  if String.prefix sub s then Some O
  else match s with
       | EmptyString => None
       | String _ s' => S <$> index sub s'
       end.

(** [s.replace(old, new)] for a non-empty [old]: occurrences are found
    left to right and do not overlap.  [skip] counts the characters of
    an occurrence already replaced that are still to be passed over. *)
Fixpoint replace_from (old new : string) (skip : nat) (s : string) : string :=
  match s with
  | EmptyString => EmptyString
  | String c s' =>
      match skip with
      | S k => replace_from old new k s'
      | O =>
          if String.prefix old s
          then new +:+ replace_from old new (String.length old - 1) s'
          else String c (replace_from old new O s')
      end
  end.

Definition replace (old new s : string) : string := replace_from old new O s.

(** [s.split(sep)] for a separator of one character. *)
Fixpoint split (sep : ascii) (s : string) : list string :=
  match s with
  | EmptyString => [EmptyString]
  | String c s' =>
      if Ascii.eqb c sep then EmptyString :: split sep s'
      else match split sep s' with
           | h :: t => String c h :: t
           | [] => [String c EmptyString]
           end
  end.

(** The longest prefix of characters satisfying [p]: the loop
    [for i in range(start, len(s)): if p(s[i]): acc += s[i] else: break]. *)
Fixpoint take_while (p : ascii -> bool) (s : string) : string :=
  match s with
  | EmptyString => EmptyString
  | String c s' => if p c then String c (take_while p s') else EmptyString
  end.

Definition LF : ascii := ascii_of_N 10.
Definition CR : ascii := ascii_of_N 13.
Definition str1 (c : ascii) : string := String c EmptyString.

End PyStr.

(** ** Python values and exceptions *)

(** A binary64 float: [Finite m e] is the number [m * 2^e]. *)
Inductive PyFloat :=
  | Finite (m e : Z)
  | Inf (negative : bool)
  | NaN.

Inductive PyVal :=
  | VNone
  | VBool (b : bool)
  | VInt (n : Z)
  | VFloat (f : PyFloat)
  | VStr (s : string)
  | VList (l : list PyVal)
  | VDict (d : gmap string PyVal).

Inductive PyExc :=
  | ValueError | TypeError | AttributeError | KeyError | IndexError
  | OverflowError
  | FetchError.   (* any failure of the network, the HTML parser or json.loads *)

Inductive exc (A : Type) :=
  | Ok (a : A)
  | Raise (e : PyExc).
Arguments Ok {A} a.
Arguments Raise {A} e.

Definition bind {A B} (c : exc A) (k : A -> exc B) : exc B :=
  match c with
  | Ok a => k a
  | Raise e => Raise e
  end.

Notation "'let!' x := c 'in' k" := (bind c (fun x => k))
  (at level 10, x name, c at level 99, k at level 200).

(** [try: return c  except: return handler] *)
Definition try_except {A} (c : exc A) (handler : A) : A :=
  match c with
  | Ok a => a
  | Raise _ => handler
  end.

(** What the program takes from libraries that are not modelled here.
    [json_dumps] stands for [json.dumps] up to the order in which the keys
    of a dict are written, which a [gmap] does not record. *)
Class PyLib := {
  (** [json.dumps] *)
  json_dumps : PyVal -> string;
  (** [urlparse(url).path] *)
  urlparse_path : string -> string
}.

Module Py.

(** [bool(v)], the test of [if v:] and [not v]. *)
Definition truthy (v : PyVal) : bool :=
  match v with
  | VNone => false
  | VBool b => b
  | VInt n => negb (n =? 0)%Z
  | VFloat (Finite m _) => negb (m =? 0)%Z
  | VFloat _ => true
  | VStr s => negb (PyStr.is_empty s)
  | VList l => match l with [] => false | _ => true end
  | VDict d => negb (bool_decide (d = ∅))
  end.

(** [s == v] for a [str] s: only an equal [str] compares equal. *)
Definition str_eq (s : string) (v : PyVal) : bool :=
  match v with
  | VStr t => String.eqb s t
  | _ => false
  end.

(** [d.get(k)]; only a dict has the method. *)
Definition get (v : PyVal) (k : string) : exc PyVal :=
  match v with
  | VDict d => Ok (default VNone (d !! k))
  | _ => Raise AttributeError
  end.

(** [d[k]] for a string key. *)
Definition getitem (v : PyVal) (k : string) : exc PyVal :=
  match v with
  | VDict d => match d !! k with Some x => Ok x | None => Raise KeyError end
  | _ => Raise TypeError
  end.

(** [d[k] = x] for a string key. *)
Definition setitem (v : PyVal) (k : string) (x : PyVal) : exc PyVal :=
  match v with
  | VDict d => Ok (VDict (<[k := x]> d))
  | _ => Raise TypeError
  end.

Fixpoint chars (s : string) : list PyVal :=
  match s with
  | EmptyString => []
  | String c s' => VStr (PyStr.str1 c) :: chars s'
  end.

(** The elements [for x in v] runs through.  A dict yields its keys
    (in insertion order in Python; none of the functions below lets the
    order of a dict's keys reach its result before failing). *)
Definition iter (v : PyVal) : exc (list PyVal) :=
  match v with
  | VList l => Ok l
  | VStr s => Ok (chars s)
  | VDict d => Ok (VStr <$> (map_to_list d).*1)
  | _ => Raise TypeError
  end.

(** [sub in v] for a [str] sub. *)
Definition contains (sub : string) (v : PyVal) : exc bool :=
  match v with
  | VStr s => Ok (PyStr.contains sub s)
  | VList l => Ok (existsb (str_eq sub) l)
  | VDict d => Ok (bool_decide (is_Some (d !! sub)))
  | _ => Raise TypeError
  end.

(** [v.lower()] *)
Definition lower (v : PyVal) : exc string :=
  match v with
  | VStr s => Ok (PyStr.lower s)
  | _ => Raise AttributeError
  end.

(** ["prefix" + v] *)
Definition str_add (prefix : string) (v : PyVal) : exc string :=
  match v with
  | VStr s => Ok (prefix +:+ s)
  | _ => Raise TypeError
  end.

(** *** [int(...)] *)

(** The digits of a literal after its first one: [acc] is the value so
    far, [after_us] tells that the previous character was an underscore.
    Returns the value and what follows the literal. *)
Fixpoint int_digits (acc : Z) (after_us : bool) (s : string) : option (Z * string) :=
  match s with
  | EmptyString => if after_us then None else Some (acc, s)
  | String c s' =>
      if PyStr.isdecimal c then int_digits (acc * 10 + PyStr.digit_value c) false s'
      else if Ascii.eqb c "_" then
             if after_us then None else int_digits acc true s'
           else if after_us then None else Some (acc, s)
  end.

Fixpoint all_int_space (s : string) : bool :=
  match s with
  | EmptyString => true
  | String c s' => PyStr.int_space c && all_int_space s'
  end.

Fixpoint skip_int_space (s : string) : string :=
  match s with
  | EmptyString => EmptyString
  | String c s' => if PyStr.int_space c then skip_int_space s' else s
  end.

Definition int_unsigned (s : string) : option Z :=
  match s with
  | String c s' =>
      if PyStr.isdecimal c then
        match int_digits (PyStr.digit_value c) false s' with
        | Some (n, rest) => if all_int_space rest then Some n else None
        | None => None
        end
      else None
  | EmptyString => None
  end.

(** [int(s)] for a [str]: blanks, an optional sign, decimal digits that
    single underscores may separate, blanks.  (The interpreter's optional
    cap on the number of digits is taken as switched off.) *)
Definition int_of_str (s : string) : exc Z :=
  let body := skip_int_space s in
  let r :=
    match body with
    | String "+" s' => int_unsigned s'
    | String "-" s' => Z.opp <$> int_unsigned s'
    | _ => int_unsigned body
    end in
  match r with
  | Some n => Ok n
  | None => Raise ValueError
  end.

(** [int(x)] for a float: truncation towards zero. *)
Definition int_of_float (f : PyFloat) : exc Z :=
  match f with
  | Finite m e =>
      Ok (if (0 <=? e)%Z then m * 2 ^ e else Z.quot m (2 ^ (- e)))%Z
  | Inf _ => Raise OverflowError
  | NaN => Raise ValueError
  end.

(** [int(v)] *)
Definition int (v : PyVal) : exc Z :=
  match v with
  | VInt n => Ok n
  | VBool b => Ok (if b then 1 else 0)%Z
  | VFloat f => int_of_float f
  | VStr s => int_of_str s
  | VNone | VList _ | VDict _ => Raise TypeError
  end.

(** *** Floats made by dividing an int by a power of two *)

(** [a / d] rounded to the nearest integer, ties to the even one. *)
Definition div_half_even (a d : Z) : Z :=
  let q := (a / d)%Z in
  let r := (a mod d)%Z in
  if (d <? 2 * r)%Z || ((d =? 2 * r)%Z && Z.odd q) then (q + 1)%Z else q.

(** The integer nearest to [n] that has at most 53 significant bits,
    ties to even: the significand of [float(n)]. *)
Definition round53 (n : Z) : Z :=
  let a := Z.abs n in
  let bits := (Z.log2 a + 1)%Z in
  if (bits <=? 53)%Z then n
  else
    let k := (bits - 53)%Z in
    (Z.sgn n * (div_half_even a (2 ^ k) * 2 ^ k))%Z.

(** [n / 2**k] on ints ([k >= 0]): the quotient correctly rounded to
    binary64, OverflowError when that is 2^1024 or more in magnitude.
    Dividing by a power of two only moves the exponent, and for a
    non-zero int the quotient is far above the subnormal range. *)
Definition truediv_pow2 (n k : Z) : exc PyFloat :=
  let m := round53 n in
  if (2 ^ (1024 + k) <=? Z.abs m)%Z then Raise OverflowError
  else Ok (Finite m (- k)).

(** [x >= t] for a float [x] and an int [t]. *)
Definition float_ge_int (x : PyFloat) (t : Z) : bool :=
  match x with
  | Finite m e =>
      if (0 <=? e)%Z then (t <=? m * 2 ^ e)%Z else (t * 2 ^ (- e) <=? m)%Z
  | Inf negative => negb negative
  | NaN => false
  end.

Definition digit (d : Z) : string :=
  PyStr.str1 (ascii_of_N (48 + Z.to_N d)).

(** [str(n)] for [n >= 0]. *)
Definition decimal (n : Z) : string :=
  NilZero.string_of_uint (N.to_uint (Z.to_N n)).

(** [f"{x:.2f}"]: the exact value of [x] rounded to hundredths, ties to
    even; a negative [x] keeps its sign even when it rounds to zero. *)
Definition format_2f (x : PyFloat) : string :=
  match x with
  | Finite m e =>
      let a := Z.abs m in
      let h := if (0 <=? e)%Z then (a * 100 * 2 ^ e)%Z
               else div_half_even (a * 100) (2 ^ (- e)) in
      (if (m <? 0)%Z then "-" else "") +:+
      decimal (h / 100) +:+ "." +:+ digit (h / 10 mod 10) +:+ digit (h mod 10)
  | Inf negative => if negative then "-inf" else "inf"
  | NaN => "nan"
  end.

End Py.

(** A record of the output, a descriptor of a downloadable file and the
    intermediate [parsed_dict] are all Python dicts with string keys. *)
Abbreviation pydict := (gmap string PyVal).

(** ** Helpers on the per-file download descriptors *)

(** [convert_bytes_to_human_readable(size_bytes, threshold_gb=1)];
    [1024 ** 3] is 2^30 and [1024 ** 2] is 2^20. *)
Definition convert_bytes_to_human_readable (size_bytes threshold_gb : Z) : exc string :=
  let! size_gb := Py.truediv_pow2 size_bytes 30 in
  if Py.float_ge_int size_gb threshold_gb
  then Ok (Py.format_2f size_gb +:+ " GB")
  else
    let! size_mb := Py.truediv_pow2 size_bytes 20 in
    Ok (Py.format_2f size_mb +:+ " MB").

(** The loop [for d in download_details: file_size += int(d.get("size"))]. *)
Fixpoint sum_sizes (file_size : Z) (download_details : list PyVal) : exc Z :=
  match download_details with
  | [] => Ok file_size
  | download_link_detail :: rest =>
      let! size := Py.get download_link_detail "size" in
      let! n := Py.int size in
      sum_sizes (file_size + n) rest
  end.

Definition get_update_size (download_details : PyVal) : string :=
  try_except
    (let! ds := Py.iter download_details in
     let! file_size := sum_sizes 0 ds in
     convert_bytes_to_human_readable file_size 1)
    "N/A".

(** The loop returns in its first round; with no round the function
    falls off its end and returns None. *)
Definition get_version_number (download_details : PyVal) : PyVal :=
  try_except
    (let! ds := Py.iter download_details in
     match ds with
     | [] => Ok VNone
     | download_link_detail :: _ => Py.get download_link_detail "version"
     end)
    VNone.

Definition get_last_updated (download_details : PyVal) : PyVal :=
  try_except
    (let! ds := Py.iter download_details in
     match ds with
     | [] => Ok VNone
     | download_link_detail :: _ => Py.get download_link_detail "datePublished"
     end)
    VNone.

(** The loop of [get_architecture]; [or] and [and] evaluate their right
    operand only when needed. *)
Fixpoint scan_architecture (download_details : list PyVal) : exc PyVal :=
  match download_details with
  | [] => Ok VNone
  | download_link_detail :: rest =>
      let! name := Py.get download_link_detail "name" in
      let! has64 := Py.contains "64" name in
      if has64 then Ok (VStr "x64")
      else
        let! has32 := Py.contains "32" name in
        let! is86 :=
          (if has32 then Ok true
           else
             let! has86 := Py.contains "86" name in
             if has86
             then let! again64 := Py.contains "64" name in Ok (negb again64)
             else Ok false) in
        if is86 then Ok (VStr "x86") else scan_architecture rest
  end.

Definition get_architecture (download_details : PyVal) : PyVal :=
  try_except
    (let! ds := Py.iter download_details in scan_architecture ds)
    VNone.

(** The digits that follow the first "kb" of [s]:
    [s.index("kb") + 2] and the loop collecting digits up to the first
    character that is not one. *)
Definition digits_after_kb (s : string) : exc string :=
  match PyStr.index "kb" s with
  | Some i => Ok (PyStr.take_while PyStr.isdigit (PyStr.drop (i + 2) s))
  | None => Raise ValueError
  end.

Fixpoint scan_kb_number (download_details : list PyVal) : exc PyVal :=
  match download_details with
  | [] => Ok VNone
  | download_link_detail :: rest =>
      let! name := Py.get download_link_detail "name" in
      let! file_name := Py.lower name in
      if PyStr.contains "kb" file_name
      then let! kb_number := digits_after_kb file_name in Ok (VStr kb_number)
      else scan_kb_number rest
  end.

Definition get_kb_number (download_details : PyVal) : PyVal :=
  try_except
    (let! ds := Py.iter download_details in scan_kb_number ds)
    VNone.

(** ** The catalog path *)

(** A node of the detail page next to a marker element: a text node, on
    which [strip] is the string method, or an element, on which the
    attribute [strip] is looked up as a child tag named "strip"; a page
    has no such tag, the lookup gives None and calling it raises
    TypeError. *)
Inductive Node :=
  | NText (s : string)
  | NTag.

(** What [get_details()] gives for one update: for the two properties
    modelled in full, what [find] returned on the page; for the others,
    the outcome of evaluating the property. *)
Record DetailPage := {
  (** [find(id='supersedesInfo')], as the [get_text()] of the container *)
  supersedesInfo : option string;
  (** [find(id='ScopedViewHandler_labelKBArticle_Separator')], as the
      [next_siblings] of the marker *)
  labelKBArticle_siblings : option (list Node);
  p_languages : exc PyVal;
  p_msrc_number : exc PyVal;
  p_msrc_severity : exc PyVal;
  p_architecture : exc PyVal;
  p_is_installable : exc PyVal;
  p_requires_connectivity : exc PyVal;
  p_requires_user_input : exc PyVal;
  p_requires_restart : exc PyVal;
  p_more_information : exc PyVal;
  p_descriptions : exc PyVal;
  p_support_url : exc PyVal
}.

Module WindowsUpdate.

(** One row of the search result; [id] is [str(self.id)],
    [last_updated] is [str(self.last_updated)]. *)
Record t := {
  title : string;
  products : list string;
  classification : string;
  last_updated : string;
  version : string;
  size : string;
  id : string;
  (** [get_details()]: the detail page, or the failure to fetch it *)
  details : exc DetailPage;
  (** [get_download_urls()]: the [url] of each download found, or what
      is raised when there is none *)
  download_urls : exc (list string)
}.

(** [self.products[0]] *)
Definition product (u : t) : exc string :=
  match products u with
  | p :: _ => Ok p
  | [] => Raise IndexError
  end.

Definition node_strip (n : Node) : exc string :=
  match n with
  | NText s => Ok (PyStr.strip s)
  | NTag => Raise TypeError
  end.

(** [[int(n.strip()) for n in siblings if n.strip().lower() != 'n/a']] *)
Fixpoint kb_list (siblings : list Node) : exc (list PyVal) :=
  match siblings with
  | [] => Ok []
  | n :: rest =>
      let! text := node_strip n in
      if String.eqb (PyStr.lower text) "n/a" then kb_list rest
      else
        let! text' := node_strip n in
        let! kb := Py.int_of_str text' in
        let! kbs := kb_list rest in
        Ok (VInt kb :: kbs)
  end.

(** The property [kb_numbers], read for the first time. *)
Definition kb_numbers (u : t) : exc PyVal :=
  let! page := details u in
  match labelKBArticle_siblings page with
  | None => Ok VNone
  | Some siblings =>
      match siblings with
      | [] => Raise AttributeError      (* next_sibling is None *)
      | first :: _ =>
          let! text := node_strip first in
          if PyStr.is_empty text then Ok VNone
          else let! kbs := kb_list siblings in Ok (VList kbs)
      end
  end.

Definition LF_CR_LF : string :=
  String PyStr.LF (String PyStr.CR (String PyStr.LF EmptyString)).

Definition non_empty (s : string) : bool := negb (PyStr.is_empty s).

(** The entries made of the text of a supersedesInfo container that is
    not empty once stripped. *)
Definition superseeds_entries (superseeds_text : string) : list string :=
  let superseeds_list := PyStr.split PyStr.LF superseeds_text in
  let superseeds_list := PyStr.strip <$> superseeds_list in
  PyStr.replace (PyStr.str1 PyStr.CR) "" <$> List.filter non_empty superseeds_list.

Definition superseeds_of (info : option string) : PyVal :=
  match info with
  | Some text =>
      let superseeds_text := PyStr.strip text in
      if non_empty superseeds_text then
        let superseeds_text := PyStr.replace LF_CR_LF " " superseeds_text in
        let superseeds_list := superseeds_entries superseeds_text in
        match superseeds_list with
        | [] => VStr superseeds_text
        | _ => VList (VStr <$> superseeds_list)
        end
      else VStr superseeds_text
  | None => VStr "None"
  end.

(** The property [superseeds]. *)
Definition superseeds (u : t) : exc PyVal :=
  let! page := details u in
  Ok (superseeds_of (supersedesInfo page)).

Definition property (f : DetailPage -> exc PyVal) (u : t) : exc PyVal :=
  let! page := details u in f page.

End WindowsUpdate.

(** [urlparse(download.url).path.split('/')[-1]] *)
Definition url_file_name `{PyLib} (url : string) : string :=
  default EmptyString (last (PyStr.split "/" (urlparse_path url))).

Definition download_entry `{PyLib} (url : string) : PyVal :=
  VDict (<["download_link" := VStr url]> (<["file_name" := VStr (url_file_name url)]> ∅)).

(** The dict [update_details] of one update, [download_urls] included. *)
Definition catalog_record `{PyLib} (update : WindowsUpdate.t) : exc pydict :=
  let! kb := WindowsUpdate.kb_numbers update in
  let! kb_number := WindowsUpdate.kb_numbers update in
  let! languages := WindowsUpdate.property p_languages update in
  let! superseeds := WindowsUpdate.superseeds update in
  let! msrc_number := WindowsUpdate.property p_msrc_number update in
  let! msrc_severity := WindowsUpdate.property p_msrc_severity update in
  let! product := WindowsUpdate.product update in
  let products_applicable :=
    if WindowsUpdate.non_empty product then PyStr.lower product else EmptyString in
  let! architecture := WindowsUpdate.property p_architecture update in
  let! uninstallable := WindowsUpdate.property p_is_installable update in
  let! requires_connectivity := WindowsUpdate.property p_requires_connectivity update in
  let! requires_user_input := WindowsUpdate.property p_requires_user_input update in
  let! requires_restart := WindowsUpdate.property p_requires_restart update in
  let! more_info := WindowsUpdate.property p_more_information update in
  let! description := WindowsUpdate.property p_descriptions update in
  let! support_url := WindowsUpdate.property p_support_url update in
  let! urls := WindowsUpdate.download_urls update in
  Ok (list_to_map [
    ("kb", kb);
    ("title", VStr (WindowsUpdate.title update));
    ("update_id", VStr (WindowsUpdate.id update));
    ("kb_number", kb_number);
    ("version", VStr (WindowsUpdate.version update));
    ("last_updated", VStr (WindowsUpdate.last_updated update));
    ("classification", VStr (WindowsUpdate.classification update));
    ("languages", languages);
    ("superseeds", superseeds);
    ("msrc_number", msrc_number);
    ("msrc_severity", msrc_severity);
    ("products_applicable", VStr products_applicable);
    ("architecture", architecture);
    ("uninstallable", uninstallable);
    ("requires_connectivity", requires_connectivity);
    ("requires_user_input", requires_user_input);
    ("requires_restart", requires_restart);
    ("update_size", VStr (WindowsUpdate.size update));
    ("more_info", more_info);
    ("description", description);
    ("support_url", support_url);
    ("download_urls", VList (download_entry <$> urls))
  ]).

(** The first loop of [find_microsoft_catelogue_updates]: it appends each
    record to [updates] and, when the record's title and its supersedes
    value are both truthy, appends that supersedes VALUE, whole, to
    [super_seeds_list]. *)
Fixpoint collect_updates `{PyLib} (found : list WindowsUpdate.t)
    (updates : list pydict) (super_seeds_list : list PyVal)
    : exc (list pydict * list PyVal) :=
  match found with
  | [] => Ok (updates, super_seeds_list)
  | update :: rest =>
      let! update_details := catalog_record update in
      let title := default VNone (update_details !! "title") in
      let superseeds := default VNone (update_details !! "superseeds") in
      let super_seeds_list :=
        if Py.truthy title && Py.truthy superseeds
        then super_seeds_list ++ [superseeds]
        else super_seeds_list in
      collect_updates rest (updates ++ [update_details]) super_seeds_list
  end.

(** [update["title"] == super_seed]; the title of a record is a [str]. *)
Definition title_is (update : pydict) (super_seed : PyVal) : bool :=
  match update !! "title" with
  | Some (VStr title) => Py.str_eq title super_seed
  | _ => false
  end.

(** The inner loop: is the title equal to some element of the list? *)
Definition super_seed_found (super_seeds_list : list PyVal) (update : pydict) : bool :=
  existsb (title_is update) super_seeds_list.

(** [find_microsoft_catelogue_updates], on the updates that the walk of
    the catalog yielded.  [None] is Python's None, returned when nothing
    was found and when anything raised. *)
Definition find_microsoft_catelogue_updates `{PyLib} (found : list WindowsUpdate.t)
    : option (list pydict) :=
  match collect_updates found [] [] with
  | Ok (updates, super_seeds_list) =>
      match updates with
      | [] => None
      | _ =>
          Some (List.filter (fun update => negb (super_seed_found super_seeds_list update))
                            updates)
      end
  | Raise _ => None
  end.

(** ** The download-center fallback path *)

(** What the scrape of a download page extracted: the [href] of the
    canonical link and the four slices of the script literal, each decoded
    by [json.loads("{" + slice + "}")] to a dict. *)
Record DLCDetails := {
  actual_download_link : PyVal;
  download_file : pydict;
  download_title : pydict;
  download_description : pydict;
  operating_system : pydict
}.

(** The outcome of fetching and slicing a page: [Raise] when any step of
    it raised, [Ok None] when the page has no [window.__DLCDetails__]
    literal with a "downloadFile" in it, [Ok (Some d)] otherwise. *)
Definition Scrape := exc (option DLCDetails).

(** The [parsed_dict] built from the decoded slices. *)
Definition parse_details (d : DLCDetails) : exc pydict :=
  let! files := Py.get (VDict (download_file d)) "downloadFile" in
  let parsed_dict : pydict :=
    <["architecture" := get_architecture files]>
    (<["last_updated" := get_last_updated files]>
    (<["version" := get_version_number files]>
    (<["update_size" := VStr (get_update_size files)]>
    (<["download_info" := files]> ∅)))) in
  let! downloadTitle := Py.get (VDict (download_title d)) "downloadTitle" in
  let parsed_dict := <["title" := downloadTitle]> parsed_dict in
  let! lowered := Py.lower downloadTitle in
  let! parsed_dict :=
    (if PyStr.contains "kb" lowered
     then
       let! title := Py.lower downloadTitle in
       let! kb_number := digits_after_kb title in
       Ok (<["kb" := VStr kb_number]> parsed_dict)
     else Ok parsed_dict) in
  let parsed_dict :=
    if negb (Py.truthy (default VNone (parsed_dict !! "kb")))
       && Py.truthy (get_kb_number files)
    then <["kb" := get_kb_number files]> parsed_dict
    else parsed_dict in
  let! description := Py.get (VDict (download_description d)) "downloadDescription" in
  let parsed_dict := <["description" := description]> parsed_dict in
  let! operating_system_value := Py.getitem (VDict (operating_system d)) "operatingSystem" in
  let parsed_dict := <["supported_products" := operating_system_value]> parsed_dict in
  let parsed_dict := <["language" := VStr "English"]> parsed_dict in
  let parsed_dict := <["update_url" := actual_download_link d]> parsed_dict in
  Ok parsed_dict.

(** [get_microsoft_windows_product_update]: the list [languages] has the
    one entry for English, so at most one [parsed_dict] is produced. *)
Definition get_microsoft_windows_product_update (page : Scrape) : list pydict :=
  try_except
    (let! found := page in
     match found with
     | Some d => let! parsed_dict := parse_details d in Ok [parsed_dict]
     | None => Ok []
     end)
    [].

(** The loop that adds to each descriptor, in place, a "download_link"
    equal to its "url" and a "file_name" equal to its "name". *)
Fixpoint relabel (download_info : list PyVal) : exc (list PyVal) :=
  match download_info with
  | [] => Ok []
  | download_link_detail :: rest =>
      let! url := Py.getitem download_link_detail "url" in
      let! download_link_detail := Py.setitem download_link_detail "download_link" url in
      let! name := Py.getitem download_link_detail "name" in
      let! download_link_detail := Py.setitem download_link_detail "file_name" name in
      let! rest := relabel rest in
      Ok (download_link_detail :: rest)
  end.

(** [download_info] after that loop.  Only the elements of a list can be
    updated; the loop over anything else that has an element raises. *)
Definition relabel_download_info (download_info : PyVal) : exc PyVal :=
  match download_info with
  | VList l => let! l' := relabel l in Ok (VList l')
  | _ =>
      let! elements := Py.iter download_info in
      let! _ := relabel elements in
      Ok download_info
  end.

Definition support_base : string := "https://support.microsoft.com/help/".

(** One round of the loop of [get_microsoft_download_center_update]. *)
Definition patch_record `{PyLib} (kb : PyVal) (update : pydict) : exc pydict :=
  let! download_info := Py.getitem (VDict update) "download_info" in
  let! download_urls := relabel_download_info download_info in
  let! title := Py.getitem (VDict update) "title" in
  let! description := Py.getitem (VDict update) "description" in
  let! supported_products := Py.getitem (VDict update) "supported_products" in
  let! language := Py.getitem (VDict update) "language" in
  let! version := Py.getitem (VDict update) "version" in
  let! update_size := Py.getitem (VDict update) "update_size" in
  let! last_updated := Py.getitem (VDict update) "last_updated" in
  let! update_url := Py.getitem (VDict update) "update_url" in
  let! patch_kb := Py.get (VDict update) "kb" in
  let! architecture := Py.get (VDict update) "architecture" in
  let patch_kb := if negb (Py.truthy patch_kb) then kb else patch_kb in
  let! support_url := Py.str_add support_base patch_kb in
  Ok (list_to_map [
    ("kb", patch_kb);
    ("title", title);
    ("kb_numbers", patch_kb);
    ("version", version);
    ("last_updated", last_updated);
    ("classification", VStr "Product Update");
    ("languages", language);
    ("superseeds", VStr "None");
    ("msrc_number", VStr "None");
    ("msrc_severity", VStr "None");
    ("products_applicable", supported_products);
    ("architecture", architecture);
    ("uninstallable", VStr "Yes");
    ("requires_connectivity", VStr "No");
    ("requires_user_input", VStr "No");
    ("requires_restart", VStr "Yes");
    ("update_size", update_size);
    ("more_info", update_url);
    ("description", description);
    ("support_url", VStr support_url);
    ("download_urls", VStr (json_dumps download_urls))
  ]).

Fixpoint patch_records `{PyLib} (kb : PyVal) (update_details : list pydict)
    : exc (list pydict) :=
  match update_details with
  | [] => Ok []
  | update :: rest =>
      let! patch := patch_record kb update in
      let! patches := patch_records kb rest in
      Ok (patch :: patches)
  end.

(** [get_microsoft_download_center_update(remd_url, kb)], on the scrape
    of the page at [remd_url]. *)
Definition get_microsoft_download_center_update `{PyLib} (page : Scrape) (kb : PyVal)
    : list pydict :=
  try_except (patch_records kb (get_microsoft_windows_product_update page)) [].

(** ** The choice between the two paths *)

(** The list written under "updates" by the main program: the catalog's
    records when there are any, else the records of every download page
    the support page links to.  [None] when the program exits before
    writing, for want of such links. *)
Definition final_updates `{PyLib} (search : string)
    (found : list WindowsUpdate.t) (patch_pages : list Scrape) : option (list pydict) :=
  match find_microsoft_catelogue_updates found with
  | Some (update :: updates) => Some (update :: updates)
  | _ =>
      match patch_pages with
      | [] => None
      | _ =>
          Some (concat ((fun page =>
                  get_microsoft_download_center_update page (VStr search)) <$> patch_pages))
      end
  end.

(** ** The vocabulary of the statements *)

(** A list of per-file download descriptors, as [downloadFile] holds it. *)
Definition descriptors (ds : list pydict) : PyVal := VList (VDict <$> ds).

(** The file name of a descriptor, when it has one that is a [str]. *)
Definition file_name_of (d : pydict) : option string :=
  match d !! "name" with
  | Some (VStr s) => Some s
  | _ => None
  end.

(** *** Sizes *)

Definition GiB : Z := 2 ^ 30.
Definition MiB : Z := 2 ^ 20.

(** The least byte count whose quotient by 2^30 rounds to 2^1024, and the
    least magnitude whose quotient by 2^20 does. *)
Definition gb_limit : Z := 2 ^ 1054 - 2 ^ 1000.
Definition mb_limit : Z := 2 ^ 1044 - 2 ^ 990.

(** The call returned through its GB branch, or through its MB branch. *)
Definition renders_gb (n : Z) : Prop :=
  exists x, Py.truediv_pow2 n 30 = Ok x /\
            convert_bytes_to_human_readable n 1 = Ok (Py.format_2f x +:+ " GB").

Definition renders_mb (n : Z) : Prop :=
  exists x, Py.truediv_pow2 n 20 = Ok x /\
            convert_bytes_to_human_readable n 1 = Ok (Py.format_2f x +:+ " MB").

(** "The GB branch is selected exactly when the count is at least 1 GiB,
    the MB branch otherwise", for one byte count. *)
Definition branch_by_GiB (n : Z) : Prop :=
  (renders_gb n <-> (GiB <= n)%Z) /\ (renders_mb n <-> (n < GiB)%Z).

(** [int(d.get("size"))] *)
Definition size_of (d : pydict) : exc Z :=
  let! size := Py.get (VDict d) "size" in Py.int size.

Definition total_size (ns : list Z) : Z := foldr Z.add 0%Z ns.

(** The size of the descriptor is missing or is not a number:
    [int(d.get("size"))] raises. *)
Definition bad_size (d : pydict) : Prop := exists e, size_of d = Raise e.

(** The magnitude of [round53 n] as a function of the magnitude of [n]. *)
Definition round53_abs (a : Z) : Z :=
  if (Z.log2 a + 1 <=? 53)%Z then a
  else (Py.div_half_even a (2 ^ (Z.log2 a - 52)) * 2 ^ (Z.log2 a - 52))%Z.

(** *** Architecture *)

Definition named (s : string) : pydict := {[ "name" := VStr s ]}.

(** The name holds one of the three marks the scan looks for. *)
Definition has_marker (s : string) : bool :=
  PyStr.contains "64" s || PyStr.contains "32" s || PyStr.contains "86" s.

Definition unmarked (d : pydict) : Prop :=
  exists s, file_name_of d = Some s /\ has_marker s = false.

Definition names_contain (sub : string) (ds : list pydict) : Prop :=
  Exists (fun d => exists s, file_name_of d = Some s /\ PyStr.contains sub s = true) ds.

Definition names_suggest_x86 (ds : list pydict) : Prop :=
  Exists (fun d => exists s, file_name_of d = Some s /\
            (PyStr.contains "32" s = true \/
             (PyStr.contains "86" s = true /\ PyStr.contains "64" s = false))) ds.

(** The derivation of the architecture read over the whole list: "x64" if
    a file name contains "64", else "x86" if a file name contains "32", or
    "86" without "64", else unset. *)
Definition architecture_as_stated (ds : list pydict) : Prop :=
  (names_contain "64" ds -> get_architecture (descriptors ds) = VStr "x64") /\
  (~ names_contain "64" ds -> names_suggest_x86 ds ->
     get_architecture (descriptors ds) = VStr "x86") /\
  (~ names_contain "64" ds -> ~ names_suggest_x86 ds ->
     get_architecture (descriptors ds) = VNone).

(** *** KB numbers *)




Definition sample_title : string := "2024-01 Update for Windows (KB5034123)".

(** *** The supersedes text *)

Fixpoint all_space (s : string) : bool :=
  match s with
  | EmptyString => true
  | String c s' => PyStr.isspace c && all_space s'
  end.

Definition remove_cr (s : string) : string := PyStr.replace (PyStr.str1 PyStr.CR) "" s.

(** The entries as the specification words them: the text split on
    newlines, carriage returns and surrounding blanks stripped from each
    entry, empty entries dropped. *)
Definition spec_entries (text : string) : list string :=
  List.filter WindowsUpdate.non_empty
    ((fun entry => PyStr.strip (remove_cr entry)) <$> PyStr.split PyStr.LF text).

(** The value of [superseeds] as the specification words it; the text of
    the container is taken stripped, as the code takes it. *)
Definition spec_superseeds (info : option string) : PyVal :=
  match info with
  | None => VStr "None"
  | Some raw =>
      let text := PyStr.strip raw in
      if PyStr.is_empty text then VStr "" else VList (VStr <$> spec_entries text)
  end.

Definition superseeds_as_stated (info : option string) : Prop :=
  WindowsUpdate.superseeds_of info = spec_superseeds info.

(** Two titles with an empty line between them, lines ending in CR LF. *)
Definition two_titles : string := "A" +:+ WindowsUpdate.LF_CR_LF +:+ "B".

(** A value that the first loop can put on [super_seeds_list]. *)
Definition collected_value (v : PyVal) : Prop :=
  (exists l, v = VList l) \/ v = VStr "None".

(** *** The shape of a record *)

Definition fixed_keys : list string :=
  ["kb"; "title"; "version"; "last_updated"; "classification"; "languages";
   "superseeds"; "msrc_number"; "msrc_severity"; "products_applicable";
   "architecture"; "uninstallable"; "requires_connectivity";
   "requires_user_input"; "requires_restart"; "update_size"; "more_info";
   "description"; "support_url"; "download_urls"].

Definition has_keys (keys : list string) (r : pydict) : Prop :=
  Forall (fun k => is_Some (r !! k)) keys.

Definition catalog_shaped (r : pydict) : Prop :=
  has_keys fixed_keys r /\ is_Some (r !! "update_id") /\
  exists l, r !! "download_urls" = Some (VList l).

Definition fallback_shaped `{PyLib} (r : pydict) : Prop :=
  has_keys fixed_keys r /\ is_Some (r !! "kb_numbers") /\
  exists v, r !! "download_urls" = Some (VStr (json_dumps v)).

(** Did the catalog give the records that are written? *)
Definition from_catalog `{PyLib} (found : list WindowsUpdate.t) : bool :=
  match find_microsoft_catelogue_updates found with
  | Some (_ :: _) => true
  | _ => false
  end.

Definition titles (updates : list pydict) : list (option PyVal) :=
  (fun update : pydict => update !! "title") <$> updates.

(** ** Sample inputs *)

(** Stand-ins for the two library functions, to run the definitions on the
    samples; every theorem below holds for any [PyLib]. *)
Definition stub_lib : PyLib := {|
  json_dumps := fun _ => "[...]";
  urlparse_path := fun url => url
|}.

Definition sample_page (info : option string) (kb_text : string) : DetailPage := {|
  supersedesInfo := info;
  labelKBArticle_siblings := Some [NText kb_text];
  p_languages := Ok (VStr "all");
  p_msrc_number := Ok VNone;
  p_msrc_severity := Ok (VStr "Critical");
  p_architecture := Ok (VStr "AMD64");
  p_is_installable := Ok (VBool true);
  p_requires_connectivity := Ok (VStr "No");
  p_requires_user_input := Ok (VStr "No");
  p_requires_restart := Ok (VStr "Yes");
  p_more_information := Ok (VStr "https://support.microsoft.com/help/5034123");
  p_descriptions := Ok (VStr "Install this update to resolve issues in Windows.");
  p_support_url := Ok (VStr "https://support.microsoft.com/help/5034123")
|}.

Definition sample_update (title : string) (info : option string) (kb_text : string)
    : WindowsUpdate.t := {|
  WindowsUpdate.title := title;
  WindowsUpdate.products := ["Windows 11"];
  WindowsUpdate.classification := "Security Updates";
  WindowsUpdate.last_updated := "2024-01-09 00:00:00";
  WindowsUpdate.version := "n/a";
  WindowsUpdate.size := "650.3 MB";
  WindowsUpdate.id := "6a4b3ec0-14a4-4b3c-bd4a-2f0e5d1c7a11";
  WindowsUpdate.details := Ok (sample_page info kb_text);
  WindowsUpdate.download_urls :=
    Ok ["https://catalog.s.download.windowsupdate.com/c/windows11.0-kb5034123-x64.msu"]
|}.

(** Two rows of one search: the first supersedes the second. *)
Definition newer_update : WindowsUpdate.t :=
  sample_update "2024-02 Cumulative Update (KB5034765)"
                (Some "2024-01 Cumulative Update (KB5034123)") "5034765".

Definition older_update : WindowsUpdate.t :=
  sample_update "2024-01 Cumulative Update (KB5034123)" None "5034123".

Definition sample_file (name size : string) : pydict :=
  list_to_map [
    ("name", VStr name);
    ("url", VStr ("https://download.microsoft.com/download/" +:+ name));
    ("size", VStr size);
    ("version", VStr "1.0");
    ("datePublished", VStr "1/9/2024 12:00:00 AM")
  ].

Definition sample_details (title file_name : string) : DLCDetails := {|
  actual_download_link := VStr "https://www.microsoft.com/en-us/download/details.aspx?id=105652";
  download_file := {[ "downloadFile" := descriptors [sample_file file_name "1073741824"] ]};
  download_title := {[ "downloadTitle" := VStr title ]};
  download_description := {[ "downloadDescription" := VStr "A security update." ]};
  operating_system := {[ "operatingSystem" := VStr "Windows 11" ]}
|}.

(** A download page whose title carries the KB, and one where neither the
    title nor the file name does. *)
Definition page_with_kb : Scrape :=
  Ok (Some (sample_details sample_title "windows11.0-kb5034123-x64.msu")).

Definition page_without_kb : Scrape :=
  Ok (Some (sample_details "Security Update for Windows" "setup-x64.exe")).

Definition first_record (records : list pydict) : pydict := default ∅ (head records).

Definition has_record (records : list pydict) : bool :=
  match records with [] => false | _ :: _ => true end.

(** The records written, none when the program exits early. *)
Definition written (output : option (list pydict)) : list pydict := default [] output.

Definition wrote (output : option (list pydict)) : bool :=
  match output with Some _ => true | None => false end.

(** ** Proof tools *)

(** Follow a computation that returned through each of its steps. *)
Ltac bind_inv H :=
  repeat match type of H with
         | bind ?c _ = Ok _ =>
             let E := fresh "E" in
             destruct c eqn:E; cbn [bind] in H; [|discriminate H]
         end.

(** ** Further vocabulary *)

(** Every character of the string satisfies [p]. *)
Fixpoint all_chars (p : ascii -> bool) (s : string) : bool :=
  match s with
  | EmptyString => true
  | String c s' => p c && all_chars p s'
  end.

(** The character occurs nowhere in the string. *)
Definition lacks_char (c : ascii) (s : string) : bool :=
  all_chars (fun x => negb (Ascii.eqb x c)) s.

(** Two outcomes agree up to the kind of exception raised. *)
Definition same_outcome {A} (x y : exc A) : Prop :=
  match x, y with
  | Ok a, Ok b => a = b
  | Raise _, Raise _ => True
  | _, _ => False
  end.

(** *** KB numbers, in the words of the specification *)









(** The sibling text does not read "n/a". *)
Definition not_na (text : string) : bool :=
  negb (String.eqb (PyStr.lower (PyStr.strip text)) "n/a").

(** What an entry of a supersedes list looks like. *)
Definition clean_entry (entry : string) : Prop :=
  entry <> "" /\ PyStr.strip entry = entry /\
  lacks_char PyStr.CR entry = true /\ lacks_char PyStr.LF entry = true.

(** A string that does not begin with a blank. *)
Definition no_leading_blank (s : string) : Prop :=
  match s with
  | EmptyString => True
  | String c _ => PyStr.isspace c = false
  end.

(** The descriptor after the loop that relabels it. *)
Definition relabelled (d d' : pydict) : Prop :=
  is_Some (d !! "url") /\ is_Some (d !! "name") /\
  d' !! "download_link" = d !! "url" /\ d' !! "file_name" = d !! "name" /\
  forall k, k <> "download_link" -> k <> "file_name" -> d' !! k = d !! k.

(** The page was fetched and holds a details literal with its files. *)
Definition readable (page : Scrape) : bool :=
  match page with
  | Ok (Some _) => true
  | _ => false
  end.

(** A row whose detail page has the given nodes after its KB marker. *)
Definition update_with_siblings (siblings : option (list Node)) : WindowsUpdate.t := {|
  WindowsUpdate.title := "2024-01 Cumulative Update (KB5034123)";
  WindowsUpdate.products := ["Windows 11"];
  WindowsUpdate.classification := "Security Updates";
  WindowsUpdate.last_updated := "2024-01-09 00:00:00";
  WindowsUpdate.version := "n/a";
  WindowsUpdate.size := "650.3 MB";
  WindowsUpdate.id := "6a4b3ec0-14a4-4b3c-bd4a-2f0e5d1c7a11";
  WindowsUpdate.details :=
    Ok {| supersedesInfo := None;
          labelKBArticle_siblings := siblings;
          p_languages := Ok (VStr "all");
          p_msrc_number := Ok VNone;
          p_msrc_severity := Ok (VStr "Critical");
          p_architecture := Ok (VStr "AMD64");
          p_is_installable := Ok (VBool true);
          p_requires_connectivity := Ok (VStr "No");
          p_requires_user_input := Ok (VStr "No");
          p_requires_restart := Ok (VStr "Yes");
          p_more_information := Ok (VStr "https://support.microsoft.com/help/5034123");
          p_descriptions := Ok (VStr "Install this update to resolve issues in Windows.");
          p_support_url := Ok (VStr "https://support.microsoft.com/help/5034123") |};
  WindowsUpdate.download_urls :=
    Ok ["https://catalog.s.download.windowsupdate.com/c/windows11.0-kb5034123-x64.msu"]
|}.


(** ** The products of a row *)

(** PRODUCT_SPLIT_PATTERN matches at a comma that has a character after
    it which is not white space. *)
Definition splits_here (c : ascii) (rest : string) : bool :=
  Ascii.eqb c "," &&
  match rest with
  | String d _ => negb (PyStr.isspace d)
  | EmptyString => false
  end.

(** [re.split(PRODUCT_SPLIT_PATTERN, s)] *)
Fixpoint split_products (s : string) : list string :=
  match s with
  | EmptyString => [EmptyString]
  | String c s' =>
      if splits_here c s' then EmptyString :: split_products s'
      else match split_products s' with
           | h :: t => String c h :: t
           | [] => [String c EmptyString]
           end
  end.

(** [self.products], as [__init__] makes it from the text of the third
    cell of the row. *)
Definition products_of (cell_text : string) : list string :=
  let products := PyStr.strip cell_text in
  List.filter WindowsUpdate.non_empty (split_products products).

(** Something other than white space comes first in the text. *)
Definition text_ahead (s : string) : bool :=
  match s with
  | String c _ => negb (PyStr.isspace c)
  | EmptyString => false
  end.

(** The text holds a comma with something other than white space right
    after it. *)
Definition comma_before_text (s : string) : Prop :=
  exists pre post, s = pre +:+ "," +:+ post /\ text_ahead post = true.

(** The pieces into which a text falls when it is cut at every comma
    that has something other than white space right after it, the
    commas left out: the first piece ends at the first such comma, and
    the text behind that comma falls into the other pieces. *)
Inductive cut_at_commas : string -> list string -> Prop :=
  | cut_nowhere (s : string) :
      ~ comma_before_text s -> cut_at_commas s [s]
  | cut_first (piece rest : string) (pieces : list string) :
      text_ahead rest = true -> ~ comma_before_text (piece +:+ ",") ->
      cut_at_commas rest pieces ->
      cut_at_commas (piece +:+ "," +:+ rest) (piece :: pieces).

(** A row like [older_update], its products read from the given cell. *)
Definition update_with_products (cell_text : string) : WindowsUpdate.t := {|
  WindowsUpdate.title := WindowsUpdate.title older_update;
  WindowsUpdate.products := products_of cell_text;
  WindowsUpdate.classification := WindowsUpdate.classification older_update;
  WindowsUpdate.last_updated := WindowsUpdate.last_updated older_update;
  WindowsUpdate.version := WindowsUpdate.version older_update;
  WindowsUpdate.size := WindowsUpdate.size older_update;
  WindowsUpdate.id := WindowsUpdate.id older_update;
  WindowsUpdate.details := WindowsUpdate.details older_update;
  WindowsUpdate.download_urls := WindowsUpdate.download_urls older_update
|}.

(** The record that a computation returned, none when it raised. *)
Definition record_of (c : exc pydict) : pydict :=
  match c with Ok r => r | Raise _ => ∅ end.

Definition returned {A} (c : exc A) : bool :=
  match c with Ok _ => true | Raise _ => false end.

(** ** The download links of an update *)

Definition DQUOTE : ascii := ascii_of_N 34.
Definition SQUOTE : ascii := ascii_of_N 39.

(** The class of the two quote characters in the patterns. *)
Definition is_quote (c : ascii) : bool := Ascii.eqb c SQUOTE || Ascii.eqb c DQUOTE.

Definition not_quote (c : ascii) : bool := negb (is_quote c).

(** [s] without its prefix [p], [None] when it does not begin with it. *)
Fixpoint strip_prefix (p s : string) : option string :=
  match p with
  | EmptyString => Some s
  | String a p' =>
      match s with
      | String b s' => if Ascii.eqb a b then strip_prefix p' s' else None
      | EmptyString => None
      end
  end.

(** What is left of [s] after its longest prefix of characters
    satisfying [p]. *)
Fixpoint drop_while (p : ascii -> bool) (s : string) : string :=
  match s with
  | EmptyString => EmptyString
  | String c s' => if p c then drop_while p s' else s
  end.

Definition DOWNLOAD_HOST : string := "://catalog.s.download.windowsupdate.com/".

(** DOWNLOAD_PATTERN matched at the beginning of [s]: the two groups, the
    digits between the brackets and the address up to the next quote.
    Each repetition is followed by a character it cannot match, so the
    longest repetition is the only one that lets the rest match. *)
Definition match_download (s : string) : option (string * string) :=
  match strip_prefix "[" s with
  | None => None
  | Some s1 =>
      let download_id := PyStr.take_while PyStr.isdecimal s1 in
      match strip_prefix "].url = " (drop_while PyStr.isdecimal s1) with
      | Some (String q s2) =>
          if is_quote q then
            match strip_prefix "http" s2 with
            | None => None
            | Some s3 =>
                match strip_prefix ("s" +:+ DOWNLOAD_HOST) s3 with
                | Some s4 =>
                    Some (download_id,
                          "https" +:+ DOWNLOAD_HOST +:+ PyStr.take_while not_quote s4)
                | None =>
                    match strip_prefix DOWNLOAD_HOST s3 with
                    | Some s4 =>
                        Some (download_id,
                              "http" +:+ DOWNLOAD_HOST +:+ PyStr.take_while not_quote s4)
                    | None => None
                    end
                end
            end
          else None
      | _ => None
      end
  end.

(** [re.findall(DOWNLOAD_PATTERN, s)]: the matches from left to right,
    each search starting where the previous match ended.  [skip] counts
    the characters of the last match still to be passed over; a match
    has the two groups and ten more characters. *)
Fixpoint findall_from (skip : nat) (s : string) : list (string * string) :=
  match s with
  | EmptyString => []
  | String _ s' =>
      match skip with
      | S k => findall_from k s'
      | O =>
          match match_download s with
          | Some (download_id, url) =>
              (download_id, url) ::
              findall_from (String.length download_id + String.length url + 9) s'
          | None => findall_from O s'
          end
      end
  end.

Definition findall_downloads (s : string) : list (string * string) := findall_from O s.

(** [\w] on the characters U+0000..U+00FF. *)
Definition word_char (c : ascii) : bool :=
  let n := PyStr.code c in
  PyStr.between 48 57 n || PyStr.between 65 90 n || (n =? 95)%N ||
  PyStr.between 97 122 n || (n =? 170)%N || PyStr.between 178 179 n ||
  (n =? 181)%N || PyStr.between 185 186 n || PyStr.between 188 190 n ||
  PyStr.between 192 214 n || PyStr.between 216 246 n || PyStr.between 248 255 n.

(** The class [\w\-\.=+\/\(\) ] of the attribute pattern. *)
Definition attribute_char (c : ascii) : bool :=
  word_char c ||
  existsb (Ascii.eqb c) ["-"; "."; "="; "+"; "/"; "("; ")"; " "]%char.

(** The text that the attribute pattern begins with, for a download id
    made of digits and a name made of letters, which [re.escape] leaves
    as they are. *)
Definition attribute_prefix (download_id raw_name : string) : string :=
  "[" +:+ download_id +:+ "]." +:+ raw_name +:+ " = ".

(** The attribute pattern matched at the beginning of [s]: its group. *)
Definition match_attribute (prefix s : string) : option string :=
  match strip_prefix prefix s with
  | Some (String q s1) =>
      if is_quote q then
        match drop_while attribute_char s1 with
        | String q' (String semicolon _) =>
            if is_quote q' && Ascii.eqb semicolon ";"
            then Some (PyStr.take_while attribute_char s1)
            else None
        | _ => None
        end
      else None
  | _ => None
  end.

(** [re.search(regex_pattern, raw)]: the group of the leftmost match. *)
Fixpoint search_attribute (prefix raw : string) : option string :=
  match match_attribute prefix raw with
  | Some value => Some value
  | None =>
      match raw with
      | EmptyString => None
      | String _ raw' => search_attribute prefix raw'
      end
  end.

Module WUDownloadInfo.

Record t := {
  url : string;
  digest : option string;
  architectures : option string;
  languages : option string;
  long_languages : option string;
  file_name : option string
}.

(** [WUDownloadInfo(download_id, url, raw)] *)
Definition init (download_id url raw : string) : t := {|
  url := url;
  digest := search_attribute (attribute_prefix download_id "digest") raw;
  architectures := search_attribute (attribute_prefix download_id "architectures") raw;
  languages := search_attribute (attribute_prefix download_id "languages") raw;
  long_languages := search_attribute (attribute_prefix download_id "longLanguages") raw;
  file_name := search_attribute (attribute_prefix download_id "fileName") raw
|}.

End WUDownloadInfo.

(** [str(self)] for a WindowsUpdate: [__str__] gets the details, prints
    them and returns what [print] returns, None, which [str] refuses
    with TypeError. *)
Definition str_of_update (details : exc DetailPage) : exc string :=
  let! _ := details in
  Raise TypeError.

(** [get_download_urls()], read for the first time, on the answer of the
    catalog to the request for the download dialog.  The message of the
    ValueError is made of [str(self)], which is evaluated before the
    exception is built. *)
Definition get_download_urls (details : exc DetailPage) (resp : exc string)
    : exc (list WUDownloadInfo.t) :=
  let! raw := resp in
  let resp_text := PyStr.strip raw in
  let link_matches := findall_downloads resp_text in
  match link_matches with
  | [] =>
      let! _ := str_of_update details in
      Raise ValueError
  | _ =>
      Ok ((fun '(download_id, url) => WUDownloadInfo.init download_id url resp_text)
            <$> link_matches)
  end.

(** The property [download_url]; [None] is Python's None. *)
Definition download_url (details : exc DetailPage) (resp : exc string)
    : exc (option (list WUDownloadInfo.t)) :=
  let! download_urls := get_download_urls details resp in
  if (length download_urls =? 0)%nat then Ok None else Ok (Some download_urls).


(** An address at the catalog's download host, quote-free after it. *)
Definition catalog_address (url : string) : Prop :=
  exists scheme path,
    url = scheme +:+ DOWNLOAD_HOST +:+ path /\
    (scheme = "http" \/ scheme = "https") /\
    all_chars not_quote path = true.

(** The list that a computation returned, empty when it raised. *)
Definition listed {A} (c : exc (list A)) : list A :=
  match c with Ok l => l | Raise _ => [] end.

(** An answer of the catalog to the request for the download dialog. *)
Definition sample_dialog : string :=
  "downloadInformation[0].files[0].url = 'https://catalog.s.download.windowsupdate.com/c/msdownload/update/software/secu/2024/01/windows11.0-kb5034123-x64_abc.msu';" +:+
  "downloadInformation[0].files[0].digest = 'q2Vd7BmMF0Nw8xYzIh4cGQ==';" +:+
  "downloadInformation[0].files[0].architectures = 'AMD64';" +:+
  "downloadInformation[0].files[0].fileName = 'windows11.0-kb5034123-x64_abc.msu';" +:+
  "downloadInformation[0].files[0].longLanguages = 'all, languages';".




(** What an attribute of a download holds when the pattern has matched:
    characters of the class only, found in the text between two quotes
    after the name, a semicolon behind them. *)
Definition attribute_found (download_id raw_name raw : string) (a : option string) : Prop :=
  match a with
  | None => True
  | Some value =>
      all_chars attribute_char value = true /\
      all_chars not_quote value = true /\
      exists q q',
        is_quote q = true /\ is_quote q' = true /\
        PyStr.contains
          (attribute_prefix download_id raw_name +:+ String q value +:+ String q' ";") raw
        = true
  end.

(** ** The links of the support page *)

(** What [get_patch_link] reads of the support page: whether it has a
    canonical link, and the [href] of each of its anchors, [None] for an
    anchor without one. *)
Record SupportPage := {
  canonical_link : bool;
  anchor_hrefs : list (option string)
}.

Definition details_marker : string := "/download/details.aspx?".

(** The address that [get_patch_link] requests for a search text. *)
Definition support_page_url (kb : string) : string :=
  let kb := PyStr.replace "kb" "" (PyStr.lower kb) in
  support_base +:+ kb.

(** [get_patch_link(kb)] for a text [kb]; [fetch] is the request and the
    parsing of its answer. *)
Definition get_patch_link (fetch : string -> exc SupportPage) (kb : string) : list string :=
  try_except
    (let! soup := fetch (support_page_url kb) in
     if negb (canonical_link soup) then Ok []
     else
       match anchor_hrefs soup with
       | [] => Ok []
       | all_anchor_tags =>
           let all_links := omap id all_anchor_tags in
           Ok (List.filter (PyStr.contains details_marker) all_links)
       end)
    [].

(** A support server that knows one article. *)
Definition sample_support (url : string) : exc SupportPage :=
  if String.eqb url "https://support.microsoft.com/help/5034123"
  then Ok {| canonical_link := true;
             anchor_hrefs := [Some "https://www.microsoft.com/en-us/download/details.aspx?id=105652";
                              None;
                              Some "https://support.microsoft.com/contactus"] |}
  else Raise FetchError.

(** ** The details literal of a download page *)

(** [json.loads], which is not modelled here. *)
Class PyJson := {
  json_loads : string -> exc PyVal
}.

(** What the scraper reads of a download page: the [href] of its
    canonical link ([None] when the page has no such link, Python's None
    when the link has no [href]) and the text [str(info_dict)] of the
    list of its script elements. *)
Record DownloadPage := {
  canonical_href : option PyVal;
  scripts : string
}.

Definition DLC_MARKER : string := ">window.__DLCDetails__=".
Definition SCRIPT_END : string := "</script>".
Definition BACKSLASH : ascii := ascii_of_N 92.
Definition TAB : ascii := ascii_of_N 9.

(** The two characters at which the title, the description and the
    operating system are cut: a double quote and a comma. *)
Definition QUOTE_COMMA : string := String DQUOTE ",".

(** [s[:n]] *)
Fixpoint take (n : nat) (s : string) : string :=
  match n, s with
  | O, _ => EmptyString
  | S _, EmptyString => EmptyString
  | S n', String c s' => String c (take n' s')
  end.

(** [s.split(sep)[0]] *)
Definition first_piece (sep s : string) : string :=
  match PyStr.index sep s with
  | Some i => take i s
  | None => s
  end.

(** [s.split(sep)[1]]: what stands between the first [sep] and the next
    one. *)
Definition second_piece (sep s : string) : exc string :=
  match PyStr.index sep s with
  | Some i => Ok (first_piece sep (PyStr.drop (i + String.length sep) s))
  | None => Raise IndexError
  end.

(** The four [replace] calls on the literal. *)
Definition clean_literal (info_dict : string) : string :=
  let info_dict := PyStr.replace (PyStr.str1 BACKSLASH) "" info_dict in
  let info_dict := PyStr.replace (PyStr.str1 PyStr.LF) "" info_dict in
  let info_dict := PyStr.replace (PyStr.str1 TAB) "" info_dict in
  PyStr.replace (PyStr.str1 PyStr.CR) "" info_dict.

(** [s[i-1:]] for the index [i] of a key: one character before the key,
    and the last character of [s] when the key is at its beginning, the
    index -1 counting from the end. *)
Definition from_before (i : nat) (s : string) : string :=
  match i with
  | O => PyStr.drop (String.length s - 1) s
  | S i' => PyStr.drop i' s
  end.

(** [x = info_dict[info_dict.index(key)-1:]; x = x[:x.index(stop)+1]] *)
Definition slice (key stop info_dict : string) : exc string :=
  match PyStr.index key info_dict with
  | None => Raise ValueError
  | Some i =>
      let x := from_before i info_dict in
      match PyStr.index stop x with
      | None => Raise ValueError
      | Some j => Ok (take (j + 1) x)
      end
  end.

(** [json.loads("{" + text + "}")].  A text in braces is decoded to a
    dict or not at all; any other value is given the failure of its
    first use. *)
Definition loads_object `{PyJson} (text : string) : exc pydict :=
  let! v := json_loads ("{" +:+ text +:+ "}") in
  match v with
  | VDict d => Ok d
  | _ => Raise AttributeError
  end.

(** The part of [get_microsoft_windows_product_update] that fetches the
    page and cuts the details out of it. *)
Definition scrape `{PyJson} (resp : exc DownloadPage) : Scrape :=
  let! soup := resp in
  let! actual_download_link :=
    match canonical_href soup with
    | Some href => Ok href
    | None => Raise AttributeError
    end in
  if PyStr.contains DLC_MARKER (scripts soup) then
    if PyStr.contains "downloadFile" (scripts soup) then
      let! info_dict := second_piece DLC_MARKER (scripts soup) in
      let info_dict := first_piece SCRIPT_END info_dict in
      let info_dict := clean_literal info_dict in
      let! download_file := slice "downloadFile" "]" info_dict in
      let! download_file := loads_object download_file in
      let! download_title := slice "downloadTitle" QUOTE_COMMA info_dict in
      let! download_title := loads_object download_title in
      let! download_description := slice "downloadDescription" QUOTE_COMMA info_dict in
      let! download_description := loads_object download_description in
      let! operating_system := slice "operatingSystem" QUOTE_COMMA info_dict in
      let! operating_system := loads_object operating_system in
      Ok (Some {| actual_download_link := actual_download_link;
                  download_file := download_file;
                  download_title := download_title;
                  download_description := download_description;
                  operating_system := operating_system |})
    else Ok None
  else Ok None.

(** *** The slices, in terms of the text of the page *)

(** The text without the characters listed. *)
Fixpoint delete_chars (chars : list ascii) (s : string) : string :=
  match s with
  | EmptyString => EmptyString
  | String c s' =>
      if existsb (Ascii.eqb c) chars then delete_chars chars s'
      else String c (delete_chars chars s')
  end.

(** [rest] is what stands in [s] behind the first [sep]. *)
Definition behind_first (sep s rest : string) : Prop :=
  exists pre, s = pre +:+ sep +:+ rest /\ PyStr.index sep s = Some (String.length pre).

(** [piece] is what stands in [s] before the first [sep], the whole of
    [s] when it holds no [sep]. *)
Definition before_first (sep s piece : string) : Prop :=
  exists post,
    s = piece +:+ post /\
    match PyStr.index sep s with
    | Some i => String.length piece = i
    | None => post = EmptyString
    end.

(** [info_dict] is the details literal of the page, cleaned: the text
    behind the first marker, up to the next marker and up to the first
    end of a script, without backslashes, line feeds, tabs and carriage
    returns. *)
Definition literal_of (scripts info_dict : string) : Prop :=
  exists rest piece raw,
    behind_first DLC_MARKER scripts rest /\
    before_first DLC_MARKER rest piece /\
    before_first SCRIPT_END piece raw /\
    info_dict = delete_chars [BACKSLASH; PyStr.LF; TAB; PyStr.CR] raw.

(** [text] is the part of [info_dict] that begins one character before
    the first [key], at the last character when the key comes first,
    and ends with the first character of the first [stop] from there
    on. *)
Definition cut_of (key stop info_dict text : string) : Prop :=
  exists a b i j,
    info_dict = a +:+ text +:+ b /\
    PyStr.index key info_dict = Some i /\
    String.length a = match i with
                      | O => String.length info_dict - 1
                      | S i' => i'
                      end /\
    PyStr.index stop (text +:+ b) = Some j /\
    String.length text = j + 1.

(** A text as it is handed to [json.loads]: without any of the four
    characters removed from the literal. *)
Definition cleaned (text : string) : Prop :=
  lacks_char BACKSLASH text = true /\ lacks_char PyStr.LF text = true /\
  lacks_char TAB text = true /\ lacks_char PyStr.CR text = true.

(** A text cut behind the first closing bracket. *)
Definition bracket_slice (text : string) : Prop :=
  exists body, text = body +:+ "]" /\ lacks_char "]" body = true.

(** A text cut behind the double quote of the first quote-and-comma. *)
Definition quoted_slice (text : string) : Prop :=
  exists body, text = body +:+ PyStr.str1 DQUOTE /\
               PyStr.contains QUOTE_COMMA text = false.

(** The text with a double quote for each backquote, to write samples. *)
Fixpoint double_quoted (s : string) : string :=
  match s with
  | EmptyString => EmptyString
  | String c s' => String (if Ascii.eqb c "`" then DQUOTE else c) (double_quoted s')
  end.

(** The script elements of a download page, as text. *)
Definition sample_scripts : string :=
  double_quoted
    ("[<script>window.dataLayer=[]</script>, <script>window.__DLCDetails__={`dlcDetailsView`:{" +:+
     "`downloadTitle`:`Security Update for Windows (KB5034123)`," +:+
     "`downloadDescription`:`A security update.`," +:+
     "`operatingSystem`:`Windows 11`," +:+
     "`downloadFile`:[{`name`:`windows11.0-kb5034123-x64.msu`," +:+
     "`url`:`https://download.microsoft.com/download/windows11.0-kb5034123-x64.msu`," +:+
     "`size`:`1073741824`,`version`:`1.0`,`datePublished`:`1/9/2024 12:00:00 AM`}]}}</script>]").

Definition sample_download_page : DownloadPage := {|
  canonical_href := Some (VStr "https://www.microsoft.com/en-us/download/details.aspx?id=105652");
  scripts := sample_scripts
|}.

(** A decoder that knows the four slices of the sample page. *)
Definition sample_json : PyJson := {|
  json_loads text :=
    if String.eqb text
         (double_quoted ("{`downloadFile`:[{`name`:`windows11.0-kb5034123-x64.msu`," +:+
          "`url`:`https://download.microsoft.com/download/windows11.0-kb5034123-x64.msu`," +:+
          "`size`:`1073741824`,`version`:`1.0`,`datePublished`:`1/9/2024 12:00:00 AM`}]}"))
    then Ok (VDict {[ "downloadFile" :=
                        descriptors [sample_file "windows11.0-kb5034123-x64.msu" "1073741824"] ]})
    else if String.eqb text
         (double_quoted "{`downloadTitle`:`Security Update for Windows (KB5034123)`}")
    then Ok (VDict {[ "downloadTitle" := VStr "Security Update for Windows (KB5034123)" ]})
    else if String.eqb text (double_quoted "{`downloadDescription`:`A security update.`}")
    then Ok (VDict {[ "downloadDescription" := VStr "A security update." ]})
    else if String.eqb text (double_quoted "{`operatingSystem`:`Windows 11`}")
    then Ok (VDict {[ "operatingSystem" := VStr "Windows 11" ]})
    else Raise ValueError
|}.

(** The details that a scrape returned. *)
Definition scraped (page : Scrape) : DLCDetails :=
  match page with
  | Ok (Some d) => d
  | _ => {| actual_download_link := VNone; download_file := ∅; download_title := ∅;
            download_description := ∅; operating_system := ∅ |}
  end.

(** ** The walk of the catalog *)

(** A row of the table of matches: what [WindowsUpdate(tr)] makes of it
    or the failure to make it, and the links in it, which are read of the
    first row, that of the headers: for each link the text of its [span]
    and its [id], [None] for a link that lacks the one or the other. *)
Record TableRow := {
  as_update : exc WindowsUpdate.t;
  header_links : list (option string * option string)
}.

(** What [find_updates] reads of a page of results: the rows of the
    element [ctl00_catalogBody_updateMatches] ([None] when the page has
    none), whether the page has an element [ctl00_catalogBody_nextPage],
    and for an [id] the [value] of the element that bears it ([None]
    when there is no such element, [Some None] when it has no value). *)
Record CatalogPage := {
  updateMatches : option (list TableRow);
  nextPage : bool;
  hidden_field : string -> option (option string)
}.

(** The data posted with a request: a dict, its keys in the order of
    their insertion. *)
Definition FormData := list (string * string).

Definition action_fields : list string :=
  ["__EVENTARGUMENT"; "__EVENTVALIDATION"; "__VIEWSTATE"; "__VIEWSTATEGENERATOR"].

Fixpoint collect_fields (catalog : CatalogPage) (fields : list string) : exc FormData :=
  match fields with
  | [] => Ok []
  | field :: rest =>
      match hidden_field catalog field with
      | None => collect_fields catalog rest
      | Some None => Raise KeyError
      | Some (Some value) =>
          let! more := collect_fields catalog rest in
          Ok ((field, value) :: more)
      end
  end.

(** [build_action_data(action)] *)
Definition build_action_data (catalog : CatalogPage) (action : string) : exc FormData :=
  let! fields := collect_fields catalog action_fields in
  Ok (("__EVENTTARGET", action) :: fields).

(** The pairs that [event_targets] is made of, in the order of the
    links. *)
Fixpoint event_target_pairs (links : list (option string * option string))
    : exc (list (string * string)) :=
  match links with
  | [] => Ok []
  | (span, id) :: rest =>
      match span with
      | None => Raise AttributeError
      | Some text =>
          match id with
          | None => Raise KeyError
          | Some i =>
              let! more := event_target_pairs rest in
              Ok ((text, PyStr.replace "_" "$" i) :: more)
          end
      end
  end.

(** [event_targets[sort]]: of two pairs with one key a dict keeps the
    later one. *)
Fixpoint event_target (sort : string) (pairs : list (string * string)) : exc string :=
  match pairs with
  | [] => Raise KeyError
  | (text, target) :: rest =>
      match event_target sort rest with
      | Ok later => Ok later
      | Raise _ => if String.eqb text sort then Ok target else Raise KeyError
      end
  end.

(** The loop [for u in raw_updates[1:]: yield WindowsUpdate(u)]: the
    updates yielded, and whether the loop came to its end. *)
Fixpoint yield_rows (rows : list TableRow) : list WindowsUpdate.t * bool :=
  match rows with
  | [] => ([], true)
  | row :: rest =>
      match as_update row with
      | Raise _ => ([], false)
      | Ok u => let '(us, ended) := yield_rows rest in (u :: us, ended)
      end
  end.

Definition NEXT_PAGE : string := "ctl00$catalogBody$nextPageLinkText".

(** [if sort:] *)
Definition sort_given (sort : option string) : option string :=
  match sort with
  | Some column => if PyStr.is_empty column then None else Some column
  | None => None
  end.

(** [find_updates(search, all_updates, sort, sort_reverse, data)], taken
    to its end: the updates it yields and the data of the requests it
    makes, in their order.  [responses] holds the answers of the catalog
    to the successive requests, parsed, or the failures to get them; a
    request beyond the last of them fails.  Whatever is raised ends the
    generator without a trace in what it has yielded. *)
Fixpoint find_updates (responses : list (exc CatalogPage)) (all_updates : bool)
    (sort : option string) (sort_reverse : bool) (data : option FormData)
    : list WindowsUpdate.t * list (option FormData) :=
  match responses with
  | [] => ([], [data])
  | Raise _ :: _ => ([], [data])
  | Ok catalog :: later =>
      match updateMatches catalog with
      | None => ([], [data])
      | Some [] => ([], [data])
      | Some (headers :: rows) =>
          match sort_given sort with
          | Some column =>
              match (let! pairs := event_target_pairs (header_links headers) in
                     let! target := event_target column pairs in
                     build_action_data catalog target) with
              | Raise _ => ([], [data])
              | Ok data' =>
                  let sort := if sort_reverse then sort else None in
                  let '(updates, requests) :=
                    find_updates later all_updates sort false (Some data') in
                  (updates, data :: requests)
              end
          | None =>
              let '(updates, ended) := yield_rows rows in
              if ended && negb (nextPage catalog) && all_updates then
                match build_action_data catalog NEXT_PAGE with
                | Raise _ => (updates, [data])
                | Ok data' =>
                    let '(more, requests) :=
                      find_updates later true None false (Some data') in
                    (updates ++ more, data :: requests)
                end
              else (updates, [data])
          end
      end
  end.

(** The updates of the rows of a page below its headers, up to the first
    row that cannot be made an update. *)
Definition updates_of (catalog : CatalogPage) : list WindowsUpdate.t :=
  match updateMatches catalog with
  | Some (_ :: rows) => fst (yield_rows rows)
  | _ => []
  end.

Definition has_table (catalog : CatalogPage) : bool :=
  match updateMatches catalog with
  | Some (_ :: _) => true
  | _ => false
  end.

(** A page after which the walk goes on: it has its table, each of its
    rows makes an update, it is not marked as the last one, and the
    data for the request of the next one can be built. *)
Definition turnable (catalog : CatalogPage) : bool :=
  match updateMatches catalog with
  | Some (_ :: rows) =>
      snd (yield_rows rows) && negb (nextPage catalog) &&
      returned (build_action_data catalog NEXT_PAGE)
  | _ => false
  end.

(** The data of the request for the page after this one. *)
Definition next_data (catalog : CatalogPage) : option FormData :=
  match build_action_data catalog NEXT_PAGE with
  | Ok data => Some data
  | Raise _ => None
  end.

(** An answer that ends the walk with nothing yielded of it: a request
    that failed, a page without the table, a table without rows. *)
Definition broken (resp : exc CatalogPage) : bool :=
  match resp with
  | Ok catalog => negb (has_table catalog)
  | Raise _ => true
  end.

(** The column's target in the headers of a page. *)
Definition sort_target (catalog : CatalogPage) (column : string) : exc string :=
  match updateMatches catalog with
  | Some (headers :: _) =>
      let! pairs := event_target_pairs (header_links headers) in
      event_target column pairs
  | _ => Raise ValueError
  end.

(** The outcome of a walk that made one request before. *)
Definition after_request (data : option FormData)
    (walk : list WindowsUpdate.t * list (option FormData))
    : list WindowsUpdate.t * list (option FormData) :=
  (fst walk, data :: snd walk).

(** A page of results with the given rows below its headers. *)
Definition sample_catalog_page (updates : list WindowsUpdate.t) (last : bool) : CatalogPage := {|
  updateMatches :=
    Some ({| as_update := Raise IndexError;
             header_links := [(Some "Title", Some "ctl00_catalogBody_updateMatches_ctl02_titleHeaderLink");
                              (Some "Last Updated", Some "ctl00_catalogBody_updateMatches_ctl02_dateHeaderLink")] |}
          :: ((fun u => {| as_update := Ok u; header_links := [] |}) <$> updates));
  nextPage := last;
  hidden_field := fun field =>
    if String.eqb field "__VIEWSTATE" then Some (Some "dDwtMTA4")
    else if String.eqb field "__EVENTVALIDATION" then Some (Some "ZXZlbnQ=")
    else None
|}.

(** ** The program *)

(** What the main program writes under "updates" for a search text:
    [responses] are the answers of the catalog to the walk, [support] is
    the request of the support page and [download] that of a download
    page.  [None] when the program exits before writing. *)
Definition main_updates `{PyLib} `{PyJson} (search : string)
    (responses : list (exc CatalogPage)) (support : string -> exc SupportPage)
    (download : string -> exc DownloadPage) : option (list pydict) :=
  let found := fst (find_updates responses true None false None) in
  let patch_links := get_patch_link support search in
  final_updates search found ((fun patch_link => scrape (download patch_link)) <$> patch_links).

(** A download server that knows one page. *)
Definition sample_download (url : string) : exc DownloadPage :=
  if String.eqb url "https://www.microsoft.com/en-us/download/details.aspx?id=105652"
  then Ok sample_download_page
  else Raise FetchError.

(** The keys of a record of the catalog path and of a record of the
    download-center path. *)
Definition catalog_keys : list string := "update_id" :: "kb_number" :: fixed_keys.
Definition fallback_keys : list string := "kb_numbers" :: fixed_keys.

(** * Properties *)

(** ** The model of the interpreter on sample values *)

Example strip_sample :
  PyStr.strip (String (ascii_of_N 160) " a b " +:+ String PyStr.LF (String (ascii_of_N 28) ""))
    = "a b".
Proof. vm_compute. reflexivity. Qed.

Example lower_sample : PyStr.lower "Update (KB5034123)" = "update (kb5034123)".
Proof. vm_compute. reflexivity. Qed.

Example split_sample : PyStr.split "," "a,,b," = ["a"; ""; "b"; ""].
Proof. vm_compute. reflexivity. Qed.

Example replace_sample : PyStr.replace "aa" "b" "aaaaa" = "bba".
Proof. vm_compute. reflexivity. Qed.

Example int_of_str_accepts :
  Py.int_of_str <$> [" 12 "; "+5"; "-5"; "1_000"; "007"] =
    [Ok 12; Ok 5; Ok (-5); Ok 1000; Ok 7]%Z.
Proof. vm_compute. reflexivity. Qed.

Example int_of_str_refuses :
  Py.int_of_str <$> [""; "+"; "- 5"; "_1"; "1_"; "1__0"; "12.5"; "5 5"; "abc"; "0x10"] =
    replicate 10 (Raise ValueError).
Proof. vm_compute. reflexivity. Qed.

Example int_of_float_truncates :
  Py.int (VFloat (Finite 25 (-1))) = Ok 12%Z /\ Py.int (VFloat (Finite (-25) (-1))) = Ok (-12)%Z.
Proof. split; reflexivity. Qed.

Example round53_ties :
  Py.round53 (2 ^ 60 + 2 ^ 7) = (2 ^ 60)%Z /\
  Py.round53 (2 ^ 60 + 3 * 2 ^ 7) = (2 ^ 60 + 2 ^ 9)%Z /\
  Py.round53 (2 ^ 53 + 1) = (2 ^ 53)%Z.
Proof. repeat split; vm_compute; reflexivity. Qed.

Example format_2f_ties :
  Py.format_2f (Finite 9 (-3)) = "1.12" /\ Py.format_2f (Finite 11 (-3)) = "1.38" /\
  Py.format_2f (Finite 1 (-3)) = "0.12" /\ Py.format_2f (Finite (-1) (-20)) = "-0.00".
Proof. repeat split; vm_compute; reflexivity. Qed.

Example convert_bytes_samples :
  convert_bytes_to_human_readable 1073741823 1 = Ok "1024.00 MB" /\
  convert_bytes_to_human_readable 0 1 = Ok "0.00 MB" /\
  convert_bytes_to_human_readable 1610612736 1 = Ok "1.50 GB".
Proof. repeat split; vm_compute; reflexivity. Qed.

Example get_kb_number_samples :
  get_kb_number (descriptors [named "readme.txt"; named "Windows-KB5034123-x64.msu"])
    = VStr "5034123" /\
  get_kb_number (descriptors [named "kbfoo.exe"; named "kb12.exe"]) = VStr "" /\
  get_kb_number (descriptors [named "setup.exe"]) = VNone /\
  get_kb_number (descriptors [∅; named "kb12.exe"]) = VNone.
Proof. repeat split; vm_compute; reflexivity. Qed.

(** ** Auxiliary facts *)

Lemma Ok_inj {A} (a b : A) : Ok a = Ok b -> a = b.
Proof. by intros [= ->]. Qed.

(** ** Strings *)

Lemma string_app_cons c (s t : string) : String c s +:+ t = String c (s +:+ t).
Proof. reflexivity. Qed.

Lemma string_app_nil (t : string) : "" +:+ t = t.
Proof. reflexivity. Qed.

Lemma string_app_length (s t : string) :
  String.length (s +:+ t) = (String.length s + String.length t)%nat.
Proof.
  induction s as [|c s IH]; [reflexivity|].
  rewrite string_app_cons. cbn. by rewrite IH.
Qed.

Lemma string_app_suffix_inj (s1 s2 t1 t2 : string) :
  String.length t1 = String.length t2 -> s1 +:+ t1 = s2 +:+ t2 -> t1 = t2.
Proof.
  revert s2. induction s1 as [|c s1 IH]; intros [|c2 s2] Hlen Heq.
  - exact Heq.
  - apply (f_equal String.length) in Heq.
    rewrite string_app_nil, string_app_cons in Heq. cbn in Heq.
    rewrite string_app_length in Heq. lia.
  - apply (f_equal String.length) in Heq.
    rewrite string_app_nil, string_app_cons in Heq. cbn in Heq.
    rewrite string_app_length in Heq. lia.
  - rewrite !string_app_cons in Heq. injection Heq as _ Heq. eauto.
Qed.

Lemma gb_is_not_mb (s1 s2 : string) : s1 +:+ " GB" <> s2 +:+ " MB".
Proof.
  intros Heq. apply string_app_suffix_inj in Heq; [discriminate|reflexivity].
Qed.

Section Strings.
Import PyStr.

Lemma is_empty_true (s : string) : is_empty s = true <-> s = "".
Proof. destruct s; split; intros; done. Qed.

Lemma is_empty_false (s : string) : s <> "" -> is_empty s = false.
Proof. by destruct s. Qed.

Lemma all_space_app (s t : string) :
  all_space (s +:+ t) = all_space s && all_space t.
Proof.
  induction s as [|c s IH]; [reflexivity|].
  rewrite string_app_cons. cbn. rewrite IH. by rewrite andb_assoc.
Qed.

Lemma all_space_lstrip (s : string) : all_space (lstrip s) = all_space s.
Proof.
  induction s as [|c s IH]; [reflexivity|]. cbn.
  destruct (isspace c) eqn:E; [exact IH|]. cbn. by rewrite E.
Qed.

Lemma is_empty_rstrip (s : string) : is_empty (rstrip s) = all_space s.
Proof.
  induction s as [|c s IH]; [reflexivity|]. cbn. rewrite IH.
  by destruct (isspace c), (all_space s).
Qed.

Lemma is_empty_strip (s : string) : is_empty (strip s) = all_space s.
Proof. unfold strip. by rewrite is_empty_rstrip, all_space_lstrip. Qed.

Lemma all_space_rstrip (s : string) : all_space (rstrip s) = all_space s.
Proof.
  induction s as [|c s IH]; [reflexivity|]. cbn. rewrite is_empty_rstrip.
  destruct (isspace c) eqn:E, (all_space s) eqn:Es; cbn; rewrite ?E, ?IH; done.
Qed.

Lemma all_space_strip (s : string) : all_space (strip s) = all_space s.
Proof. unfold strip. by rewrite all_space_rstrip, all_space_lstrip. Qed.

(** *** Removing carriage returns *)

Lemma remove_cr_cons c (s : string) :
  remove_cr (String c s) = if Ascii.eqb c CR then remove_cr s else String c (remove_cr s).
Proof.
  unfold remove_cr, replace. cbn [replace_from str1 String.prefix String.length].
  destruct (ascii_dec CR c) as [<-|Hne].
  - by destruct s.
  - destruct (Ascii.eqb_spec c CR) as [->|_]; [done|reflexivity].
Qed.

Lemma all_space_remove_cr (s : string) : all_space (remove_cr s) = all_space s.
Proof.
  induction s as [|c s IH]; [reflexivity|]. rewrite remove_cr_cons.
  destruct (Ascii.eqb_spec c CR) as [->|_]; cbn; by rewrite IH.
Qed.

Lemma lstrip_remove_cr (s : string) : lstrip (remove_cr s) = remove_cr (lstrip s).
Proof.
  induction s as [|c s IH]; [reflexivity|]. rewrite remove_cr_cons.
  destruct (Ascii.eqb_spec c CR) as [->|Hne].
  - exact IH.
  - cbn [lstrip]. destruct (isspace c); [exact IH|].
    rewrite remove_cr_cons. by destruct (Ascii.eqb_spec c CR).
Qed.

Lemma rstrip_remove_cr (s : string) : rstrip (remove_cr s) = remove_cr (rstrip s).
Proof.
  induction s as [|c s IH]; [reflexivity|]. rewrite remove_cr_cons.
  cbn [rstrip]. rewrite !is_empty_rstrip.
  destruct (Ascii.eqb_spec c CR) as [->|Hne].
  - rewrite IH. change (isspace CR) with true. cbn [andb].
    destruct (all_space s) eqn:Es.
    + assert (rstrip s = "") as -> by (apply is_empty_true; by rewrite is_empty_rstrip).
      reflexivity.
    + rewrite remove_cr_cons. reflexivity.
  - cbn [rstrip]. rewrite is_empty_rstrip, all_space_remove_cr.
    destruct (isspace c && all_space s); [reflexivity|].
    rewrite remove_cr_cons, IH. by destruct (Ascii.eqb_spec c CR).
Qed.

Lemma strip_remove_cr (s : string) : strip (remove_cr s) = remove_cr (strip s).
Proof. unfold strip. by rewrite lstrip_remove_cr, rstrip_remove_cr. Qed.

(** *** Splitting on line feeds *)

Lemma split_not_nil sep (s : string) : split sep s <> [].
Proof.
  induction s as [|c s IH]; [done|]. cbn.
  destruct (Ascii.eqb c sep); [done|]. by destruct (split sep s).
Qed.

Lemma all_space_split (s : string) :
  forallb all_space (split LF s) = all_space s.
Proof.
  induction s as [|c s IH]; [reflexivity|]. cbn [split].
  destruct (Ascii.eqb_spec c LF) as [->|Hne].
  - cbn. exact IH.
  - pose proof (split_not_nil LF s) as Hnn.
    destruct (split LF s) as [|h t]; [done|].
    cbn in *. rewrite <- IH. by rewrite andb_assoc.
Qed.

(** *** Replacing *)

Lemma prefix_true (old s : string) :
  String.prefix old s = true -> s = old +:+ drop (String.length old) s.
Proof.
  revert s. induction old as [|c old IH]; intros s Hp; [reflexivity|].
  destruct s as [|c' s]; [discriminate|]. cbn in Hp.
  destruct (ascii_dec c c') as [->|]; [|discriminate].
  rewrite string_app_cons. cbn. f_equal. by apply IH.
Qed.

Lemma all_space_replace_from (old new : string) skip (s : string) :
  old <> "" -> all_space old = true -> all_space new = true ->
  all_space (replace_from old new skip s) = all_space (drop skip s).
Proof.
  intros Hne Hold Hnew. revert skip.
  induction s as [|c s IH]; intros skip.
  - by destruct skip.
  - destruct skip as [|k]; cbn [replace_from drop]; [|apply IH].
    destruct (String.prefix old (String c s)) eqn:Hp.
    + rewrite all_space_app, Hnew, IH. cbn [andb].
      apply prefix_true in Hp.
      destruct old as [|c0 old]; [done|].
      rewrite string_app_cons in Hp. injection Hp as -> Hs.
      cbn [String.length drop] in Hs.
      replace (String.length (String c0 old) - 1) with (String.length old)
        by (cbn [String.length]; lia).
      cbn [all_space] in Hold. apply andb_true_iff in Hold as [Hc0 Hold].
      cbn [all_space]. rewrite Hc0. cbn [andb].
      rewrite Hs at 2. rewrite all_space_app, Hold. reflexivity.
    + cbn [all_space]. rewrite IH. reflexivity.
Qed.

Lemma all_space_replace (old new s : string) :
  old <> "" -> all_space old = true -> all_space new = true ->
  all_space (replace old new s) = all_space s.
Proof. intros. unfold replace. by rewrite all_space_replace_from. Qed.

Lemma replace_absent (old new s : string) :
  contains old s = false -> replace old new s = s.
Proof.
  unfold replace. induction s as [|c s IH]; [reflexivity|].
  cbn [contains replace_from].
  destruct (String.prefix old (String c s)); [discriminate|].
  intros Hc. by rewrite IH.
Qed.


End Strings.

(** ** Rounding to a float *)

Section Rounding.
Local Open Scope Z_scope.

Lemma div_half_even_bounds a d :
  a / d <= Py.div_half_even a d <= a / d + 1.
Proof. unfold Py.div_half_even. destruct (_ || _); lia. Qed.

Lemma div_half_even_up a d :
  0 < d -> Z.odd (a / d) = true ->
  (Py.div_half_even a d = a / d + 1 <-> d <= 2 * (a mod d)).
Proof.
  intros Hd Hodd. unfold Py.div_half_even. rewrite Hodd, andb_true_r.
  destruct (d <? 2 * (a mod d)) eqn:E1; simpl.
  - apply Z.ltb_lt in E1. split; lia.
  - apply Z.ltb_ge in E1.
    destruct (d =? 2 * (a mod d)) eqn:E2.
    + apply Z.eqb_eq in E2. split; lia.
    + apply Z.eqb_neq in E2. split; lia.
Qed.

Lemma round53_abs_spec n : Z.abs (Py.round53 n) = round53_abs (Z.abs n).
Proof.
  unfold Py.round53, round53_abs.
  replace (Z.log2 (Z.abs n) + 1 - 53) with (Z.log2 (Z.abs n) - 52) by lia.
  destruct (Z.log2 (Z.abs n) + 1 <=? 53) eqn:E; [reflexivity|].
  apply Z.leb_gt in E.
  assert (Hn : n <> 0) by (intros ->; simpl in E; lia).
  set (k := Z.log2 (Z.abs n) - 52) in *.
  assert (0 < 2 ^ k) by (apply Z.pow_pos_nonneg; lia).
  pose proof (div_half_even_bounds (Z.abs n) (2 ^ k)).
  assert (0 <= Z.abs n / 2 ^ k) by (apply Z.div_pos; lia).
  destruct (Z.lt_trichotomy n 0) as [Hs|[Hs|Hs]]; [|lia|].
  - rewrite (Z.sgn_neg n) by lia. nia.
  - rewrite (Z.sgn_pos n) by lia. nia.
Qed.

Lemma round53_sign_nonneg n : 0 <= n -> 0 <= Py.round53 n.
Proof.
  intros Hn. unfold Py.round53.
  destruct (_ <=? _) eqn:E; [lia|].
  set (k := Z.log2 (Z.abs n) + 1 - 53).
  apply Z.leb_gt in E.
  assert (0 < 2 ^ k) by (apply Z.pow_pos_nonneg; lia).
  pose proof (div_half_even_bounds (Z.abs n) (2 ^ k)).
  assert (0 <= Z.abs n / 2 ^ k) by (apply Z.div_pos; lia).
  assert (0 <= Z.sgn n) by (apply Z.sgn_nonneg; lia). nia.
Qed.

Lemma round53_sign_neg n : n < 0 -> Py.round53 n <= 0.
Proof.
  intros Hn. unfold Py.round53.
  destruct (_ <=? _) eqn:E; [lia|].
  set (k := Z.log2 (Z.abs n) + 1 - 53).
  apply Z.leb_gt in E.
  assert (0 < 2 ^ k) by (apply Z.pow_pos_nonneg; lia).
  pose proof (div_half_even_bounds (Z.abs n) (2 ^ k)).
  assert (0 <= Z.abs n / 2 ^ k) by (apply Z.div_pos; lia).
  rewrite Z.sgn_neg by lia. nia.
Qed.

(** A magnitude [a] of more than 53 bits, cut at [P = 2^(log2 a - 52)]. *)
Lemma wide_facts a :
  53 <= Z.log2 a ->
  let P := 2 ^ (Z.log2 a - 52) in
  0 < P /\ 2 ^ 52 * P <= a < 2 ^ 53 * P /\
  2 ^ 52 <= a / P < 2 ^ 53 /\ 0 <= a mod P < P /\ a = a / P * P + a mod P.
Proof.
  intros HL P.
  assert (Ha : 0 < a).
  { destruct (Z.lt_ge_cases 0 a) as [|Hle]; [done|].
    rewrite (Z.log2_nonpos a Hle) in HL. lia. }
  destruct (Z.log2_spec a Ha) as [Hlo Hhi].
  assert (HP : 0 < P) by (apply Z.pow_pos_nonneg; lia).
  assert (E1 : 2 ^ Z.log2 a = 2 ^ 52 * P).
  { unfold P. rewrite <- Z.pow_add_r by lia. f_equal. lia. }
  assert (E2 : 2 ^ Z.succ (Z.log2 a) = 2 ^ 53 * P).
  { unfold P. rewrite <- Z.pow_add_r by lia. f_equal. lia. }
  rewrite E1 in Hlo. rewrite E2 in Hhi.
  pose proof (Z.mod_pos_bound a P HP).
  pose proof (Z.div_mod a P ltac:(lia)).
  repeat split; try lia.
  - apply Z.div_le_lower_bound; lia.
  - apply Z.div_lt_upper_bound; lia.
Qed.

(** A threshold of at most 2^52 is crossed by the rounded magnitude
    exactly when the magnitude crosses it. *)
Lemma round53_abs_small_threshold a t :
  0 <= a -> t <= 2 ^ 52 -> (t <= round53_abs a <-> t <= a).
Proof.
  intros Ha Ht. unfold round53_abs.
  destruct (Z.log2 a + 1 <=? 53) eqn:E; [reflexivity|].
  apply Z.leb_gt in E.
  destruct (wide_facts a ltac:(lia)) as (HP & Hb & Hq & Hr & Hdm).
  set (P := 2 ^ (Z.log2 a - 52)) in *.
  pose proof (div_half_even_bounds a P). split; intros _; nia.
Qed.

(** The rounded magnitude reaches 2^E exactly from half a unit in the
    last place below it. *)
Lemma round53_abs_overflow_threshold a E :
  0 <= a -> 54 <= E ->
  (2 ^ E <= round53_abs a <-> 2 ^ E - 2 ^ (E - 54) <= a).
Proof.
  intros Ha HE.
  assert (HH : 0 < 2 ^ (E - 54)) by (apply Z.pow_pos_nonneg; lia).
  assert (EE : 2 ^ E = 2 ^ 54 * 2 ^ (E - 54)).
  { rewrite <- Z.pow_add_r by lia. f_equal. lia. }
  set (H := 2 ^ (E - 54)) in *.
  unfold round53_abs.
  destruct (Z.log2 a + 1 <=? 53) eqn:Eb.
  - apply Z.leb_le in Eb.
    assert (a < 2 ^ 53).
    { destruct (decide (a = 0)) as [->|]; [reflexivity|].
      destruct (Z.log2_spec a ltac:(lia)) as [_ Hhi].
      eapply Z.lt_le_trans; [exact Hhi|]. apply Z.pow_le_mono_r; lia. }
    split; intros; nia.
  - apply Z.leb_gt in Eb.
    destruct (wide_facts a ltac:(lia)) as (HP & Hb & Hq & Hr & Hdm).
    pose proof (div_half_even_bounds a (2 ^ (Z.log2 a - 52))) as Hd.
    destruct (Z.lt_trichotomy (Z.log2 a + 1) E) as [Hlt|[Heq|Hgt]].
    + (* fewer bits than E *)
      assert (2 ^ 53 * 2 ^ (Z.log2 a - 52) <= 2 ^ 53 * H).
      { unfold H. rewrite <- !Z.pow_add_r by lia. apply Z.pow_le_mono_r; lia. }
      set (P := 2 ^ (Z.log2 a - 52)) in *. split; intros; nia.
    + (* exactly E bits *)
      assert (EP : 2 ^ (Z.log2 a - 52) = 2 * H).
      { unfold H. replace (Z.log2 a - 52) with (1 + (E - 54)) by lia.
        rewrite Z.pow_add_r by lia. reflexivity. }
      set (P := 2 ^ (Z.log2 a - 52)) in *.
      split; intros Hx.
      * assert (Hq' : a / P = 2 ^ 53 - 1) by nia.
        assert (Hup : Py.div_half_even a P = a / P + 1) by nia.
        apply div_half_even_up in Hup; [|lia|rewrite Hq'; reflexivity].
        nia.
      * assert (Hq' : a / P = 2 ^ 53 - 1).
        { assert (2 ^ 53 - 1 <= a / P) by (apply Z.div_le_lower_bound; nia). lia. }
        assert (Hup : Py.div_half_even a P = a / P + 1).
        { apply div_half_even_up; [lia|rewrite Hq'; reflexivity|]. nia. }
        rewrite Hup, Hq'. nia.
    + (* more bits than E *)
      assert (2 ^ 54 * H <= 2 ^ 52 * 2 ^ (Z.log2 a - 52)).
      { unfold H. rewrite <- !Z.pow_add_r by lia. apply Z.pow_le_mono_r; lia. }
      set (P := 2 ^ (Z.log2 a - 52)) in *. split; intros; nia.
Qed.

(** The division raises exactly when the magnitude is within half a unit
    in the last place of [2^(1024+k)]. *)
Lemma truediv_pow2_spec n k :
  0 <= k ->
  Py.truediv_pow2 n k =
    if 2 ^ (1024 + k) - 2 ^ (970 + k) <=? Z.abs n then Raise OverflowError
    else Ok (Finite (Py.round53 n) (- k)).
Proof.
  intros Hk. unfold Py.truediv_pow2.
  rewrite round53_abs_spec.
  pose proof (round53_abs_overflow_threshold (Z.abs n) (1024 + k) ltac:(lia) ltac:(lia)) as Ht.
  replace (1024 + k - 54) with (970 + k) in Ht by lia.
  destruct (2 ^ (1024 + k) <=? round53_abs (Z.abs n)) eqn:E1;
    destruct (2 ^ (1024 + k) - 2 ^ (970 + k) <=? Z.abs n) eqn:E2; try reflexivity.
  - apply Z.leb_le in E1. apply Z.leb_gt in E2. lia.
  - apply Z.leb_gt in E1. apply Z.leb_le in E2. lia.
Qed.

Lemma round53_ge_GiB n : (GiB <=? Py.round53 n) = (GiB <=? n).
Proof.
  destruct (Z.le_gt_cases 0 n) as [Hn|Hn].
  - pose proof (round53_sign_nonneg n Hn).
    pose proof (round53_abs_spec n) as Ha.
    rewrite !Z.abs_eq in Ha by lia.
    pose proof (round53_abs_small_threshold n GiB Hn ltac:(unfold GiB; lia)) as Ht.
    rewrite <- Ha in Ht.
    destruct (GiB <=? Py.round53 n) eqn:E1; destruct (GiB <=? n) eqn:E2; try reflexivity.
    + apply Z.leb_le in E1. apply Z.leb_gt in E2. lia.
    + apply Z.leb_gt in E1. apply Z.leb_le in E2. lia.
  - pose proof (round53_sign_neg n ltac:(lia)).
    assert (0 < GiB) by reflexivity.
    rewrite (proj2 (Z.leb_gt GiB (Py.round53 n))) by lia.
    rewrite (proj2 (Z.leb_gt GiB n)) by lia. reflexivity.
Qed.

(** The three outcomes of the conversion. *)
Lemma convert_bytes_cases n :
  convert_bytes_to_human_readable n 1 =
    if gb_limit <=? Z.abs n then Raise OverflowError
    else if GiB <=? n
         then Ok (Py.format_2f (Finite (Py.round53 n) (-30)) +:+ " GB")
         else if mb_limit <=? Z.abs n then Raise OverflowError
              else Ok (Py.format_2f (Finite (Py.round53 n) (-20)) +:+ " MB").
Proof.
  unfold convert_bytes_to_human_readable.
  rewrite !truediv_pow2_spec by lia.
  change (2 ^ (1024 + 30) - 2 ^ (970 + 30)) with gb_limit.
  change (2 ^ (1024 + 20) - 2 ^ (970 + 20)) with mb_limit.
  destruct (gb_limit <=? Z.abs n); [reflexivity|].
  cbn [bind]. unfold Py.float_ge_int.
  change (0 <=? -30) with false. cbn iota.
  change (1 * 2 ^ (- -30)) with GiB.
  rewrite round53_ge_GiB.
  destruct (GiB <=? n); [reflexivity|].
  destruct (mb_limit <=? Z.abs n); reflexivity.
Qed.

Lemma limits_ordered : 0 < GiB /\ GiB < mb_limit /\ mb_limit < gb_limit.
Proof. vm_compute. repeat split; reflexivity. Qed.

Lemma convert_bytes_overflow n :
  gb_limit <= n \/ n <= - mb_limit ->
  convert_bytes_to_human_readable n 1 = Raise OverflowError.
Proof.
  pose proof limits_ordered as Hlim. rewrite convert_bytes_cases.
  intros [Hn|Hn].
  - by rewrite (proj2 (Z.leb_le gb_limit (Z.abs n))) by lia.
  - destruct (gb_limit <=? Z.abs n); [reflexivity|].
    rewrite (proj2 (Z.leb_gt GiB n)) by lia.
    by rewrite (proj2 (Z.leb_le mb_limit (Z.abs n))) by lia.
Qed.

(** Within the range of a float the branch is chosen at 1 GiB. *)
Lemma branch_by_GiB_in_range n : - mb_limit < n < gb_limit -> branch_by_GiB n.
Proof.
  intros Hn. pose proof limits_ordered as Hlim.
  pose proof (convert_bytes_cases n) as Hc.
  pose proof (truediv_pow2_spec n 30 ltac:(lia)) as H30.
  pose proof (truediv_pow2_spec n 20 ltac:(lia)) as H20.
  change (2 ^ (1024 + 30) - 2 ^ (970 + 30)) with gb_limit in H30.
  change (2 ^ (1024 + 20) - 2 ^ (970 + 20)) with mb_limit in H20.
  rewrite (proj2 (Z.leb_gt gb_limit (Z.abs n))) in Hc, H30 by lia.
  destruct (GiB <=? n) eqn:E.
  - apply Z.leb_le in E. split; split.
    + intros _. exact E.
    + intros _. eexists. split; [exact H30|exact Hc].
    + intros (x & _ & Hx). rewrite Hc in Hx. apply Ok_inj in Hx.
      by apply gb_is_not_mb in Hx.
    + lia.
  - apply Z.leb_gt in E.
    rewrite (proj2 (Z.leb_gt mb_limit (Z.abs n))) in Hc, H20 by lia.
    split; split.
    + intros (x & _ & Hx). rewrite Hc in Hx. apply Ok_inj in Hx.
      symmetry in Hx. by apply gb_is_not_mb in Hx.
    + lia.
    + intros _. exact E.
    + intros _. eexists. split; [exact H20|exact Hc].
Qed.

(** C4 (as amended): 1073741824 bytes render as "1.00 GB" and 1048576
    bytes as "1.00 MB"; for every byte count whose quotient fits a float,
    that is above -(2^1044 - 2^990) and below 2^1054 - 2^1000, the GB
    branch is taken exactly when the count is at least 2^30 and the MB
    branch otherwise; outside these bounds the call raises OverflowError. *)
Theorem convert_bytes_branch_in_range n :
  convert_bytes_to_human_readable 1073741824 1 = Ok "1.00 GB" /\
  convert_bytes_to_human_readable 1048576 1 = Ok "1.00 MB" /\
  (- mb_limit < n < gb_limit -> branch_by_GiB n) /\
  (gb_limit <= n -> convert_bytes_to_human_readable n 1 = Raise OverflowError) /\
  (n <= - mb_limit -> convert_bytes_to_human_readable n 1 = Raise OverflowError).
Proof.
  split; [vm_compute; reflexivity|]. split; [vm_compute; reflexivity|].
  split; [apply branch_by_GiB_in_range|].
  split; intros Hn; apply convert_bytes_overflow; [by left|by right].
Qed.

Lemma convert_bytes_branch_in_range_witness :
  branch_by_GiB (2 ^ 30) /\
  convert_bytes_to_human_readable (2 ^ 1054) 1 = Raise OverflowError /\
  convert_bytes_to_human_readable (- 2 ^ 1044) 1 = Raise OverflowError.
Proof.
  split; [|split].
  - apply (proj1 (proj2 (proj2 (convert_bytes_branch_in_range (2 ^ 30))))).
    vm_compute. split; reflexivity.
  - apply (proj1 (proj2 (proj2 (proj2 (convert_bytes_branch_in_range (2 ^ 1054)))))).
    apply Z.leb_le. vm_compute. reflexivity.
  - apply (proj2 (proj2 (proj2 (proj2 (convert_bytes_branch_in_range (- 2 ^ 1044)))))).
    apply Z.leb_le. vm_compute. reflexivity.
Defined.

(** C4 (as stated) fails at 2^1054 bytes: the count is at least 1 GiB
    and the call raises OverflowError instead of taking the GB branch. *)
Lemma convert_bytes_branch_overflow : ~ branch_by_GiB (2 ^ 1054).
Proof.
  intros [[_ Hgb] _].
  destruct Hgb as (x & Hx & _); [apply Z.leb_le; vm_compute; reflexivity|].
  vm_compute in Hx. discriminate.
Qed.

End Rounding.

(** ** The helpers on download descriptors *)

Lemma sum_sizes_all_ok (ds : list pydict) (ns : list Z) (acc : Z) :
  Forall2 (fun d n => size_of d = Ok n) ds ns ->
  sum_sizes acc (VDict <$> ds) = Ok (acc + total_size ns)%Z.
Proof.
  intros HF. revert acc. induction HF as [|d n ds ns Hd _ IH]; intros acc.
  - unfold total_size. cbn. f_equal. lia.
  - cbn [fmap list_fmap sum_sizes]. unfold size_of in Hd.
    destruct (Py.get (VDict d) "size") as [v|e]; [|discriminate].
    cbn [bind] in *. rewrite Hd. cbn [bind]. rewrite IH. f_equal.
    unfold total_size. cbn [foldr]. lia.
Qed.

Lemma sum_sizes_some_bad (ds : list pydict) (acc : Z) :
  Exists bad_size ds -> exists e, sum_sizes acc (VDict <$> ds) = Raise e.
Proof.
  intros HE. revert acc. induction HE as [d ds [e Hd]|d ds _ IH]; intros acc.
  - exists e. cbn [fmap list_fmap sum_sizes]. unfold size_of in Hd.
    destruct (Py.get (VDict d) "size") as [v|e']; cbn [bind] in *.
    + by rewrite Hd.
    + exact Hd.
  - cbn [fmap list_fmap sum_sizes].
    destruct (Py.get (VDict d) "size") as [v|e']; cbn [bind]; [|by eexists].
    destruct (Py.int v) as [n|e']; cbn [bind]; [|by eexists].
    apply IH.
Qed.

Lemma size_missing (d : pydict) : d !! "size" = None -> size_of d = Raise TypeError.
Proof. intros Hd. unfold size_of. cbn. by rewrite Hd. Qed.

Lemma int_of_str_raises (s : string) e : Py.int_of_str s = Raise e -> e = ValueError.
Proof.
  unfold Py.int_of_str.
  destruct (match Py.skip_int_space s with
            | String "+" s' => Py.int_unsigned s'
            | String "-" s' => Z.opp <$> Py.int_unsigned s'
            | _ => Py.int_unsigned (Py.skip_int_space s)
            end); [discriminate|]. congruence.
Qed.

Lemma size_not_a_number (d : pydict) (s : string) :
  d !! "size" = Some (VStr s) -> (forall n, Py.int_of_str s <> Ok n) -> bad_size d.
Proof.
  intros Hd Hs. exists ValueError. unfold size_of. cbn. rewrite Hd. cbn.
  destruct (Py.int_of_str s) as [n|e] eqn:E; [by destruct (Hs n)|].
  by apply int_of_str_raises in E as ->.
Qed.

(** C5: on a list of descriptors whose sizes all convert with [int],
    get_update_size returns the rendering of their sum (through the GB
    branch when the sum is at least 2^30, the MB branch otherwise, "N/A"
    when rendering fails); when the size of some descriptor is missing or
    does not convert, it returns "N/A". *)
Theorem get_update_size_spec (ds : list pydict) :
  (forall ns, Forall2 (fun d n => size_of d = Ok n) ds ns ->
     get_update_size (descriptors ds) =
       try_except (convert_bytes_to_human_readable (total_size ns) 1) "N/A" /\
     ((- mb_limit < total_size ns < gb_limit)%Z ->
        ((GiB <= total_size ns)%Z ->
           exists x, Py.truediv_pow2 (total_size ns) 30 = Ok x /\
                     get_update_size (descriptors ds) = Py.format_2f x +:+ " GB") /\
        ((total_size ns < GiB)%Z ->
           exists x, Py.truediv_pow2 (total_size ns) 20 = Ok x /\
                     get_update_size (descriptors ds) = Py.format_2f x +:+ " MB"))) /\
  (Exists bad_size ds -> get_update_size (descriptors ds) = "N/A") /\
  (Exists (fun d => d !! "size" = None \/
                    exists s, d !! "size" = Some (VStr s) /\
                              forall n, Py.int_of_str s <> Ok n) ds ->
     get_update_size (descriptors ds) = "N/A").
Proof.
  assert (Hbad : Exists bad_size ds -> get_update_size (descriptors ds) = "N/A").
  { intros HE. unfold get_update_size, descriptors. cbn [Py.iter bind].
    destruct (sum_sizes_some_bad ds 0 HE) as [e ->]. reflexivity. }
  split; [|split; [exact Hbad|]].
  - intros ns Hns.
    assert (Heq : get_update_size (descriptors ds) =
       try_except (convert_bytes_to_human_readable (total_size ns) 1) "N/A").
    { unfold get_update_size, descriptors. cbn [Py.iter bind].
      rewrite (sum_sizes_all_ok ds ns 0 Hns). cbn [bind]. reflexivity. }
    split; [exact Heq|].
    intros Hrange.
    destruct (branch_by_GiB_in_range _ Hrange) as [[_ Hgb] [_ Hmb]].
    split; intros Hcmp.
    + destruct (Hgb Hcmp) as (x & Hx & Hc). exists x. split; [exact Hx|].
      rewrite Heq, Hc. reflexivity.
    + destruct (Hmb Hcmp) as (x & Hx & Hc). exists x. split; [exact Hx|].
      rewrite Heq, Hc. reflexivity.
  - intros HE. apply Hbad. eapply Exists_impl; [exact HE|].
    intros d [Hd|(s & Hd & Hs)].
    + exists TypeError. by apply size_missing.
    + by eapply size_not_a_number.
Qed.

Lemma get_update_size_spec_witness :
  get_update_size
    (descriptors [sample_file "a.msu" "1073741824"; sample_file "b.msu" "1048576"])
    = "1.00 GB" /\
  get_update_size (descriptors [sample_file "a.msu" "1073741824"; named "b.msu"]) = "N/A" /\
  get_update_size (descriptors [sample_file "a.msu" "12 MB"]) = "N/A".
Proof.
  split; [|split].
  - pose proof (proj1 (get_update_size_spec
      [sample_file "a.msu" "1073741824"; sample_file "b.msu" "1048576"])
      [1073741824; 1048576]%Z) as Hs.
    rewrite (proj1 (Hs ltac:(repeat constructor))). vm_compute. reflexivity.
  - apply (proj2 (proj2 (get_update_size_spec
      [sample_file "a.msu" "1073741824"; named "b.msu"]))).
    apply Exists_cons_tl, Exists_cons_hd. left. reflexivity.
  - apply (proj2 (proj2 (get_update_size_spec [sample_file "a.msu" "12 MB"]))).
    apply Exists_cons_hd. right. exists "12 MB". split; [reflexivity|].
    intros n. vm_compute. discriminate.
Defined.

(** C10: on a non-empty list of descriptors get_version_number returns the
    "version" of the first descriptor and get_last_updated its
    "datePublished" (None when the key is missing), whatever the later
    descriptors hold; on the empty list both return None. *)
Theorem first_descriptor_only (d : pydict) (ds : list pydict) :
  get_version_number (descriptors (d :: ds)) = default VNone (d !! "version") /\
  get_last_updated (descriptors (d :: ds)) = default VNone (d !! "datePublished") /\
  get_version_number (descriptors []) = VNone /\
  get_last_updated (descriptors []) = VNone.
Proof. repeat split. Qed.

(** *** The architecture *)

Lemma scan_architecture_unmarked (d : pydict) (rest : list PyVal) :
  unmarked d -> scan_architecture (VDict d :: rest) = scan_architecture rest.
Proof.
  intros (s & Hs & Hm). unfold file_name_of in Hs.
  destruct (d !! "name") as [[]|] eqn:Hn; try discriminate. injection Hs as ->.
  unfold has_marker in Hm. apply orb_false_elim in Hm as [Hm H86].
  apply orb_false_elim in Hm as [H64 H32].
  cbn [scan_architecture Py.get bind]. rewrite Hn.
  cbn [from_option id Py.contains bind].
  rewrite H64, H32. cbn [bind]. rewrite H86. reflexivity.
Qed.

Lemma scan_architecture_marked (d : pydict) (s : string) (rest : list PyVal) :
  file_name_of d = Some s -> has_marker s = true ->
  scan_architecture (VDict d :: rest) =
    Ok (VStr (if PyStr.contains "64" s then "x64" else "x86")).
Proof.
  intros Hs Hm. unfold file_name_of in Hs.
  destruct (d !! "name") as [[]|] eqn:Hn; try discriminate. injection Hs as ->.
  unfold has_marker in Hm.
  cbn [scan_architecture Py.get bind]. rewrite Hn.
  cbn [from_option id Py.contains bind].
  destruct (PyStr.contains "64" s) eqn:H64; [reflexivity|].
  destruct (PyStr.contains "32" s) eqn:H32; cbn [bind]; [reflexivity|].
  destruct (PyStr.contains "86" s) eqn:H86; cbn [bind]; [reflexivity|discriminate].
Qed.

Lemma scan_stops_at_first_marker (before : list pydict) (d : pydict)
    (after : list pydict) (s : string) :
  Forall unmarked before -> file_name_of d = Some s -> has_marker s = true ->
  get_architecture (descriptors (before ++ d :: after)) =
    VStr (if PyStr.contains "64" s then "x64" else "x86").
Proof.
  intros Hb Hs Hm.
  unfold get_architecture, descriptors. cbn [Py.iter bind].
  induction Hb as [|x before Hx _ IH].
  - cbn [app fmap list_fmap]. by rewrite (scan_architecture_marked d s).
  - cbn [app fmap list_fmap]. rewrite scan_architecture_unmarked by done. exact IH.
Qed.

Lemma scan_without_marker (ds : list pydict) :
  Forall unmarked ds -> get_architecture (descriptors ds) = VNone.
Proof.
  intros Hds. unfold get_architecture, descriptors. cbn [Py.iter bind].
  induction Hds as [|x ds Hx _ IH]; [reflexivity|].
  cbn [fmap list_fmap]. rewrite scan_architecture_unmarked by done. exact IH.
Qed.

(** On a list of one file the derivation is the stated one. *)
Lemma architecture_of_single_file (d : pydict) (s : string) :
  file_name_of d = Some s -> architecture_as_stated [d].
Proof.
  intros Hs.
  assert (H64 : names_contain "64" [d] <-> PyStr.contains "64" s = true).
  { unfold names_contain. rewrite Exists_cons, Exists_nil. split.
    - intros [(s' & Hs' & Hc)|[]]. congruence.
    - intros Hc. left. by exists s. }
  assert (H86 : names_suggest_x86 [d] <->
                PyStr.contains "32" s = true \/
                (PyStr.contains "86" s = true /\ PyStr.contains "64" s = false)).
  { unfold names_suggest_x86. rewrite Exists_cons, Exists_nil. split.
    - intros [(s' & Hs' & Hc)|[]]. congruence.
    - intros Hc. left. by exists s. }
  unfold architecture_as_stated. rewrite H64, H86.
  pose proof (scan_stops_at_first_marker [] d [] s (Forall_nil_2 _) Hs) as Hm.
  pose proof (scan_without_marker [d]) as Hu.
  unfold has_marker in Hm. cbn [app] in Hm.
  destruct (PyStr.contains "64" s) eqn:E64, (PyStr.contains "32" s) eqn:E32,
           (PyStr.contains "86" s) eqn:E86; cbn [orb] in Hm;
    (split; [|split]); intros; try done; try (by apply Hm); try (exfalso; tauto).
  apply Hu. constructor; [|constructor]. exists s. split; [done|].
  unfold has_marker. by rewrite E64, E32, E86.
Qed.

(** C6 (as amended): get_architecture scans the descriptors in order and
    the first file name that contains "64", "32" or "86" decides: "x64" if
    that name contains "64" (so "update-ia64.exe" gives "x64"), "x86"
    otherwise; when no file name contains any of the three the
    architecture is left unset (None); on a list of one file this is the
    derivation as stated. *)
Theorem get_architecture_first_match :
  (forall (before : list pydict) (d : pydict) (after : list pydict) (s : string),
     Forall unmarked before -> file_name_of d = Some s -> has_marker s = true ->
     get_architecture (descriptors (before ++ d :: after)) =
       VStr (if PyStr.contains "64" s then "x64" else "x86")) /\
  (forall ds : list pydict,
     Forall unmarked ds -> get_architecture (descriptors ds) = VNone) /\
  (forall (d : pydict) (s : string),
     file_name_of d = Some s -> architecture_as_stated [d]) /\
  get_architecture (descriptors [named "update-x64.exe"]) = VStr "x64" /\
  get_architecture (descriptors [named "update-x86.exe"]) = VStr "x86" /\
  get_architecture (descriptors [named "update-ia64.exe"]) = VStr "x64".
Proof.
  split; [|split; [|split; [|repeat split]]].
  - apply scan_stops_at_first_marker.
  - apply scan_without_marker.
  - apply architecture_of_single_file.
Qed.

Lemma get_architecture_first_match_witness :
  get_architecture
    (descriptors [named "readme.txt"; named "setup32.exe"; named "setup64.exe"])
    = VStr "x86" /\
  get_architecture (descriptors [named "readme.txt"; named "notes.pdf"]) = VNone.
Proof.
  split.
  - apply (proj1 get_architecture_first_match
             [named "readme.txt"] (named "setup32.exe") [named "setup64.exe"]
             "setup32.exe").
    + repeat constructor. exists "readme.txt". split; reflexivity.
    + reflexivity.
    + reflexivity.
  - apply (proj1 (proj2 get_architecture_first_match)).
    repeat constructor; eexists; split; reflexivity.
Defined.

(** C6 (as stated) fails on a 32-bit file listed before a 64-bit one: a
    file name contains "64", and the result is "x86". *)
Lemma get_architecture_not_by_any_name :
  ~ architecture_as_stated [named "setup32.exe"; named "setup64.exe"].
Proof.
  intros [H64 _].
  assert (Hc : names_contain "64" [named "setup32.exe"; named "setup64.exe"]).
  { apply Exists_cons_tl, Exists_cons_hd. exists "setup64.exe". split; reflexivity. }
  specialize (H64 Hc). vm_compute in H64. discriminate.
Qed.

(** *** The KB number in a title or a file name *)







(** *** The digits after the first "kb", in the words of the specification *)

Lemma string_app_assoc (s t u : string) : (s +:+ t) +:+ u = s +:+ (t +:+ u).
Proof.
  induction s as [|c s IH]; [reflexivity|]. rewrite !string_app_cons. by rewrite IH.
Qed.

Lemma prefix_app (sub post : string) : String.prefix sub (sub +:+ post) = true.
Proof.
  induction sub as [|c sub IH]; [by destruct post|].
  rewrite string_app_cons. cbn. destruct (ascii_dec c c); [exact IH|done].
Qed.

Lemma contains_app (pre sub post : string) :
  PyStr.contains sub (pre +:+ sub +:+ post) = true.
Proof.
  induction pre as [|c pre IH].
  - rewrite string_app_nil. destruct (sub +:+ post) eqn:E; cbn [PyStr.contains];
      rewrite <- E, prefix_app; reflexivity.
  - rewrite string_app_cons. cbn [PyStr.contains].
    destruct (String.prefix sub _); [reflexivity|exact IH].
Qed.










(** ** The properties of a WindowsUpdate *)

Lemma non_empty_strip (s : string) :
  WindowsUpdate.non_empty (PyStr.strip s) = negb (all_space s).
Proof. unfold WindowsUpdate.non_empty. by rewrite is_empty_strip. Qed.

(** The entries that the code makes are those of the specification. *)
Lemma entries_follow_spec (text : string) :
  WindowsUpdate.superseeds_entries text = spec_entries text.
Proof.
  unfold WindowsUpdate.superseeds_entries, spec_entries.
  change (PyStr.replace (PyStr.str1 PyStr.CR) "") with remove_cr.
  induction (PyStr.split PyStr.LF text) as [|e l IH]; [reflexivity|].
  cbn [fmap list_fmap List.filter].
  rewrite !non_empty_strip, all_space_remove_cr.
  change (list_fmap _ _ ?f ?l) with (f <$> l) in *.
  destruct (all_space e); cbn [negb fmap list_fmap].
  - exact IH.
  - change (list_fmap _ _ ?f ?l) with (f <$> l) in *.
    rewrite IH. by rewrite strip_remove_cr.
Qed.

(** There is no entry exactly when the text is blank. *)
Lemma spec_entries_nil (text : string) :
  spec_entries text = [] <-> all_space text = true.
Proof.
  rewrite <- all_space_split. unfold spec_entries.
  induction (PyStr.split PyStr.LF text) as [|e l IH]; [done|].
  cbn [fmap list_fmap List.filter forallb].
  change (list_fmap _ _ ?f ?l) with (f <$> l) in *.
  rewrite non_empty_strip, all_space_remove_cr.
  destruct (all_space e); cbn [negb andb]; [exact IH|]. split; intros; done.
Qed.

Lemma LF_CR_LF_blank :
  WindowsUpdate.LF_CR_LF <> "" /\ all_space WindowsUpdate.LF_CR_LF = true /\
  all_space " " = true.
Proof. repeat split; done. Qed.

(** A container with text always gives a list, never the text itself. *)
Lemma superseeds_of_stripped (raw : string) :
  PyStr.strip raw <> "" ->
  let text := PyStr.replace WindowsUpdate.LF_CR_LF " " (PyStr.strip raw) in
  WindowsUpdate.superseeds_of (Some raw) = VList (VStr <$> spec_entries text) /\
  spec_entries text <> [].
Proof.
  intros Hne text.
  assert (Hink : all_space text = false).
  { unfold text. destruct LF_CR_LF_blank as (H1 & H2 & H3).
    rewrite all_space_replace by done. rewrite all_space_strip, <- is_empty_strip.
    by apply is_empty_false. }
  assert (Hnil : spec_entries text <> []).
  { intros Hs%spec_entries_nil. congruence. }
  split; [|exact Hnil].
  unfold WindowsUpdate.superseeds_of, WindowsUpdate.non_empty.
  rewrite is_empty_false by done.
  cbn [negb]. fold text. rewrite entries_follow_spec.
  by destruct (spec_entries text).
Qed.

(** C8 (as amended): superseeds is the literal "None" when the
    supersedesInfo container is absent and the empty text when the
    stripped text of the container is empty; otherwise it is the list made
    from the stripped text by replacing each LF CR LF by one space, then
    splitting on newlines, stripping carriage returns and surrounding
    blanks from each entry and dropping the empty entries, a list that is
    never empty; where the stripped text has no LF CR LF this is the list
    of the specification. *)
Theorem superseeds_spec (u : WindowsUpdate.t) (page : DetailPage) :
  WindowsUpdate.details u = Ok page ->
  (supersedesInfo page = None -> WindowsUpdate.superseeds u = Ok (VStr "None")) /\
  (forall raw, supersedesInfo page = Some raw -> PyStr.strip raw = "" ->
     WindowsUpdate.superseeds u = Ok (VStr "")) /\
  (forall raw, supersedesInfo page = Some raw -> PyStr.strip raw <> "" ->
     WindowsUpdate.superseeds u =
       Ok (VList (VStr <$> spec_entries
             (PyStr.replace WindowsUpdate.LF_CR_LF " " (PyStr.strip raw)))) /\
     spec_entries (PyStr.replace WindowsUpdate.LF_CR_LF " " (PyStr.strip raw)) <> [] /\
     (PyStr.contains WindowsUpdate.LF_CR_LF (PyStr.strip raw) = false ->
      WindowsUpdate.superseeds u = Ok (spec_superseeds (Some raw)))).
Proof.
  intros Hd. unfold WindowsUpdate.superseeds. rewrite Hd. cbn [bind].
  split; [|split].
  - intros ->. reflexivity.
  - intros raw -> Hs. unfold WindowsUpdate.superseeds_of. by rewrite Hs.
  - intros raw -> Hs.
    destruct (superseeds_of_stripped raw Hs) as [Heq Hnil].
    split; [by rewrite Heq|]. split; [exact Hnil|].
    intros Habs. rewrite Heq. f_equal. unfold spec_superseeds.
    rewrite is_empty_false by done.
    by rewrite replace_absent.
Qed.

Lemma superseeds_spec_witness :
  WindowsUpdate.superseeds older_update = Ok (VStr "None") /\
  WindowsUpdate.superseeds (sample_update "Update" (Some "  ") "n/a") = Ok (VStr "") /\
  WindowsUpdate.superseeds newer_update =
    Ok (VList [VStr "2024-01 Cumulative Update (KB5034123)"]) /\
  WindowsUpdate.superseeds (sample_update "Update" (Some two_titles) "n/a") =
    Ok (VList [VStr "A B"]).
Proof.
  split; [|split; [|split]].
  - apply (proj1 (superseeds_spec older_update _ eq_refl)). reflexivity.
  - apply (proj1 (proj2 (superseeds_spec (sample_update "Update" (Some "  ") "n/a") _
             eq_refl)) "  "); reflexivity.
  - pose proof (proj2 (proj2 (superseeds_spec newer_update _ eq_refl))
        "2024-01 Cumulative Update (KB5034123)" eq_refl) as Hs.
    rewrite (proj2 (proj2 (Hs ltac:(vm_compute; discriminate)))).
    + vm_compute. reflexivity.
    + vm_compute. reflexivity.
  - pose proof (proj2 (proj2
        (superseeds_spec (sample_update "Update" (Some two_titles) "n/a") _ eq_refl))
        two_titles eq_refl) as Hs.
    rewrite (proj1 (Hs ltac:(vm_compute; discriminate))). vm_compute. reflexivity.
Defined.

(** C8 (as stated) fails on two titles with an empty line between them:
    the code joins them into the one entry "A B", the specification's
    words give the two entries "A" and "B". *)
Lemma superseeds_joins_across_empty_line : ~ superseeds_as_stated (Some two_titles).
Proof. unfold superseeds_as_stated. vm_compute. discriminate. Qed.

Example superseeds_two_titles :
  WindowsUpdate.superseeds_of (Some two_titles) = VList [VStr "A B"] /\
  spec_superseeds (Some two_titles) = VList [VStr "A"; VStr "B"].
Proof. split; vm_compute; reflexivity. Qed.

(** C3: with the sibling text of the KB marker equal to "n/a" in any
    letter case, kb_numbers is the empty list; with a sibling text that
    [int] accepts, such as "4530684", it is the list of that one number;
    with any other non-blank sibling text, such as "abc", it raises
    ValueError, Python's parse error, and returns no value. *)
Theorem kb_numbers_spec (u : WindowsUpdate.t) (page : DetailPage) :
  WindowsUpdate.details u = Ok page ->
  (forall s, labelKBArticle_siblings page = Some [NText s] ->
     PyStr.lower (PyStr.strip s) = "n/a" ->
     WindowsUpdate.kb_numbers u = Ok (VList [])) /\
  (forall s k, labelKBArticle_siblings page = Some [NText s] ->
     PyStr.strip s <> "" -> PyStr.lower (PyStr.strip s) <> "n/a" ->
     Py.int_of_str (PyStr.strip s) = Ok k ->
     WindowsUpdate.kb_numbers u = Ok (VList [VInt k])) /\
  (forall s, labelKBArticle_siblings page = Some [NText s] ->
     PyStr.strip s <> "" -> PyStr.lower (PyStr.strip s) <> "n/a" ->
     (forall k, Py.int_of_str (PyStr.strip s) <> Ok k) ->
     WindowsUpdate.kb_numbers u = Raise ValueError) /\
  (labelKBArticle_siblings page = Some [NText "n/a"] ->
     WindowsUpdate.kb_numbers u = Ok (VList [])) /\
  (labelKBArticle_siblings page = Some [NText "4530684"] ->
     WindowsUpdate.kb_numbers u = Ok (VList [VInt 4530684])) /\
  (labelKBArticle_siblings page = Some [NText "abc"] ->
     WindowsUpdate.kb_numbers u = Raise ValueError).
Proof.
  intros Hd. unfold WindowsUpdate.kb_numbers. rewrite Hd. cbn [bind].
  split; [|split; [|split; [|repeat split]]].
  - intros s -> Hna. cbn [WindowsUpdate.node_strip bind WindowsUpdate.kb_list].
    rewrite is_empty_false by (intros E; rewrite E in Hna; discriminate).
    rewrite Hna. reflexivity.
  - intros s k -> Hne Hna Hk. cbn [WindowsUpdate.node_strip bind WindowsUpdate.kb_list].
    rewrite is_empty_false by done.
    destruct (String.eqb_spec (PyStr.lower (PyStr.strip s)) "n/a") as [|_]; [done|].
    rewrite Hk. reflexivity.
  - intros s -> Hne Hna Hk. cbn [WindowsUpdate.node_strip bind WindowsUpdate.kb_list].
    rewrite is_empty_false by done.
    destruct (String.eqb_spec (PyStr.lower (PyStr.strip s)) "n/a") as [|_]; [done|].
    destruct (Py.int_of_str (PyStr.strip s)) as [k|e] eqn:E.
    + by destruct (Hk k).
    + apply int_of_str_raises in E as ->. reflexivity.
  - intros ->. reflexivity.
  - intros ->. reflexivity.
  - intros ->. reflexivity.
Qed.

Lemma kb_numbers_spec_witness :
  WindowsUpdate.kb_numbers (sample_update "Update" None " N/A ") = Ok (VList []) /\
  WindowsUpdate.kb_numbers (sample_update "Update" None " 4530684 ") =
    Ok (VList [VInt 4530684]) /\
  WindowsUpdate.kb_numbers (sample_update "Update" None "abc") = Raise ValueError.
Proof.
  split; [|split].
  - apply (proj1 (kb_numbers_spec (sample_update "Update" None " N/A ") _ eq_refl)
             " N/A "); reflexivity.
  - apply (proj1 (proj2 (kb_numbers_spec (sample_update "Update" None " 4530684 ") _
             eq_refl)) " 4530684 " 4530684%Z); try reflexivity; vm_compute; discriminate.
  - apply (proj1 (proj2 (proj2 (kb_numbers_spec (sample_update "Update" None "abc") _
             eq_refl))) "abc"); try reflexivity; vm_compute; discriminate.
Defined.

(** ** The records of the download-center path *)

Section Records.
Context `{PyLib}.

Lemma patch_records_elem kb (l : list pydict) (rs : list pydict) r :
  patch_records kb l = Ok rs -> r ∈ rs ->
  exists update, update ∈ l /\ patch_record kb update = Ok r.
Proof.
  revert rs. induction l as [|x l IH]; intros rs Hrs Hr.
  - apply Ok_inj in Hrs as <-. by apply elem_of_nil in Hr.
  - cbn [patch_records] in Hrs. bind_inv Hrs. apply Ok_inj in Hrs as <-.
    apply elem_of_cons in Hr as [->|Hr].
    + exists x. split; [left|done].
    + destruct (IH _ eq_refl Hr) as (y & Hy & Hp). exists y. split; [by right|done].
Qed.

(** A record of the fallback path comes from a page that was scraped and
    parsed without failure. *)
Lemma download_center_elem page kb r :
  r ∈ get_microsoft_download_center_update page kb ->
  exists d parsed_dict,
    page = Ok (Some d) /\ parse_details d = Ok parsed_dict /\
    patch_record kb parsed_dict = Ok r.
Proof.
  unfold get_microsoft_download_center_update, try_except.
  destruct (patch_records kb _) as [rs|] eqn:Hrs; [|by intros ?%elem_of_nil].
  intros Hr. destruct (patch_records_elem _ _ _ _ Hrs Hr) as (x & Hx & Hp).
  unfold get_microsoft_windows_product_update, try_except in Hx.
  destruct page as [[d|]|]; cbn [bind] in Hx; try by apply elem_of_nil in Hx.
  destruct (parse_details d) as [pd|] eqn:Hpd; cbn [bind] in Hx;
    [|by apply elem_of_nil in Hx].
  apply list_elem_of_singleton in Hx as ->. by exists d, pd.
Qed.

Lemma patch_record_fields kb update r :
  patch_record kb update = Ok r ->
  let derived := default VNone (update !! "kb") in
  let patch_kb := if negb (Py.truthy derived) then kb else derived in
  fallback_shaped r /\
  r !! "kb" = Some patch_kb /\
  r !! "kb_numbers" = Some patch_kb /\
  (exists k, patch_kb = VStr k /\
             r !! "support_url" = Some (VStr (support_base +:+ k))) /\
  r !! "classification" = Some (VStr "Product Update") /\
  r !! "uninstallable" = Some (VStr "Yes") /\
  r !! "requires_connectivity" = Some (VStr "No") /\
  r !! "requires_user_input" = Some (VStr "No") /\
  r !! "requires_restart" = Some (VStr "Yes").
Proof.
  intros Hr. unfold patch_record in Hr. bind_inv Hr.
  repeat match goal with
         | E : Py.get (VDict _) _ = Ok _ |- _ => cbn [Py.get] in E; apply Ok_inj in E as <-
         end.
  apply Ok_inj in Hr as <-.
  intros derived patch_kb.
  match goal with
  | E : Py.str_add support_base ?v = Ok ?s |- _ =>
      change v with patch_kb in *;
      assert (Hk : exists k, patch_kb = VStr k /\ s = support_base +:+ k)
        by (unfold Py.str_add in E; destruct patch_kb; try discriminate;
            apply Ok_inj in E as <-; by eexists);
      clear E
  end.
  split.
  { split; [|split].
    - unfold has_keys, fixed_keys. repeat constructor; by eexists.
    - by eexists.
    - by eexists. }
  split; [reflexivity|]. split; [reflexivity|].
  split.
  { destruct Hk as (k & Hk & ->). exists k. split; [exact Hk|reflexivity]. }
  repeat split.
Qed.




(** C9: every record of the download-center path has classification
    "Product Update", uninstallable "Yes", requires_connectivity "No",
    requires_user_input "No", requires_restart "Yes", a support_url made
    of "https://support.microsoft.com/help/" and the record's KB, and for
    its KB the one derived from the page when there is one and the
    caller's only when there is none. *)
Theorem download_center_record_fields (page : Scrape) (search_kb : PyVal) (r : pydict) :
  r ∈ get_microsoft_download_center_update page search_kb ->
  r !! "classification" = Some (VStr "Product Update") /\
  r !! "uninstallable" = Some (VStr "Yes") /\
  r !! "requires_connectivity" = Some (VStr "No") /\
  r !! "requires_user_input" = Some (VStr "No") /\
  r !! "requires_restart" = Some (VStr "Yes") /\
  (exists k, r !! "kb" = Some (VStr k) /\
             r !! "support_url" = Some (VStr (support_base +:+ k))) /\
  exists d parsed_dict,
    page = Ok (Some d) /\ parse_details d = Ok parsed_dict /\
    (Py.truthy (default VNone (parsed_dict !! "kb")) = true ->
       r !! "kb" = Some (default VNone (parsed_dict !! "kb"))) /\
    (Py.truthy (default VNone (parsed_dict !! "kb")) = false ->
       r !! "kb" = Some search_kb).
Proof.
  intros Hr. destruct (download_center_elem _ _ _ Hr) as (d & pd & -> & Hpd & Hp).
  destruct (patch_record_fields _ _ _ Hp)
    as (_ & Hkb & _ & (k & Hk & Hurl) & Hc & Hu & Hrc & Hri & Hrr).
  repeat (split; [assumption|]).
  split.
  { exists k. split; [by rewrite Hkb, Hk|exact Hurl]. }
  exists d, pd. split; [reflexivity|]. split; [exact Hpd|].
  split; intros Ht; rewrite Hkb, Ht; reflexivity.
Qed.

End Records.

Lemma VStr_inj (s t : string) : VStr s = VStr t -> s = t.
Proof. by intros [= ->]. Qed.

Lemma first_record_elem (records : list pydict) :
  has_record records = true -> first_record records ∈ records.
Proof. destruct records; [done|]. intros _. left. Qed.



Lemma download_center_record_fields_witness :
  first_record (get_microsoft_download_center_update (H:=stub_lib)
                  page_with_kb (VStr "4530684")) !! "classification" =
    Some (VStr "Product Update") /\
  first_record (get_microsoft_download_center_update (H:=stub_lib)
                  page_with_kb (VStr "4530684")) !! "support_url" =
    Some (VStr "https://support.microsoft.com/help/5034123").
Proof.
  assert (Hr : first_record (get_microsoft_download_center_update (H:=stub_lib)
                 page_with_kb (VStr "4530684"))
               ∈ get_microsoft_download_center_update (H:=stub_lib)
                   page_with_kb (VStr "4530684"))
    by (apply first_record_elem; vm_compute; reflexivity).
  destruct (download_center_record_fields (H:=stub_lib) _ _ _ Hr)
    as (Hc & _ & _ & _ & _ & (k & Hk & Hurl) & _).
  split; [exact Hc|].
  rewrite Hurl. f_equal. f_equal.
  assert (Hkb : Some (VStr k) = Some (VStr "5034123"))
    by (rewrite <- Hk; vm_compute; reflexivity).
  apply (inj Some), VStr_inj in Hkb. by subst k.
Defined.

(** ** The records of the catalog path *)

Section Catalog.
Context `{PyLib}.

Lemma catalog_record_shape (u : WindowsUpdate.t) (r : pydict) :
  catalog_record u = Ok r ->
  catalog_shaped r /\ r !! "title" = Some (VStr (WindowsUpdate.title u)) /\
  (exists v, WindowsUpdate.superseeds u = Ok v /\ r !! "superseeds" = Some v).
Proof.
  intros Hr. unfold catalog_record in Hr. bind_inv Hr.
  apply Ok_inj in Hr as <-.
  split; [split; [|split]|split].
  - unfold has_keys, fixed_keys. repeat constructor; by eexists.
  - by eexists.
  - by eexists.
  - reflexivity.
  - eexists. split; reflexivity.
Qed.

Lemma collect_updates_elem (found : list WindowsUpdate.t)
    (updates updates' : list pydict) (seeds seeds' : list PyVal) (r : pydict) :
  collect_updates found updates seeds = Ok (updates', seeds') ->
  r ∈ updates' ->
  r ∈ updates \/ exists u, u ∈ found /\ catalog_record u = Ok r.
Proof.
  revert updates seeds. induction found as [|u found IH]; intros updates seeds Hc Hr.
  - cbn in Hc. injection Hc as <- <-. by left.
  - cbn [collect_updates] in Hc.
    destruct (catalog_record u) as [rec|] eqn:Hu; [|discriminate].
    cbn [bind] in Hc. cbn zeta in Hc.
    destruct (IH _ _ Hc Hr) as [Hin|(u' & Hu' & Hr')].
    + apply elem_of_app in Hin as [Hin|Hin]; [by left|].
      apply list_elem_of_singleton in Hin as ->. right. exists u. split; [left|done].
    + right. exists u'. split; [by right|done].
Qed.

Lemma collect_updates_all (found : list WindowsUpdate.t)
    (updates updates' : list pydict) (seeds seeds' : list PyVal) :
  collect_updates found updates seeds = Ok (updates', seeds') ->
  (forall r, r ∈ updates -> r ∈ updates') /\
  (forall u r, u ∈ found -> catalog_record u = Ok r -> r ∈ updates').
Proof.
  revert updates seeds. induction found as [|u found IH]; intros updates seeds Hc.
  - cbn in Hc. injection Hc as <- <-. split; [done|]. by intros u r ?%elem_of_nil.
  - cbn [collect_updates] in Hc.
    destruct (catalog_record u) as [rec|] eqn:Hu; [|discriminate].
    cbn [bind] in Hc. cbn zeta in Hc.
    destruct (IH _ _ Hc) as [Hkeep Hnew]. split.
    + intros r Hr. apply Hkeep, elem_of_app. by left.
    + intros u' r [->|Hu']%elem_of_cons Hr.
      * rewrite Hu in Hr. apply Ok_inj in Hr as <-.
        apply Hkeep, elem_of_app. right. left.
      * by eapply Hnew.
Qed.

Lemma catalog_updates_elem (found : list WindowsUpdate.t) (out : list pydict) r :
  find_microsoft_catelogue_updates found = Some out -> r ∈ out ->
  exists u, u ∈ found /\ catalog_record u = Ok r.
Proof.
  unfold find_microsoft_catelogue_updates.
  destruct (collect_updates found [] []) as [[updates seeds]|] eqn:Hc; [|discriminate].
  destruct updates as [|x updates]; [discriminate|].
  intros Heq Hr. apply (inj Some) in Heq. subst out.
  apply list_elem_of_In, filter_In in Hr as [Hr _]. apply list_elem_of_In in Hr.
  destruct (collect_updates_elem _ _ _ _ _ _ Hc Hr) as [Hn|Hu]; [|exact Hu].
  by apply elem_of_nil in Hn.
Qed.

(** C2: every record of the final output has the 20 fixed keys; a record
    of the catalog path has "update_id" besides and a list under
    "download_urls", a record of the fallback path has "kb_numbers"
    besides and, under "download_urls", the string that json.dumps made. *)
Theorem final_records_shape (search : string) (found : list WindowsUpdate.t)
    (patch_pages : list Scrape) (out : list pydict) (r : pydict) :
  final_updates search found patch_pages = Some out -> r ∈ out ->
  (from_catalog found = true -> catalog_shaped r) /\
  (from_catalog found = false -> fallback_shaped r).
Proof.
  unfold final_updates, from_catalog. intros Hf Hr.
  assert (Hfallback : forall pages : list Scrape,
    r ∈ concat ((fun page => get_microsoft_download_center_update page (VStr search))
                <$> pages) -> fallback_shaped r).
  { intros pages Hin.
    apply list_elem_of_In, in_concat in Hin as (rs & Hrs & Hin).
    apply list_elem_of_In in Hin, Hrs.
    apply list_elem_of_fmap in Hrs as (page & -> & _).
    destruct (download_center_elem _ _ _ Hin) as (d & pd & _ & _ & Hp).
    by destruct (patch_record_fields _ _ _ Hp) as (Hs & _). }
  destruct (find_microsoft_catelogue_updates found) as [[|x l]|] eqn:Hc.
  - split; [discriminate|]. intros _.
    destruct patch_pages as [|p ps]; [discriminate|].
    apply (inj Some) in Hf. subst out. by eapply Hfallback.
  - apply (inj Some) in Hf. subst out. split; [|discriminate]. intros _.
    destruct (catalog_updates_elem _ _ _ Hc Hr) as (u & _ & Hu).
    by destruct (catalog_record_shape _ _ Hu).
  - split; [discriminate|]. intros _.
    destruct patch_pages as [|p ps]; [discriminate|].
    apply (inj Some) in Hf. subst out. by eapply Hfallback.
Qed.

(** *** What the supersedes filter compares *)

Lemma superseeds_of_shape (info : option string) :
  collected_value (WindowsUpdate.superseeds_of info) \/
  WindowsUpdate.superseeds_of info = VStr "".
Proof.
  destruct info as [raw|]; [|left; by right].
  destruct (PyStr.strip raw) as [|c s] eqn:Hs.
  - right. unfold WindowsUpdate.superseeds_of. by rewrite Hs.
  - left. left.
    destruct (superseeds_of_stripped raw) as [-> _]; [by rewrite Hs|]. by eexists.
Qed.

Lemma collect_updates_seeds (found : list WindowsUpdate.t)
    (updates updates' : list pydict) (seeds seeds' : list PyVal) :
  collect_updates found updates seeds = Ok (updates', seeds') ->
  Forall collected_value seeds -> Forall collected_value seeds'.
Proof.
  revert updates seeds. induction found as [|u found IH]; intros updates seeds Hc Hs.
  - cbn in Hc. by injection Hc as <- <-.
  - cbn [collect_updates] in Hc.
    destruct (catalog_record u) as [rec|] eqn:Hu; [|discriminate].
    cbn [bind] in Hc. cbn zeta in Hc. eapply IH; [exact Hc|].
    destruct (catalog_record_shape _ _ Hu) as (_ & _ & v & Hv & ->).
    cbn [from_option id].
    destruct (Py.truthy _ && Py.truthy v) eqn:Ht; [|exact Hs].
    apply Forall_app. split; [exact Hs|]. constructor; [|constructor].
    unfold WindowsUpdate.superseeds in Hv.
    destruct (WindowsUpdate.details u) as [page|]; [|discriminate].
    cbn [bind] in Hv. apply Ok_inj in Hv as <-.
    destruct (superseeds_of_shape (supersedesInfo page)) as [Hcv|Hempty]; [exact Hcv|].
    rewrite Hempty in Ht. cbn in Ht. by rewrite andb_false_r in Ht.
Qed.

(** The filter compares a title with each collected VALUE, and a value
    is a list or the text "None": only a record titled "None" can go. *)
Lemma catalog_filter_spares_titles (found : list WindowsUpdate.t) (out : list pydict)
    (u : WindowsUpdate.t) (r : pydict) :
  find_microsoft_catelogue_updates found = Some out ->
  u ∈ found -> catalog_record u = Ok r ->
  WindowsUpdate.title u <> "None" -> r ∈ out.
Proof.
  unfold find_microsoft_catelogue_updates.
  destruct (collect_updates found [] []) as [[updates seeds]|] eqn:Hc; [|discriminate].
  destruct updates as [|x updates]; [discriminate|].
  intros Heq Hu Hr Ht. apply (inj Some) in Heq. subst out.
  apply list_elem_of_In, filter_In. split.
  - apply list_elem_of_In. by eapply (proj2 (collect_updates_all _ _ _ _ _ Hc)).
  - apply negb_true_iff. destruct (super_seed_found seeds r) eqn:Hfound; [|done].
    exfalso. unfold super_seed_found in Hfound.
    apply existsb_exists in Hfound as (v & Hv & Hmatch).
    pose proof (collect_updates_seeds _ _ _ _ _ Hc (Forall_nil_2 _)) as Hseeds.
    rewrite Forall_forall in Hseeds. apply list_elem_of_In, Hseeds in Hv.
    destruct (catalog_record_shape _ _ Hr) as (_ & Htitle & _).
    unfold title_is in Hmatch. rewrite Htitle in Hmatch.
    destruct Hv as [[l ->] | ->]; [discriminate|].
    cbn in Hmatch. by apply String.eqb_eq in Hmatch.
Qed.

(** C1 (evaluation at the failing input): of two records of one result
    set, the second titled exactly as the one entry of the first's
    supersedes list, find_microsoft_catelogue_updates returns both, where
    a filter on the collected supersedes entries drops the second. *)
Theorem superseded_title_is_retained :
  titles <$> find_microsoft_catelogue_updates [newer_update; older_update] =
    Some [Some (VStr "2024-02 Cumulative Update (KB5034765)");
          Some (VStr "2024-01 Cumulative Update (KB5034123)")] /\
  WindowsUpdate.superseeds newer_update =
    Ok (VList [VStr "2024-01 Cumulative Update (KB5034123)"]).
Proof. split; vm_compute; reflexivity. Qed.

End Catalog.

Lemma written_spec (output : option (list pydict)) :
  wrote output = true -> output = Some (written output).
Proof. by destruct output. Qed.

Lemma final_records_shape_witness :
  catalog_shaped
    (first_record (written (final_updates (H:=stub_lib) "5034123" [older_update] []))) /\
  fallback_shaped (H:=stub_lib)
    (first_record (written (final_updates (H:=stub_lib) "5034123" [] [page_with_kb]))).
Proof.
  split.
  - assert (Hout : final_updates (H:=stub_lib) "5034123" [older_update] [] =
                   Some (written (final_updates (H:=stub_lib) "5034123" [older_update] [])))
      by (apply written_spec; vm_compute; reflexivity).
    assert (Hr : first_record
                   (written (final_updates (H:=stub_lib) "5034123" [older_update] []))
                 ∈ written (final_updates (H:=stub_lib) "5034123" [older_update] []))
      by (apply first_record_elem; vm_compute; reflexivity).
    apply (proj1 (final_records_shape (H:=stub_lib) _ _ _ _ _ Hout Hr)).
    vm_compute. reflexivity.
  - assert (Hout : final_updates (H:=stub_lib) "5034123" [] [page_with_kb] =
                   Some (written (final_updates (H:=stub_lib) "5034123" [] [page_with_kb])))
      by (apply written_spec; vm_compute; reflexivity).
    assert (Hr : first_record
                   (written (final_updates (H:=stub_lib) "5034123" [] [page_with_kb]))
                 ∈ written (final_updates (H:=stub_lib) "5034123" [] [page_with_kb]))
      by (apply first_record_elem; vm_compute; reflexivity).
    apply (proj2 (final_records_shape (H:=stub_lib) _ _ _ _ _ Hout Hr)).
    vm_compute. reflexivity.
Defined.

(** * Further properties *)

(** ** The size of an update *)

Lemma same_outcome_refl {A} (x : exc A) : same_outcome x x.
Proof. by destruct x. Qed.

Lemma same_outcome_trans {A} (x y z : exc A) :
  same_outcome x y -> same_outcome y z -> same_outcome x z.
Proof. destruct x, y, z; cbn; intros; try done; congruence. Qed.

Lemma sum_sizes_permutation (l l' : list PyVal) :
  Permutation l l' ->
  forall acc, same_outcome (sum_sizes acc l) (sum_sizes acc l').
Proof.
  induction 1 as [|x l l' _ IH|x y l|l l' l'' _ IH1 _ IH2]; intros acc.
  - apply same_outcome_refl.
  - cbn [sum_sizes]. destruct (Py.get x "size") as [v|]; cbn [bind]; [|done].
    destruct (Py.int v) as [n|]; cbn [bind]; [|done]. apply IH.
  - cbn [sum_sizes].
    destruct (Py.get x "size") as [vx|]; cbn [bind];
      destruct (Py.get y "size") as [vy|]; cbn [bind]; try done;
      try (destruct (Py.int vx) as [nx|]; cbn [bind]; done);
      try (destruct (Py.int vy) as [ny|]; cbn [bind]; done).
    destruct (Py.int vx) as [nx|]; cbn [bind];
      destruct (Py.int vy) as [ny|]; cbn [bind]; try done.
    replace (acc + ny + nx)%Z with (acc + nx + ny)%Z by lia.
    apply same_outcome_refl.
  - eapply same_outcome_trans; [apply IH1|apply IH2].
Qed.

(** X1: the size that get_update_size reports does not depend on the
    order of the descriptors. *)
Theorem get_update_size_permutation (ds ds' : list pydict) :
  Permutation ds ds' ->
  get_update_size (descriptors ds) = get_update_size (descriptors ds').
Proof.
  intros Hp. unfold get_update_size, descriptors. cbn [Py.iter bind].
  pose proof (sum_sizes_permutation _ _ (fmap_Permutation VDict _ _ Hp) 0%Z) as Hs.
  destruct (sum_sizes 0 (VDict <$> ds)), (sum_sizes 0 (VDict <$> ds')); cbn in Hs;
    try done. by subst.
Qed.

Lemma get_update_size_permutation_witness :
  get_update_size (descriptors [sample_file "a.msu" "1073741824"; named "b.msu";
                                sample_file "c.msu" "1048576"]) =
  get_update_size (descriptors [sample_file "c.msu" "1048576";
                                sample_file "a.msu" "1073741824"; named "b.msu"]).
Proof.
  apply get_update_size_permutation.
  change ([sample_file "a.msu" "1073741824"; named "b.msu"; sample_file "c.msu" "1048576"])
    with ([sample_file "a.msu" "1073741824"; named "b.msu"] ++ [sample_file "c.msu" "1048576"]).
  apply Permutation_app_comm.
Defined.

Section Accuracy.
Local Open Scope Z_scope.

Lemma div_half_even_error a d :
  0 < d -> 2 * Z.abs (a - Py.div_half_even a d * d) <= d.
Proof.
  intros Hd. unfold Py.div_half_even.
  pose proof (Z.div_mod a d ltac:(lia)) as Hdm.
  pose proof (Z.mod_pos_bound a d Hd) as Hr.
  destruct (d <? 2 * (a mod d)) eqn:E1; cbn [orb].
  - apply Z.ltb_lt in E1. nia.
  - apply Z.ltb_ge in E1.
    destruct ((d =? 2 * (a mod d)) && Z.odd (a / d)) eqn:E2.
    + apply andb_true_iff in E2 as [E2 _]. apply Z.eqb_eq in E2. nia.
    + nia.
Qed.

Lemma round53_exact n : 0 <= n < 2 ^ 53 -> Py.round53 n = n.
Proof.
  intros Hn. unfold Py.round53.
  destruct (Z.log2 (Z.abs n) + 1 <=? 53) eqn:E; [reflexivity|].
  apply Z.leb_gt in E. rewrite Z.abs_eq in E by lia.
  destruct (decide (n = 0)) as [->|Hne]; [cbn in E; lia|].
  assert (Z.log2 n < 53) by (apply Z.log2_lt_pow2; lia). lia.
Qed.

(** X2: for a byte count below 2^53 the number printed is the quotient
    by 2^30 (from 1 GiB on) or by 2^20 (below) rounded to hundredths with
    an error of at most half a hundredth. *)
Theorem convert_bytes_accuracy n :
  0 <= n < 2 ^ 53 ->
  let k := if GiB <=? n then 30 else 20 in
  exists h,
    2 * Z.abs (100 * n - h * 2 ^ k) <= 2 ^ k /\
    Py.format_2f (Finite n (- k)) =
      Py.decimal (h / 100) +:+ "." +:+ Py.digit (h / 10 mod 10) +:+ Py.digit (h mod 10) /\
    convert_bytes_to_human_readable n 1 =
      Ok (Py.format_2f (Finite n (- k)) +:+ (if GiB <=? n then " GB" else " MB")).
Proof.
  intros Hn k.
  assert (Hlim : 2 ^ 53 < mb_limit /\ mb_limit < gb_limit)
    by (vm_compute; split; reflexivity).
  exists (Py.div_half_even (n * 100) (2 ^ k)).
  assert (Hk : 0 < 2 ^ k) by (unfold k; destruct (GiB <=? n); reflexivity).
  split; [|split].
  - pose proof (div_half_even_error (n * 100) (2 ^ k) Hk). lia.
  - unfold Py.format_2f.
    replace (0 <=? - k) with false by (unfold k; by destruct (GiB <=? n)).
    rewrite (proj2 (Z.ltb_ge n 0)) by lia.
    rewrite Z.abs_eq by lia. rewrite Z.opp_involutive. reflexivity.
  - rewrite convert_bytes_cases.
    rewrite (proj2 (Z.leb_gt gb_limit (Z.abs n))) by lia.
    rewrite (proj2 (Z.leb_gt mb_limit (Z.abs n))) by lia.
    rewrite round53_exact by lia. unfold k. by destruct (GiB <=? n).
Qed.

Lemma convert_bytes_accuracy_witness :
  exists h,
    2 * Z.abs (100 * 1610612736 - h * 2 ^ 30) <= 2 ^ 30 /\
    convert_bytes_to_human_readable 1610612736 1 = Ok "1.50 GB".
Proof.
  destruct (convert_bytes_accuracy 1610612736) as (h & Hh & _ & Hc).
  - vm_compute. split; [discriminate|reflexivity].
  - exists h. split; [exact Hh|]. rewrite Hc. vm_compute. reflexivity.
Defined.

End Accuracy.

(** ** The KB number and the architecture found in file names *)

Lemma take_while_all (p : ascii -> bool) (s : string) :
  all_chars p (PyStr.take_while p s) = true.
Proof.
  induction s as [|c s IH]; [reflexivity|]. cbn.
  destruct (p c) eqn:E; [|reflexivity]. cbn. by rewrite E.
Qed.

Lemma digits_after_kb_digits (s digits : string) :
  digits_after_kb s = Ok digits -> all_chars PyStr.isdigit digits = true.
Proof.
  unfold digits_after_kb. destruct (PyStr.index "kb" s); [|discriminate].
  intros <-%Ok_inj. apply take_while_all.
Qed.

(** X3: whatever it is given, get_kb_number returns None or a text made
    of digits only. *)
Theorem get_kb_number_digits (download_details : PyVal) :
  get_kb_number download_details = VNone \/
  exists digits, get_kb_number download_details = VStr digits /\
                 all_chars PyStr.isdigit digits = true.
Proof.
  unfold get_kb_number.
  destruct (Py.iter download_details) as [l|]; cbn [bind try_except]; [|by left].
  induction l as [|x l IH]; [by left|].
  cbn [scan_kb_number].
  destruct (Py.get x "name") as [name|]; cbn [bind try_except]; [|by left].
  destruct (Py.lower name) as [file_name|]; cbn [bind try_except]; [|by left].
  destruct (PyStr.contains "kb" file_name); [|exact IH].
  destruct (digits_after_kb file_name) as [digits|] eqn:Hd; cbn [bind try_except];
    [|by left].
  right. exists digits. split; [reflexivity|]. by eapply digits_after_kb_digits.
Qed.

(** X4: whatever it is given, get_architecture returns None, "x64" or
    "x86". *)
Theorem get_architecture_range (download_details : PyVal) :
  get_architecture download_details = VNone \/
  get_architecture download_details = VStr "x64" \/
  get_architecture download_details = VStr "x86".
Proof.
  unfold get_architecture.
  destruct (Py.iter download_details) as [l|]; cbn [bind try_except]; [|by left].
  induction l as [|x l IH]; [by left|].
  cbn [scan_architecture].
  destruct (Py.get x "name") as [name|]; cbn [bind try_except]; [|by left].
  destruct (Py.contains "64" name) as [[]|]; cbn [bind try_except];
    [right; by left| |by left].
  destruct (Py.contains "32" name) as [[]|]; cbn [bind try_except];
    [right; by right| |by left].
  destruct (Py.contains "86" name) as [[]|]; cbn [bind try_except];
    [right; by right|exact IH|by left].
Qed.

(** X5: a descriptor that has no name, met before any file name with a
    mark, leaves the architecture unset whatever the later files are: the
    failed test on the missing name ends the scan. *)
Theorem get_architecture_missing_name (before : list pydict) (d : pydict)
    (after : list pydict) :
  Forall unmarked before -> d !! "name" = None ->
  get_architecture (descriptors (before ++ d :: after)) = VNone.
Proof.
  intros Hb Hd. unfold get_architecture, descriptors. cbn [Py.iter bind].
  induction Hb as [|x before Hx _ IH].
  - cbn [app fmap list_fmap scan_architecture Py.get bind]. rewrite Hd. reflexivity.
  - cbn [app fmap list_fmap]. rewrite scan_architecture_unmarked by done. exact IH.
Qed.

Lemma get_architecture_missing_name_witness :
  get_architecture
    (descriptors [named "readme.txt"; sample_file "a" "1"; named "setup64.exe"]) = VStr "x64" /\
  get_architecture (descriptors [named "readme.txt"; ∅; named "setup64.exe"]) = VNone.
Proof.
  split; [vm_compute; reflexivity|].
  apply (get_architecture_missing_name [named "readme.txt"] ∅ [named "setup64.exe"]).
  - repeat constructor. exists "readme.txt". split; reflexivity.
  - reflexivity.
Defined.

(** ** The KB numbers of a detail page *)

Lemma kb_list_texts (texts : list string) (kbs : list Z) :
  Forall2 (fun text kb => Py.int_of_str (PyStr.strip text) = Ok kb)
          (List.filter not_na texts) kbs ->
  WindowsUpdate.kb_list (NText <$> texts) = Ok (VInt <$> kbs).
Proof.
  revert kbs. induction texts as [|t texts IH]; intros kbs HF.
  - cbn in HF. by inversion HF.
  - cbn [fmap list_fmap WindowsUpdate.kb_list WindowsUpdate.node_strip bind].
    cbn [List.filter] in HF. unfold not_na in HF at 1.
    destruct (String.eqb (PyStr.lower (PyStr.strip t)) "n/a"); cbn [negb] in HF.
    + by apply IH.
    + inversion HF as [|? kb ? kbs' Hk HF']; subst.
      rewrite Hk. cbn [bind].
      change (list_fmap _ _ ?f ?l) with (f <$> l).
      rewrite (IH _ HF'). reflexivity.
Qed.

Lemma kb_list_bad_text (texts : list string) :
  Exists (fun text => not_na text = true /\
                      forall kb, Py.int_of_str (PyStr.strip text) <> Ok kb) texts ->
  WindowsUpdate.kb_list (NText <$> texts) = Raise ValueError.
Proof.
  induction texts as [|t texts IH]; intros HE; [by inversion HE|].
  cbn [fmap list_fmap WindowsUpdate.kb_list WindowsUpdate.node_strip bind].
  change (list_fmap _ _ ?f ?l) with (f <$> l).
  destruct (String.eqb (PyStr.lower (PyStr.strip t)) "n/a") eqn:Hna.
  - apply IH. inversion HE as [? ? [Hn _]|]; subst; [|done].
    unfold not_na in Hn. rewrite Hna in Hn. discriminate.
  - destruct (Py.int_of_str (PyStr.strip t)) as [kb|e] eqn:Hk; cbn [bind].
    + rewrite IH; [reflexivity|].
      inversion HE as [? ? [_ Hb]|]; subst; [by destruct (Hb kb)|done].
    + by apply int_of_str_raises in Hk as ->.
Qed.

(** X6: when the siblings of the KB marker are text nodes and the first
    is not blank, kb_numbers is the list of the numbers read from the
    texts other than "n/a", in their order; one text among those that
    [int] refuses, a blank one included, makes it raise ValueError. *)
Theorem kb_numbers_of_texts (u : WindowsUpdate.t) (page : DetailPage)
    (first : string) (others : list string) :
  WindowsUpdate.details u = Ok page ->
  labelKBArticle_siblings page = Some (NText <$> first :: others) ->
  PyStr.strip first <> "" ->
  (forall kbs,
     Forall2 (fun text kb => Py.int_of_str (PyStr.strip text) = Ok kb)
             (List.filter not_na (first :: others)) kbs ->
     WindowsUpdate.kb_numbers u = Ok (VList (VInt <$> kbs))) /\
  (Exists (fun text => not_na text = true /\
                       forall kb, Py.int_of_str (PyStr.strip text) <> Ok kb)
          (first :: others) ->
   WindowsUpdate.kb_numbers u = Raise ValueError).
Proof.
  intros Hd Hs Hf. unfold WindowsUpdate.kb_numbers. rewrite Hd. cbn [bind].
  rewrite Hs. change (NText <$> first :: others) with (NText first :: (NText <$> others)).
  cbn [WindowsUpdate.node_strip bind].
  rewrite is_empty_false by done.
  change (NText first :: (NText <$> others)) with (NText <$> first :: others).
  split.
  - intros kbs HF. by rewrite (kb_list_texts _ _ HF).
  - intros HE. by rewrite (kb_list_bad_text _ HE).
Qed.

Lemma kb_numbers_of_texts_witness :
  WindowsUpdate.kb_numbers
    (update_with_siblings (Some (NText <$> [" 4530684 "; "N/A"; "4530685"])))
    = Ok (VList [VInt 4530684; VInt 4530685]) /\
  WindowsUpdate.kb_numbers
    (update_with_siblings (Some (NText <$> ["4530684"; "  "])))
    = Raise ValueError.
Proof.
  split.
  - apply (proj1 (kb_numbers_of_texts
                    (update_with_siblings (Some (NText <$> [" 4530684 "; "N/A"; "4530685"])))
                    _ " 4530684 " ["N/A"; "4530685"]
                    eq_refl eq_refl ltac:(vm_compute; discriminate))
             [4530684; 4530685]%Z).
    repeat constructor.
  - apply (proj2 (kb_numbers_of_texts
                    (update_with_siblings (Some (NText <$> ["4530684"; "  "])))
                    _ "4530684" ["  "]
                    eq_refl eq_refl ltac:(vm_compute; discriminate))).
    apply Exists_cons_tl, Exists_cons_hd. split; [reflexivity|].
    intros kb. vm_compute. discriminate.
Defined.

(** X7: kb_numbers is left unset, without any failure, when the page has
    no KB marker and when the first sibling of the marker is a blank
    text, whatever follows it; it raises when the marker has no sibling
    at all or when its first sibling is an element. *)
Theorem kb_numbers_unset (u : WindowsUpdate.t) (page : DetailPage) :
  WindowsUpdate.details u = Ok page ->
  (labelKBArticle_siblings page = None -> WindowsUpdate.kb_numbers u = Ok VNone) /\
  (forall first others,
     labelKBArticle_siblings page = Some (NText first :: others) ->
     PyStr.strip first = "" -> WindowsUpdate.kb_numbers u = Ok VNone) /\
  (labelKBArticle_siblings page = Some [] ->
     WindowsUpdate.kb_numbers u = Raise AttributeError) /\
  (forall others, labelKBArticle_siblings page = Some (NTag :: others) ->
     WindowsUpdate.kb_numbers u = Raise TypeError).
Proof.
  intros Hd. unfold WindowsUpdate.kb_numbers. rewrite Hd. cbn [bind].
  repeat split.
  - intros ->. reflexivity.
  - intros first others -> Hb. cbn [WindowsUpdate.node_strip bind]. by rewrite Hb.
  - intros ->. reflexivity.
  - intros others ->. reflexivity.
Qed.

Lemma kb_numbers_unset_witness :
  WindowsUpdate.kb_numbers (update_with_siblings None) = Ok VNone /\
  WindowsUpdate.kb_numbers (update_with_siblings (Some [NText "  "; NText "4530684"]))
    = Ok VNone /\
  WindowsUpdate.kb_numbers (update_with_siblings (Some [])) = Raise AttributeError /\
  WindowsUpdate.kb_numbers (update_with_siblings (Some [NTag; NText "4530684"]))
    = Raise TypeError.
Proof.
  split; [|split; [|split]].
  - by apply (proj1 (kb_numbers_unset (update_with_siblings None) _ eq_refl)).
  - by apply (proj1 (proj2 (kb_numbers_unset
        (update_with_siblings (Some [NText "  "; NText "4530684"])) _ eq_refl))
        "  " [NText "4530684"]).
  - by apply (proj1 (proj2 (proj2 (kb_numbers_unset
        (update_with_siblings (Some [])) _ eq_refl)))).
  - by apply (proj2 (proj2 (proj2 (kb_numbers_unset
        (update_with_siblings (Some [NTag; NText "4530684"])) _ eq_refl)))
        [NText "4530684"]).
Defined.

(** ** The entries of a supersedes list *)

Section Entries.
Import PyStr.

Lemma all_chars_lstrip (p : ascii -> bool) (s : string) :
  all_chars p s = true -> all_chars p (lstrip s) = true.
Proof.
  induction s as [|c s IH]; [done|]. cbn.
  intros [Hc Hs]%andb_true_iff. destruct (isspace c); [by apply IH|].
  cbn. by rewrite Hc, Hs.
Qed.

Lemma all_chars_rstrip (p : ascii -> bool) (s : string) :
  all_chars p s = true -> all_chars p (rstrip s) = true.
Proof.
  induction s as [|c s IH]; [done|]. cbn.
  intros [Hc Hs]%andb_true_iff.
  destruct (isspace c && is_empty (rstrip s)); [done|].
  cbn. by rewrite Hc, IH.
Qed.

Lemma all_chars_strip (p : ascii -> bool) (s : string) :
  all_chars p s = true -> all_chars p (strip s) = true.
Proof. intros Hs. unfold strip. by apply all_chars_rstrip, all_chars_lstrip. Qed.

Lemma all_chars_remove_cr (p : ascii -> bool) (s : string) :
  all_chars p s = true -> all_chars p (remove_cr s) = true.
Proof.
  induction s as [|c s IH]; [done|]. rewrite remove_cr_cons.
  cbn [all_chars]. intros [Hc Hs]%andb_true_iff.
  destruct (Ascii.eqb c CR); [by apply IH|]. cbn [all_chars]. by rewrite Hc, IH.
Qed.

Lemma remove_cr_lacks_cr (s : string) : lacks_char CR (remove_cr s) = true.
Proof.
  unfold lacks_char. induction s as [|c s IH]; [done|]. rewrite remove_cr_cons.
  destruct (Ascii.eqb c CR) eqn:E; [exact IH|]. cbn [all_chars]. by rewrite E, IH.
Qed.

Lemma split_lacks_sep sep (s : string) :
  Forall (fun piece => lacks_char sep piece = true) (split sep s).
Proof.
  induction s as [|c s IH]; [by repeat constructor|]. cbn [split].
  destruct (Ascii.eqb c sep) eqn:E.
  - by constructor.
  - destruct (split sep s) as [|h t]; [by repeat constructor; cbn; rewrite E|].
    inversion IH as [|? ? Hh Ht]; subst. constructor; [|done].
    unfold lacks_char in *. cbn. by rewrite E, Hh.
Qed.

Lemma lstrip_no_leading_blank (s : string) : no_leading_blank (lstrip s).
Proof.
  induction s as [|c s IH]; [done|]. cbn.
  destruct (isspace c) eqn:E; [exact IH|]. exact E.
Qed.

Lemma lstrip_fixed (s : string) : no_leading_blank s -> lstrip s = s.
Proof. destruct s as [|c s]; [done|]. cbn. by intros ->. Qed.

Lemma rstrip_no_leading_blank (s : string) :
  no_leading_blank s -> no_leading_blank (rstrip s).
Proof.
  destruct s as [|c s]; [done|]. intros Hc. cbn in Hc. cbn [rstrip].
  rewrite Hc. exact Hc.
Qed.

Lemma rstrip_idempotent (s : string) : rstrip (rstrip s) = rstrip s.
Proof.
  induction s as [|c s IH]; [done|]. cbn [rstrip].
  destruct (isspace c && is_empty (rstrip s)) eqn:E; [done|].
  cbn [rstrip]. rewrite IH, E. reflexivity.
Qed.

Lemma strip_idempotent (s : string) : strip (strip s) = strip s.
Proof.
  unfold strip.
  rewrite (lstrip_fixed (rstrip (lstrip s)))
    by apply rstrip_no_leading_blank, lstrip_no_leading_blank.
  apply rstrip_idempotent.
Qed.

Lemma spec_entries_clean (text : string) :
  Forall clean_entry (spec_entries text).
Proof.
  unfold spec_entries. apply Forall_forall. intros e He.
  apply list_elem_of_In, filter_In in He as [He Hne].
  apply list_elem_of_In, list_elem_of_fmap in He as (piece & -> & Hpiece).
  pose proof (split_lacks_sep LF text) as Hlf.
  rewrite Forall_forall in Hlf. apply Hlf in Hpiece.
  repeat split.
  - intros E. unfold WindowsUpdate.non_empty in Hne. by rewrite E in Hne.
  - apply strip_idempotent.
  - apply all_chars_strip, remove_cr_lacks_cr.
  - by apply all_chars_strip, all_chars_remove_cr.
Qed.

End Entries.

(** X8: every entry of a supersedes list is a non-empty text without
    carriage return or line feed and without a blank at either end. *)
Theorem superseeds_entries_clean (u : WindowsUpdate.t) (entries : list PyVal) :
  WindowsUpdate.superseeds u = Ok (VList entries) ->
  Forall (fun v => exists entry, v = VStr entry /\ clean_entry entry) entries.
Proof.
  unfold WindowsUpdate.superseeds.
  destruct (WindowsUpdate.details u) as [page|]; [|discriminate].
  cbn [bind]. intros Hs%Ok_inj.
  destruct (supersedesInfo page) as [raw|]; [|discriminate].
  destruct (PyStr.strip raw) as [|c s] eqn:Hraw.
  - unfold WindowsUpdate.superseeds_of in Hs. by rewrite Hraw in Hs.
  - destruct (superseeds_of_stripped raw) as [Heq _]; [by rewrite Hraw|].
    rewrite Heq in Hs. injection Hs as <-.
    apply Forall_fmap. eapply Forall_impl; [apply spec_entries_clean|].
    intros e He. by exists e.
Qed.

Lemma superseeds_entries_clean_witness :
  Forall (fun v => exists entry, v = VStr entry /\ clean_entry entry)
         [VStr "2024-01 Cumulative Update (KB5034123)"].
Proof.
  apply (superseeds_entries_clean newer_update). vm_compute. reflexivity.
Defined.

(** ** The list that the catalog path returns *)

Section CatalogList.
Context `{PyLib}.

Lemma collect_updates_records (found : list WindowsUpdate.t)
    (updates updates' : list pydict) (seeds seeds' : list PyVal) :
  collect_updates found updates seeds = Ok (updates', seeds') ->
  exists records,
    Forall2 (fun u r => catalog_record u = Ok r) found records /\
    updates' = updates ++ records.
Proof.
  revert updates seeds. induction found as [|u found IH]; intros updates seeds Hc.
  - cbn in Hc. injection Hc as <- <-. exists []. split; [constructor|].
    by rewrite app_nil_r.
  - cbn [collect_updates] in Hc.
    destruct (catalog_record u) as [rec|] eqn:Hu; [|discriminate].
    cbn [bind] in Hc. cbn zeta in Hc.
    destruct (IH _ _ Hc) as (records & HF & ->).
    exists (rec :: records). split; [by constructor|].
    by rewrite <- app_assoc.
Qed.

Lemma collect_updates_raises (found : list WindowsUpdate.t)
    (updates : list pydict) (seeds : list PyVal) :
  Exists (fun u => exists e, catalog_record u = Raise e) found ->
  exists e, collect_updates found updates seeds = Raise e.
Proof.
  intros HE. revert updates seeds.
  induction HE as [u found [e Hu]|u found _ IH]; intros updates seeds.
  - exists e. cbn [collect_updates]. by rewrite Hu.
  - cbn [collect_updates]. destruct (catalog_record u); cbn [bind]; [|by eexists].
    cbn zeta. apply IH.
Qed.

Lemma collect_updates_returns (found : list WindowsUpdate.t)
    (updates : list pydict) (seeds : list PyVal) :
  Forall (fun u => exists r, catalog_record u = Ok r) found ->
  exists updates' seeds', collect_updates found updates seeds = Ok (updates', seeds').
Proof.
  intros HF. revert updates seeds.
  induction HF as [|u found [r Hu] _ IH]; intros updates seeds.
  - by exists updates, seeds.
  - cbn [collect_updates]. rewrite Hu. cbn [bind]. cbn zeta. apply IH.
Qed.

(** X9: find_microsoft_catelogue_updates returns None exactly when the
    walk of the catalog yielded no update or the record of some update
    could not be built: one update whose detail page or download links
    fail discards the records of all the others. *)
Theorem catalog_all_or_nothing (found : list WindowsUpdate.t) :
  find_microsoft_catelogue_updates found = None <->
  found = [] \/ Exists (fun u => exists e, catalog_record u = Raise e) found.
Proof.
  unfold find_microsoft_catelogue_updates. split.
  - intros Hn.
    destruct found as [|u found]; [by left|]. right.
    destruct (decide (Forall (fun u => is_Some (match catalog_record u with
                                                 | Ok r => Some r | Raise _ => None end))
                             (u :: found))) as [Hall|Hsome].
    + exfalso.
      assert (Hall' : Forall (fun u => exists r, catalog_record u = Ok r) (u :: found)).
      { eapply Forall_impl; [exact Hall|]. intros x [r Hr].
        destruct (catalog_record x); [by eexists|discriminate]. }
      destruct (collect_updates_returns _ [] [] Hall') as (ups & seeds & Hc).
      rewrite Hc in Hn. destruct (collect_updates_records _ _ _ _ _ Hc) as (records & HF & ->).
      inversion HF; subst. discriminate.
    + apply not_Forall_Exists in Hsome; [|apply _].
      eapply Exists_impl; [exact Hsome|]. intros x Hx. cbn in Hx.
      destruct (catalog_record x) as [r|e]; [|by exists e].
      destruct Hx. by eexists.
  - intros [->|HE]; [reflexivity|].
    by destruct (collect_updates_raises _ [] [] HE) as [e ->].
Qed.

Lemma filter_sublist {A} (f : A -> bool) (l : list A) : sublist (List.filter f l) l.
Proof.
  induction l as [|x l IH]; [constructor|]. cbn.
  destruct (f x); by constructor.
Qed.

Lemma filter_all {A} (f : A -> bool) (l : list A) :
  Forall (fun x => f x = true) l -> List.filter f l = l.
Proof. induction 1 as [|x l Hx _ IH]; [done|]. cbn. by rewrite Hx, IH. Qed.

Lemma seeds_never_match (seeds : list PyVal) (r : pydict) (title : string) :
  Forall collected_value seeds -> r !! "title" = Some (VStr title) ->
  title <> "None" -> super_seed_found seeds r = false.
Proof.
  intros Hs Hr Ht. unfold super_seed_found.
  destruct (existsb (title_is r) seeds) eqn:E; [|done]. exfalso.
  apply existsb_exists in E as (v & Hv & Hm).
  rewrite Forall_forall in Hs. apply list_elem_of_In, Hs in Hv.
  unfold title_is in Hm. rewrite Hr in Hm.
  destruct Hv as [[l ->] | ->]; [discriminate|].
  cbn in Hm. by apply String.eqb_eq in Hm.
Qed.

Lemma records_never_match (seeds : list PyVal) (us : list WindowsUpdate.t)
    (rs : list pydict) :
  Forall collected_value seeds ->
  Forall2 (fun u r => catalog_record u = Ok r) us rs ->
  Forall (fun u => WindowsUpdate.title u <> "None") us ->
  Forall (fun r => negb (super_seed_found seeds r) = true) rs.
Proof.
  intros Hseeds HF. induction HF as [|u r us rs Hur _ IH]; intros Ht; [constructor|].
  inversion Ht as [|? ? Hu Hus]; subst. constructor; [|by apply IH].
  destruct (catalog_record_shape _ _ Hur) as (_ & Htitle & _).
  apply negb_true_iff. by eapply seeds_never_match.
Qed.

(** X10: the list returned holds records of the updates found, each built
    from its update, in the order of the walk and without repetition of a
    position; when no update is titled "None" it holds the record of
    every update. *)
Theorem catalog_output_selection (found : list WindowsUpdate.t) (out : list pydict) :
  find_microsoft_catelogue_updates found = Some out ->
  exists records,
    Forall2 (fun u r => catalog_record u = Ok r) found records /\
    sublist out records /\
    (Forall (fun u => WindowsUpdate.title u <> "None") found -> out = records).
Proof.
  unfold find_microsoft_catelogue_updates.
  destruct (collect_updates found [] []) as [[updates seeds]|] eqn:Hc; [|discriminate].
  destruct (collect_updates_records _ _ _ _ _ Hc) as (records & HF & Hu).
  cbn [app] in Hu. subst updates.
  destruct records as [|r0 records]; [discriminate|].
  intros Heq. apply (inj Some) in Heq. subst out.
  exists (r0 :: records). split; [exact HF|]. split; [apply filter_sublist|].
  intros Ht. apply filter_all.
  pose proof (collect_updates_seeds _ _ _ _ _ Hc (Forall_nil_2 _)) as Hseeds.
  eapply records_never_match; eauto.
Qed.

End CatalogList.

Lemma catalog_all_or_nothing_witness :
  find_microsoft_catelogue_updates (H:=stub_lib)
    [older_update; update_with_siblings (Some [NText "abc"])] = None.
Proof.
  apply (catalog_all_or_nothing (H:=stub_lib)). right.
  apply Exists_cons_tl, Exists_cons_hd. exists ValueError. vm_compute. reflexivity.
Defined.

Lemma catalog_output_selection_witness :
  exists records,
    Forall2 (fun u r => catalog_record (H:=stub_lib) u = Ok r)
            [newer_update; older_update] records /\
    written (find_microsoft_catelogue_updates (H:=stub_lib) [newer_update; older_update])
      = records.
Proof.
  assert (Hout : find_microsoft_catelogue_updates (H:=stub_lib) [newer_update; older_update]
                 = Some (written (find_microsoft_catelogue_updates (H:=stub_lib)
                                    [newer_update; older_update])))
    by (apply written_spec; vm_compute; reflexivity).
  destruct (catalog_output_selection (H:=stub_lib) _ _ Hout) as (records & HF & _ & Hall).
  exists records. split; [exact HF|]. apply Hall.
  repeat constructor; vm_compute; discriminate.
Defined.

(** ** The records of the download-center path, field by field *)

Section Fallback.
Context `{PyLib}.

Lemma getitem_dict (v x : PyVal) (k : string) :
  Py.getitem v k = Ok x -> exists d, v = VDict d /\ d !! k = Some x.
Proof.
  destruct v; try discriminate. cbn. intros Hx. eexists. split; [reflexivity|].
  destruct (_ !! k); [|discriminate]. by apply Ok_inj in Hx as ->.
Qed.

Lemma relabel_spec (l l' : list PyVal) :
  relabel l = Ok l' ->
  exists ds ds', l = VDict <$> ds /\ l' = VDict <$> ds' /\ Forall2 relabelled ds ds'.
Proof.
  revert l'. induction l as [|v l IH]; intros l' Hl.
  - apply Ok_inj in Hl as <-. exists [], []. by repeat split; try constructor.
  - cbn [relabel] in Hl.
    destruct (Py.getitem v "url") as [url|] eqn:Eurl; cbn [bind] in Hl; [|discriminate].
    apply getitem_dict in Eurl as (d & -> & Hurl).
    cbn [Py.setitem bind] in Hl.
    destruct (Py.getitem _ "name") as [name|] eqn:Ename in Hl; cbn [bind] in Hl;
      [|discriminate].
    apply getitem_dict in Ename as (d1 & Hd1 & Hname).
    injection Hd1 as <-. rewrite lookup_insert_ne in Hname by done.
    cbn [Py.setitem bind] in Hl.
    destruct (relabel l) as [rest|]; cbn [bind] in Hl; [|discriminate].
    apply Ok_inj in Hl as <-.
    destruct (IH _ eq_refl) as (ds & ds' & -> & -> & HF).
    exists (d :: ds), (<["file_name" := name]> (<["download_link" := url]> d) :: ds').
    split; [reflexivity|]. split; [reflexivity|]. constructor; [|exact HF].
    unfold relabelled. rewrite Hurl, Hname.
    split; [by eexists|]. split; [by eexists|].
    split; [by rewrite lookup_insert_ne, lookup_insert_eq|].
    split; [by rewrite lookup_insert_eq|].
    intros k Hk1 Hk2. by rewrite !lookup_insert_ne.
Qed.

Lemma relabel_chars (s : string) (l' : list PyVal) :
  relabel (Py.chars s) = Ok l' -> s = "".
Proof. destruct s; [done|discriminate]. Qed.

Lemma relabel_keys (ks : list string) (l' : list PyVal) :
  relabel (VStr <$> ks) = Ok l' -> ks = [].
Proof. destruct ks; [done|discriminate]. Qed.

(** What [download_info] may be for the loop over it to end well. *)
Lemma relabel_download_info_spec (files out : PyVal) :
  relabel_download_info files = Ok out ->
  (exists ds ds', files = descriptors ds /\ out = descriptors ds' /\
                  Forall2 relabelled ds ds') \/
  ((files = VStr "" \/ files = VDict ∅) /\ out = files).
Proof.
  destruct files as [| | | |s|l|d]; try discriminate; cbn [relabel_download_info Py.iter bind].
  - destruct (relabel (Py.chars s)) eqn:E; [|discriminate]. cbn [bind].
    intros Ho. apply Ok_inj in Ho as <-. apply relabel_chars in E as ->.
    right. split; [by left|done].
  - destruct (relabel l) as [l'|] eqn:E; [|discriminate]. cbn [bind].
    intros Ho. apply Ok_inj in Ho as <-. left.
    destruct (relabel_spec _ _ E) as (ds & ds' & -> & -> & HF). by exists ds, ds'.
  - destruct (relabel _) eqn:E; [|discriminate]. cbn [bind].
    intros Ho. apply Ok_inj in Ho as <-. apply relabel_keys in E.
    right. split; [right|done]. f_equal.
    apply fmap_nil_inv in E. by apply map_to_list_empty_iff.
Qed.

Lemma patch_record_sources (kb : PyVal) (update r : pydict) :
  patch_record kb update = Ok r ->
  (exists files out, update !! "download_info" = Some files /\
      relabel_download_info files = Ok out /\
      r !! "download_urls" = Some (VStr (json_dumps out))) /\
  is_Some (update !! "title") /\ r !! "title" = update !! "title" /\
  is_Some (update !! "supported_products") /\
  r !! "products_applicable" = update !! "supported_products" /\
  r !! "description" = update !! "description" /\
  r !! "languages" = update !! "language" /\
  r !! "more_info" = update !! "update_url" /\
  r !! "update_size" = update !! "update_size" /\
  r !! "version" = update !! "version" /\
  r !! "last_updated" = update !! "last_updated" /\
  r !! "architecture" = Some (default VNone (update !! "architecture")) /\
  r !! "superseeds" = Some (VStr "None") /\
  r !! "msrc_number" = Some (VStr "None") /\
  r !! "msrc_severity" = Some (VStr "None").
Proof.
  intros Hr. unfold patch_record in Hr. bind_inv Hr.
  repeat match goal with
         | E : Py.get (VDict _) _ = Ok _ |- _ => cbn [Py.get] in E; apply Ok_inj in E as <-
         | E : Py.getitem (VDict _) _ = Ok _ |- _ =>
             apply getitem_dict in E as (? & [= <-] & E)
         end.
  apply Ok_inj in Hr as <-.
  repeat match goal with E : update !! _ = Some _ |- _ => rewrite E; clear E end.
  split; [by eexists _, _|].
  repeat split; by eexists.
Qed.

Lemma parse_details_sources (d : DLCDetails) (parsed_dict : pydict) :
  parse_details d = Ok parsed_dict ->
  let files := default VNone (download_file d !! "downloadFile") in
  parsed_dict !! "download_info" = Some files /\
  (exists title, download_title d !! "downloadTitle" = Some (VStr title) /\
                 parsed_dict !! "title" = Some (VStr title)) /\
  parsed_dict !! "supported_products" = operating_system d !! "operatingSystem" /\
  parsed_dict !! "description" =
    Some (default VNone (download_description d !! "downloadDescription")) /\
  parsed_dict !! "language" = Some (VStr "English") /\
  parsed_dict !! "update_url" = Some (actual_download_link d) /\
  parsed_dict !! "update_size" = Some (VStr (get_update_size files)) /\
  parsed_dict !! "version" = Some (get_version_number files) /\
  parsed_dict !! "last_updated" = Some (get_last_updated files) /\
  parsed_dict !! "architecture" = Some (get_architecture files).
Proof.
  intros Hp files. unfold parse_details in Hp. cbn [Py.get bind] in Hp.
  fold files in Hp.
  destruct (download_title d !! "downloadTitle") as [[| | | |title| |]|] eqn:Ht;
    cbn [from_option id Py.lower bind] in Hp; try discriminate.
  assert (Hos : exists os, operating_system d !! "operatingSystem" = Some os).
  { destruct (operating_system d !! "operatingSystem") eqn:E; [by eexists|].
    exfalso. cbn [Py.getitem] in Hp. rewrite E in Hp.
    destruct (PyStr.contains "kb" (PyStr.lower title));
      [destruct (digits_after_kb _)|]; cbn [bind] in Hp; discriminate. }
  destruct Hos as [os Hos]. cbn [Py.getitem] in Hp. rewrite Hos in Hp.
  assert (Hshape : exists base : pydict,
            parsed_dict =
              <["update_url" := actual_download_link d]>
              (<["language" := VStr "English"]>
              (<["supported_products" := os]>
              (<["description" :=
                   default VNone (download_description d !! "downloadDescription")]> base))) /\
            forall k, k <> "kb" ->
              base !! k =
              (<["title" := VStr title]>
              (<["architecture" := get_architecture files]>
              (<["last_updated" := get_last_updated files]>
              (<["version" := get_version_number files]>
              (<["update_size" := VStr (get_update_size files)]>
              (<["download_info" := files]> (∅ : pydict))))))) !! k).
  { destruct (PyStr.contains "kb" (PyStr.lower title)).
    - destruct (digits_after_kb _) as [digits|]; cbn [bind] in Hp; [|discriminate].
      match type of Hp with
      | context [if ?c then _ else _] => destruct c
      end; cbn [bind] in Hp; apply Ok_inj in Hp as <-; eexists; (split; [reflexivity|]);
        intros k Hk; by rewrite ?(lookup_insert_ne _ "kb" k) by done.
    - cbn [bind] in Hp.
      match type of Hp with
      | context [if ?c then _ else _] => destruct c
      end; cbn [bind] in Hp; apply Ok_inj in Hp as <-; eexists; (split; [reflexivity|]);
        intros k Hk; by rewrite ?(lookup_insert_ne _ "kb" k) by done. }
  destruct Hshape as (base & -> & Hbase).
  split. { rewrite !lookup_insert_ne by done. rewrite Hbase by done.
           by rewrite !lookup_insert_ne, lookup_insert_eq by done. }
  split. { exists title. split; [done|]. rewrite !lookup_insert_ne by done.
           rewrite Hbase by done. by rewrite lookup_insert_eq. }
  split. { by rewrite !lookup_insert_ne, lookup_insert_eq by done. }
  split. { by rewrite !lookup_insert_ne, lookup_insert_eq by done. }
  split. { by rewrite !lookup_insert_ne, lookup_insert_eq by done. }
  split. { by rewrite lookup_insert_eq. }
  split. { rewrite !lookup_insert_ne by done. rewrite Hbase by done.
           by rewrite !lookup_insert_ne, lookup_insert_eq by done. }
  split. { rewrite !lookup_insert_ne by done. rewrite Hbase by done.
           by rewrite !lookup_insert_ne, lookup_insert_eq by done. }
  split. { rewrite !lookup_insert_ne by done. rewrite Hbase by done.
           by rewrite !lookup_insert_ne, lookup_insert_eq by done. }
  rewrite !lookup_insert_ne by done. rewrite Hbase by done.
  by rewrite !lookup_insert_ne, lookup_insert_eq by done.
Qed.

(** X11: a record of the download-center path takes its fields from the
    page it was scraped from: title, description and operating system
    from the slices of those names (the title is text, the operating
    system is present), the language is English, more_info is the
    canonical link of the page, and size, version, date and architecture
    are what the helper functions compute from the file descriptors; it
    never carries supersedes or MSRC data. *)
Theorem download_center_record_sources (d : DLCDetails) (kb : PyVal) (r : pydict) :
  r ∈ get_microsoft_download_center_update (Ok (Some d)) kb ->
  let files := default VNone (download_file d !! "downloadFile") in
  (exists title, download_title d !! "downloadTitle" = Some (VStr title) /\
                 r !! "title" = Some (VStr title)) /\
  (exists os, operating_system d !! "operatingSystem" = Some os /\
              r !! "products_applicable" = Some os) /\
  r !! "description" =
    Some (default VNone (download_description d !! "downloadDescription")) /\
  r !! "languages" = Some (VStr "English") /\
  r !! "more_info" = Some (actual_download_link d) /\
  r !! "update_size" = Some (VStr (get_update_size files)) /\
  r !! "version" = Some (get_version_number files) /\
  r !! "last_updated" = Some (get_last_updated files) /\
  r !! "architecture" = Some (get_architecture files) /\
  r !! "superseeds" = Some (VStr "None") /\
  r !! "msrc_number" = Some (VStr "None") /\
  r !! "msrc_severity" = Some (VStr "None").
Proof.
  intros Hr files.
  destruct (download_center_elem _ _ _ Hr) as (d' & pd & Hd & Hpd & Hrec).
  apply Ok_inj in Hd. apply (inj Some) in Hd. subst d'.
  destruct (parse_details_sources _ _ Hpd)
    as (_ & (title & Ht & Hpt) & Hos & Hdesc & Hlang & Hurl & Hsize & Hver & Hdate & Harch).
  destruct (patch_record_sources _ _ _ Hrec)
    as (_ & _ & Rt & [os Ros] & Rp & Rd & Rl & Rm & Rs & Rv & Rdt & Ra & R1 & R2 & R3).
  fold files in Hsize, Hver, Hdate, Harch.
  split. { exists title. split; [done|]. by rewrite Rt. }
  split. { exists os. rewrite <- Hos, Rp. done. }
  rewrite Rd, Rl, Rm, Rs, Rv, Rdt, Ra, Harch. by repeat split.
Qed.

(** X12: the "download_urls" of a record of the download-center path is
    the serialised list of the page's file descriptors, each of which had
    a "url" and a "name" and has gained a "download_link" equal to the
    one and a "file_name" equal to the other, nothing else changed; the
    only other pages that give a record have an empty text or an empty
    object in place of the list. *)
Theorem download_center_links_relabelled (d : DLCDetails) (kb : PyVal) (r : pydict) :
  r ∈ get_microsoft_download_center_update (Ok (Some d)) kb ->
  let files := default VNone (download_file d !! "downloadFile") in
  (exists ds ds', files = descriptors ds /\ Forall2 relabelled ds ds' /\
      r !! "download_urls" = Some (VStr (json_dumps (descriptors ds')))) \/
  ((files = VStr "" \/ files = VDict ∅) /\
   r !! "download_urls" = Some (VStr (json_dumps files))).
Proof.
  intros Hr files.
  destruct (download_center_elem _ _ _ Hr) as (d' & pd & Hd & Hpd & Hrec).
  apply Ok_inj in Hd. apply (inj Some) in Hd. subst d'.
  destruct (parse_details_sources _ _ Hpd) as (Hinfo & _).
  destruct (patch_record_sources _ _ _ Hrec) as ((files' & out & Hf & Hout & Hurls) & _).
  rewrite Hinfo in Hf. apply (inj Some) in Hf. subst files'. fold files in Hout.
  destruct (relabel_download_info_spec _ _ Hout)
    as [(ds & ds' & Hds & -> & HF) | [Hempty ->]].
  - left. by exists ds, ds'.
  - by right.
Qed.

Lemma patch_records_length (kb : PyVal) (l rs : list pydict) :
  patch_records kb l = Ok rs -> length rs = length l.
Proof.
  revert rs. induction l as [|x l IH]; intros rs Hrs.
  - by apply Ok_inj in Hrs as <-.
  - cbn [patch_records] in Hrs. bind_inv Hrs. apply Ok_inj in Hrs as <-.
    cbn. f_equal. by apply IH.
Qed.

Lemma download_center_length (page : Scrape) (kb : PyVal) :
  length (get_microsoft_download_center_update page kb) <= 1.
Proof.
  unfold get_microsoft_download_center_update, try_except.
  destruct (patch_records kb _) as [rs|] eqn:Hrs; [|cbn; lia].
  rewrite (patch_records_length _ _ _ Hrs).
  unfold get_microsoft_windows_product_update, try_except.
  destruct page as [[d|]|]; cbn [bind]; try (cbn; lia).
  destruct (parse_details d); cbn; lia.
Qed.

(** The pages that were fetched and hold a details literal. *)
Lemma download_center_unreadable (page : Scrape) (kb : PyVal) :
  readable page = false -> get_microsoft_download_center_update page kb = [].
Proof. by destruct page as [[d|]|]. Qed.

Lemma download_center_pages_length (kb : PyVal) (pages : list Scrape) :
  length (concat ((fun page => get_microsoft_download_center_update page kb) <$> pages))
    <= length (List.filter readable pages).
Proof.
  induction pages as [|q qs IH]; [cbn; lia|].
  rewrite fmap_cons. cbn [concat List.filter]. rewrite length_app.
  pose proof (download_center_length q kb) as Hq.
  destruct (readable q) eqn:E.
  - cbn [length]. lia.
  - rewrite (download_center_unreadable _ _ E). cbn [length]. lia.
Qed.

(** X13: a download page gives at most one record, and a page that could
    not be read gives none, so when the catalog gave nothing the list
    written has at most as many records as the support page has links to
    readable download pages. *)
Theorem fallback_one_record_per_page (search : string) (found : list WindowsUpdate.t)
    (patch_pages : list Scrape) (out : list pydict) :
  from_catalog found = false ->
  final_updates search found patch_pages = Some out ->
  length out <= length (List.filter readable patch_pages) /\
  length out <= length patch_pages.
Proof.
  unfold from_catalog, final_updates. intros Hc Ho.
  assert (Hout : out = concat ((fun page =>
                   get_microsoft_download_center_update page (VStr search)) <$> patch_pages)).
  { destruct (find_microsoft_catelogue_updates found) as [[|u us]|]; try discriminate;
      (destruct patch_pages as [|p ps]; [discriminate|]);
      apply (inj Some) in Ho; by subst out. }
  subst out. pose proof (download_center_pages_length (VStr search) patch_pages) as Hl.
  split; [exact Hl|]. etransitivity; [exact Hl|]. apply filter_length_le.
Qed.

End Fallback.

Lemma download_center_record_sources_witness :
  first_record (get_microsoft_download_center_update (H:=stub_lib)
                  page_with_kb (VStr "4530684")) !! "more_info" =
    Some (VStr "https://www.microsoft.com/en-us/download/details.aspx?id=105652") /\
  first_record (get_microsoft_download_center_update (H:=stub_lib)
                  page_with_kb (VStr "4530684")) !! "languages" = Some (VStr "English").
Proof.
  assert (Hr : first_record (get_microsoft_download_center_update (H:=stub_lib)
                 page_with_kb (VStr "4530684"))
               ∈ get_microsoft_download_center_update (H:=stub_lib)
                   (Ok (Some (sample_details sample_title "windows11.0-kb5034123-x64.msu")))
                   (VStr "4530684"))
    by (apply first_record_elem; vm_compute; reflexivity).
  destruct (download_center_record_sources (H:=stub_lib) _ _ _ Hr)
    as (_ & _ & _ & Hl & Hm & _).
  split; [exact Hm|exact Hl].
Defined.

Lemma download_center_links_relabelled_witness :
  exists ds',
    Forall2 relabelled [sample_file "windows11.0-kb5034123-x64.msu" "1073741824"] ds' /\
    first_record (get_microsoft_download_center_update (H:=stub_lib)
                    page_with_kb (VStr "4530684")) !! "download_urls" =
      Some (VStr (json_dumps (PyLib:=stub_lib) (descriptors ds'))).
Proof.
  assert (Hr : first_record (get_microsoft_download_center_update (H:=stub_lib)
                 page_with_kb (VStr "4530684"))
               ∈ get_microsoft_download_center_update (H:=stub_lib)
                   (Ok (Some (sample_details sample_title "windows11.0-kb5034123-x64.msu")))
                   (VStr "4530684"))
    by (apply first_record_elem; vm_compute; reflexivity).
  destruct (download_center_links_relabelled (H:=stub_lib) _ _ _ Hr)
    as [(ds & ds' & Hds & HF & Hurls) | [[Hf | Hf] _]].
  - exists ds'. split; [|exact Hurls].
    assert (Hfiles : descriptors [sample_file "windows11.0-kb5034123-x64.msu" "1073741824"]
                     = descriptors ds) by exact Hds.
    unfold descriptors in Hfiles. injection Hfiles as Hfiles.
    destruct ds as [|x [|y ds]]; try discriminate Hfiles.
    injection Hfiles as ->. exact HF.
  - discriminate Hf.
  - discriminate Hf.
Defined.

Lemma fallback_one_record_per_page_witness :
  length (written (final_updates (H:=stub_lib) "5034123" []
                     [Raise FetchError; page_with_kb; Ok None])) <= 1.
Proof.
  assert (Hout : final_updates (H:=stub_lib) "5034123" []
                   [Raise FetchError; page_with_kb; Ok None] =
                 Some (written (final_updates (H:=stub_lib) "5034123" []
                                  [Raise FetchError; page_with_kb; Ok None])))
    by (apply written_spec; vm_compute; reflexivity).
  assert (Hc : from_catalog (H:=stub_lib) [] = false) by reflexivity.
  apply (proj1 (fallback_one_record_per_page (H:=stub_lib) _ _ _ _ Hc Hout)).
Defined.

(** ** The products of a row *)

Example products_of_samples :
  products_of " Windows 10, version 1903 and later,Windows Server 2019 " =
    ["Windows 10, version 1903 and later"; "Windows Server 2019"] /\
  products_of "a,b," = ["a"; "b,"] /\
  products_of ",," = [","] /\
  products_of "" = [].
Proof. repeat split. Qed.

Lemma split_products_not_nil (s : string) : split_products s <> [].
Proof.
  destruct s as [|c s]; [done|]. cbn [split_products].
  destruct (splits_here c s); [done|]. by destruct (split_products s).
Qed.

Lemma products_of_blank (cell_text : string) :
  all_space cell_text = true -> products_of cell_text = [].
Proof.
  intros Hs. unfold products_of.
  assert (PyStr.strip cell_text = "") as ->; [|reflexivity].
  apply is_empty_true. by rewrite is_empty_strip.
Qed.

Lemma products_of_non_empty (cell_text : string) :
  Forall (fun product => product <> "") (products_of cell_text).
Proof.
  apply Forall_forall. intros p Hp. apply list_elem_of_In, filter_In in Hp as [_ Hne].
  by destruct p.
Qed.

Lemma text_ahead_app (s t : string) : s <> "" -> text_ahead (s +:+ t) = text_ahead s.
Proof. destruct s as [|c s]; [done|]. intros _. by rewrite string_app_cons. Qed.

Lemma splits_here_text_ahead (c : ascii) (rest : string) :
  splits_here c rest = Ascii.eqb c "," && text_ahead rest.
Proof. unfold splits_here, text_ahead. by destruct rest. Qed.

Lemma comma_before_text_cons (c : ascii) (s : string) :
  comma_before_text (String c s) ->
  (c = "," /\ text_ahead s = true)%char \/ comma_before_text s.
Proof.
  intros (pre & post & Heq & Ht). destruct pre as [|a pre].
  - rewrite string_app_nil in Heq. change ("," +:+ post) with (String "," post) in Heq.
    injection Heq as -> ->. by left.
  - rewrite string_app_cons in Heq. injection Heq as -> ->. right. by exists pre, post.
Qed.

Lemma no_comma_before_text_piece (piece : string) :
  ~ comma_before_text (piece +:+ ",") -> ~ comma_before_text piece.
Proof.
  intros Hn (pre & post & -> & Ht). apply Hn. exists pre, (post +:+ ",").
  split; [by rewrite !string_app_assoc|].
  rewrite text_ahead_app; [exact Ht|]. by destruct post.
Qed.

(** The split of the code cuts at the commas that have something other
    than white space after them, and nowhere else. *)
Lemma split_products_cut (s : string) : cut_at_commas s (split_products s).
Proof.
  induction s as [|c s IH].
  - apply cut_nowhere. intros (pre & post & Heq & _). by destruct pre.
  - cbn [split_products]. destruct (splits_here c s) eqn:Hc.
    + rewrite splits_here_text_ahead in Hc. apply andb_true_iff in Hc as [Hcomma Ht].
      apply Ascii.eqb_eq in Hcomma. subst c.
      change (String "," s) with ("" +:+ "," +:+ s). apply cut_first; [exact Ht| |exact IH].
      intros (pre & post & Heq & Hpost). destruct pre as [|a pre].
      * rewrite !string_app_nil in Heq. change ("," +:+ post) with (String "," post) in Heq.
        injection Heq as <-. discriminate Hpost.
      * rewrite string_app_nil, string_app_cons in Heq. injection Heq as _ Heq.
        by destruct pre.
    + rewrite splits_here_text_ahead in Hc.
      inversion IH as [s0 Hn Hs0 Hp|piece rest pieces Ht Hn Hrest Hs0 Hp].
      * apply cut_nowhere. intros Hcb.
        apply comma_before_text_cons in Hcb as [[-> Ht]|Hcb]; [|by apply Hn].
        by rewrite Ht in Hc.
      * change (String c (piece +:+ "," +:+ rest)) with (String c piece +:+ "," +:+ rest).
        apply cut_first; [exact Ht| |exact Hrest].
        rewrite string_app_cons. intros Hcb.
        apply comma_before_text_cons in Hcb as [[-> Hp']|Hcb]; [|by apply Hn].
        rewrite <- Hs0 in Hc.
        rewrite <- (string_app_assoc piece "," rest) in Hc.
        rewrite text_ahead_app in Hc; [|by destruct piece].
        by rewrite Hp' in Hc.
Qed.

Lemma cut_at_commas_pieces (s : string) (pieces : list string) :
  cut_at_commas s pieces -> Forall (fun piece => ~ comma_before_text piece) pieces.
Proof.
  induction 1 as [s Hn|piece rest pieces Ht Hn _ IH]; [by repeat constructor|].
  constructor; [by apply no_comma_before_text_piece|exact IH].
Qed.

(** X14: the products of a row are the pieces, the empty ones left out,
    into which the stripped text of its cell falls when it is cut at
    every comma that has something other than white space right after
    it: no product is empty, none holds such a comma, and a blank cell
    gives no product at all. *)
Theorem products_of_spec (cell_text : string) :
  (exists pieces,
     cut_at_commas (PyStr.strip cell_text) pieces /\
     products_of cell_text = List.filter (fun piece => negb (String.eqb piece "")) pieces) /\
  Forall (fun product => product <> "" /\ ~ comma_before_text product)
         (products_of cell_text) /\
  (all_space cell_text = true -> products_of cell_text = []).
Proof.
  split; [|split].
  - exists (split_products (PyStr.strip cell_text)). split; [apply split_products_cut|].
    unfold products_of. cbn zeta. apply filter_ext. by intros [|c p].
  - apply Forall_forall. intros p Hp. split.
    + pose proof (products_of_non_empty cell_text) as Hne.
      rewrite Forall_forall in Hne. by apply Hne.
    + unfold products_of in Hp. apply list_elem_of_In, filter_In in Hp as [Hp _].
      pose proof (cut_at_commas_pieces _ _ (split_products_cut (PyStr.strip cell_text)))
        as HF.
      rewrite Forall_forall in HF. by apply HF, list_elem_of_In.
  - apply products_of_blank.
Qed.

Lemma products_of_spec_witness :
  Forall (fun product => product <> "" /\ ~ comma_before_text product)
         (products_of " Windows 10, version 1903 and later,Windows Server 2019 ") /\
  products_of "  " = [].
Proof.
  split.
  - apply (proj1 (proj2 (products_of_spec
                           " Windows 10, version 1903 and later,Windows Server 2019 "))).
  - apply (proj2 (proj2 (products_of_spec "  "))). reflexivity.
Defined.

Section RowProducts.
Context `{PyLib}.

Lemma catalog_record_product (u : WindowsUpdate.t) (r : pydict) :
  catalog_record u = Ok r ->
  exists product rest,
    WindowsUpdate.products u = product :: rest /\
    r !! "products_applicable" =
      Some (VStr (if WindowsUpdate.non_empty product then PyStr.lower product else "")).
Proof.
  intros Hr. unfold catalog_record in Hr. bind_inv Hr. apply Ok_inj in Hr as <-.
  match goal with E : WindowsUpdate.product u = Ok _ |- _ => rename E into Hp end.
  unfold WindowsUpdate.product in Hp.
  destruct (WindowsUpdate.products u) as [|product rest]; [discriminate|].
  apply Ok_inj in Hp as <-. exists product, rest. split; reflexivity.
Qed.

(** X15: for a row whose products were read from its cell, the record's
    "products_applicable" is the first product in lower case and is never
    the empty text that the code provides for an empty product; and a row
    whose cell is blank has no first product, which empties the whole
    search: every other row's record is discarded with it. *)
Theorem row_products (u : WindowsUpdate.t) (cell_text : string) :
  WindowsUpdate.products u = products_of cell_text ->
  (forall r, catalog_record u = Ok r ->
     exists product rest,
       products_of cell_text = product :: rest /\ product <> "" /\
       PyStr.lower product <> "" /\
       r !! "products_applicable" = Some (VStr (PyStr.lower product))) /\
  (all_space cell_text = true ->
   forall found, u ∈ found -> find_microsoft_catelogue_updates found = None).
Proof.
  intros Hu.
  assert (Hrec : forall r, catalog_record u = Ok r ->
     exists product rest,
       products_of cell_text = product :: rest /\ product <> "" /\
       PyStr.lower product <> "" /\
       r !! "products_applicable" = Some (VStr (PyStr.lower product))).
  { intros r Hr. destruct (catalog_record_product _ _ Hr) as (p & rest & Hp & Hrp).
    rewrite Hu in Hp. exists p, rest. split; [exact Hp|].
    pose proof (products_of_non_empty cell_text) as Hne. rewrite Hp in Hne.
    inversion Hne as [|? ? Hp0 _]; subst.
    destruct p as [|c p]; [done|]. repeat split; done. }
  split; [exact Hrec|].
  intros Hblank found Hin.
  unfold find_microsoft_catelogue_updates.
  assert (HE : Exists (fun u => exists e, catalog_record u = Raise e) found).
  { apply Exists_exists. exists u. split; [exact Hin|].
    destruct (catalog_record u) as [r|e] eqn:Hr; [|by exists e].
    destruct (Hrec r eq_refl) as (p & rest & Hp & _).
    by rewrite (products_of_blank _ Hblank) in Hp. }
  by destruct (collect_updates_raises _ [] [] HE) as [e ->].
Qed.

End RowProducts.

Lemma record_of_spec (c : exc pydict) : returned c = true -> c = Ok (record_of c).
Proof. by destruct c. Qed.


Lemma row_products_witness :
  find_microsoft_catelogue_updates (H:=stub_lib)
    [older_update; update_with_products "  "] = None /\
  record_of (catalog_record (H:=stub_lib)
               (update_with_products "Windows 11,Windows 10, version 1903 and later"))
    !! "products_applicable" = Some (VStr "windows 11").
Proof.
  split.
  - apply (proj2 (row_products (H:=stub_lib) (update_with_products "  ") "  " eq_refl)
             eq_refl).
    right. left.
  - assert (Hu : WindowsUpdate.products
                   (update_with_products "Windows 11,Windows 10, version 1903 and later") =
                 products_of "Windows 11,Windows 10, version 1903 and later")
      by (vm_compute; reflexivity).
    assert (Hr : catalog_record (H:=stub_lib)
                   (update_with_products "Windows 11,Windows 10, version 1903 and later") =
                 Ok (record_of (catalog_record (H:=stub_lib)
                   (update_with_products "Windows 11,Windows 10, version 1903 and later"))))
      by (apply record_of_spec; vm_compute; reflexivity).
    destruct (proj1 (row_products (H:=stub_lib) _ _ Hu) _ Hr)
      as (p & rest & Hp & _ & _ & Hrp).
    rewrite Hrp.
    assert (Hp' : "Windows 11" :: ["Windows 10, version 1903 and later"] = p :: rest)
      by (rewrite <- Hp; vm_compute; reflexivity).
    injection Hp' as <- _. reflexivity.
Defined.

(** ** The download links of an update *)

Example findall_downloads_samples :
  findall_downloads
    "[12].url = 'https://catalog.s.download.windowsupdate.com/[3].url = 'http://catalog.s.download.windowsupdate.com/z'" =
    [("12", "https://catalog.s.download.windowsupdate.com/[3].url = ")] /\
  findall_downloads "[].url = 'https://catalog.s.download.windowsupdate.com/abc" =
    [("", "https://catalog.s.download.windowsupdate.com/abc")] /\
  findall_downloads "[0].url = 'httpss://catalog.s.download.windowsupdate.com/abc'" = [] /\
  findall_downloads
    "[0][1].url = 'http://catalog.s.download.windowsupdate.com/a';[2].url = 'https://catalog.s.download.windowsupdate.com/b'" =
    [("1", "http://catalog.s.download.windowsupdate.com/a");
     ("2", "https://catalog.s.download.windowsupdate.com/b")].
Proof. repeat split; vm_compute; reflexivity. Qed.

Example search_attribute_samples :
  search_attribute (attribute_prefix "0" "digest") "[0].digest = 'a'b';[0].digest = 'c';"
    = Some "c" /\
  search_attribute (attribute_prefix "0" "digest") "[0].digest = 'a b(c)/+-._';x"
    = Some "a b(c)/+-._" /\
  search_attribute (attribute_prefix "0" "digest") "[0].digest = 'a,b';" = None /\
  search_attribute (attribute_prefix "0" "digest") "[0].digest = '';" = Some "" /\
  search_attribute (attribute_prefix "0" "digest") "[0].digest = 'abc'" = None.
Proof. repeat split; vm_compute; reflexivity. Qed.

Section Links.

Lemma strip_prefix_spec (p s rest : string) :
  strip_prefix p s = Some rest -> s = p +:+ rest.
Proof.
  revert s. induction p as [|a p IH]; intros s Hs.
  - cbn in Hs. by injection Hs as ->.
  - destruct s as [|b s]; [discriminate|]. cbn in Hs.
    destruct (Ascii.eqb_spec a b) as [->|]; [|discriminate].
    rewrite string_app_cons. f_equal. by apply IH.
Qed.

Lemma take_drop_while (p : ascii -> bool) (s : string) :
  s = PyStr.take_while p s +:+ drop_while p s.
Proof.
  induction s as [|c s IH]; [reflexivity|]. cbn.
  destruct (p c); [|reflexivity]. rewrite string_app_cons. by rewrite <- IH.
Qed.

(** What a match of DOWNLOAD_PATTERN at the head of [s] has found. *)
Lemma match_download_spec (s download_id url : string) :
  match_download s = Some (download_id, url) ->
  all_chars PyStr.isdecimal download_id = true /\
  catalog_address url /\
  exists q post,
    is_quote q = true /\
    s = ("[" +:+ download_id +:+ "].url = " +:+ String q "") +:+ url +:+ post.
Proof.
  unfold match_download.
  destruct (strip_prefix "[" s) as [s1|] eqn:H1; [|discriminate].
  destruct (strip_prefix "].url = " _) as [[|q s2]|] eqn:H2; try discriminate.
  destruct (is_quote q) eqn:Hq; [|discriminate].
  destruct (strip_prefix "http" s2) as [s3|] eqn:H3; [|discriminate].
  apply strip_prefix_spec in H1, H2, H3.
  assert (Hs : s = "[" +:+ PyStr.take_while PyStr.isdecimal s1 +:+ "].url = " +:+
                   String q ("http" +:+ s3)).
  { rewrite H1. f_equal. rewrite (take_drop_while PyStr.isdecimal s1) at 1.
    rewrite H2, H3. reflexivity. }
  destruct (strip_prefix ("s" +:+ DOWNLOAD_HOST) s3) as [s4|] eqn:H4.
  - intros [= <- <-]. apply strip_prefix_spec in H4.
    split; [apply take_while_all|]. split.
    + exists "https", (PyStr.take_while not_quote s4).
      split; [reflexivity|]. split; [by right|apply take_while_all].
    + exists q, (drop_while not_quote s4). split; [exact Hq|].
      rewrite Hs, H4. rewrite (take_drop_while not_quote s4) at 1.
      rewrite !string_app_assoc. reflexivity.
  - destruct (strip_prefix DOWNLOAD_HOST s3) as [s4|] eqn:H5; [|discriminate].
    intros [= <- <-]. apply strip_prefix_spec in H5.
    split; [apply take_while_all|]. split.
    + exists "http", (PyStr.take_while not_quote s4).
      split; [reflexivity|]. split; [by left|apply take_while_all].
    + exists q, (drop_while not_quote s4). split; [exact Hq|].
      rewrite Hs, H5. rewrite (take_drop_while not_quote s4) at 1.
      rewrite !string_app_assoc. reflexivity.
Qed.

(** Every match that [findall] lists is a match at some place of [s]. *)
Lemma findall_from_elem (skip : nat) (s : string) (m : string * string) :
  m ∈ findall_from skip s ->
  exists pre s', s = pre +:+ s' /\ match_download s' = Some m.
Proof.
  revert skip. induction s as [|c s IH]; intros skip Hm; [by apply elem_of_nil in Hm|].
  cbn [findall_from] in Hm. destruct skip as [|k].
  - destruct (match_download (String c s)) as [[download_id url]|] eqn:Hd.
    + apply elem_of_cons in Hm as [->|Hm].
      * exists "", (String c s). by split.
      * destruct (IH _ Hm) as (pre & s' & -> & Hs'). exists (String c pre), s'. by split.
    + destruct (IH _ Hm) as (pre & s' & -> & Hs'). exists (String c pre), s'. by split.
  - destruct (IH _ Hm) as (pre & s' & -> & Hs'). exists (String c pre), s'. by split.
Qed.

Lemma findall_downloads_spec (s download_id url : string) :
  (download_id, url) ∈ findall_downloads s ->
  all_chars PyStr.isdecimal download_id = true /\ catalog_address url /\
  PyStr.contains url s = true.
Proof.
  intros Hm. destruct (findall_from_elem _ _ _ Hm) as (pre & s' & -> & Hs').
  destruct (match_download_spec _ _ _ Hs') as (Hid & Hurl & q & post & _ & ->).
  split; [exact Hid|]. split; [exact Hurl|].
  rewrite <- (string_app_assoc pre _ (url +:+ post)). apply contains_app.
Qed.

Lemma get_download_urls_spec (details : exc DetailPage) (resp : exc string)
    (infos : list WUDownloadInfo.t) :
  get_download_urls details resp = Ok infos ->
  exists raw,
    resp = Ok raw /\ infos <> [] /\
    infos = (fun '(download_id, url) =>
               WUDownloadInfo.init download_id url (PyStr.strip raw))
            <$> findall_downloads (PyStr.strip raw).
Proof.
  unfold get_download_urls, str_of_update.
  destruct resp as [raw|]; [|discriminate]. cbn [bind].
  destruct (findall_downloads (PyStr.strip raw)) as [|m ms] eqn:Hf.
  - by destruct details.
  - intros Hi. apply Ok_inj in Hi as <-. exists raw. rewrite Hf. by repeat split.
Qed.

(** X16: when get_download_urls returns, it returns at least one download,
    and the address of each one begins with http or https and the host of
    the catalog's downloads, holds no quote character after that, and is
    found as it is in the stripped text of the answer. *)
Theorem download_links_wellformed (details : exc DetailPage) (resp : exc string)
    (infos : list WUDownloadInfo.t) :
  get_download_urls details resp = Ok infos ->
  exists raw,
    resp = Ok raw /\ infos <> [] /\
    Forall (fun info =>
              catalog_address (WUDownloadInfo.url info) /\
              PyStr.contains (WUDownloadInfo.url info) (PyStr.strip raw) = true) infos.
Proof.
  intros Hi. destruct (get_download_urls_spec _ _ _ Hi) as (raw & -> & Hne & ->).
  exists raw. split; [reflexivity|]. split; [exact Hne|].
  apply Forall_fmap, Forall_forall. intros [download_id url] Hm. cbn.
  destruct (findall_downloads_spec _ _ _ Hm) as (_ & Hurl & Hc). by split.
Qed.

(** X17: the property download_url never gives None, and the ValueError
    written for an answer without a download link is never raised: its
    message is made of str(self), which raises first, the failure of the
    detail page when that cannot be got and TypeError when it can, as
    __str__ returns what print returns. *)
Theorem download_url_never_none (details : exc DetailPage) (resp : exc string) :
  download_url details resp <> Ok None /\
  (forall raw, findall_downloads (PyStr.strip raw) = [] ->
     (forall page, details = Ok page -> download_url details (Ok raw) = Raise TypeError) /\
     (forall e, details = Raise e -> download_url details (Ok raw) = Raise e)) /\
  (download_url details resp = Raise ValueError ->
   resp = Raise ValueError \/ details = Raise ValueError).
Proof.
  split; [|split].
  - unfold download_url.
    destruct (get_download_urls details resp) as [infos|] eqn:Hi; cbn [bind];
      [|discriminate].
    destruct (get_download_urls_spec _ _ _ Hi) as (raw & _ & Hne & _).
    destruct infos; [done|]. cbn. discriminate.
  - intros raw Hf. unfold download_url, get_download_urls, str_of_update. cbn [bind].
    rewrite Hf. split.
    + by intros page ->.
    + by intros e ->.
  - unfold download_url, get_download_urls, str_of_update.
    destruct resp as [raw|e]; cbn [bind]; [|intros [= ->]; by left].
    destruct (findall_downloads (PyStr.strip raw)) as [|m ms]; cbn [bind].
    + destruct details as [page|e]; cbn [bind]; [discriminate|].
      intros [= ->]. by right.
    + cbn. discriminate.
Qed.

End Links.

Lemma listed_spec {A} (c : exc (list A)) : returned c = true -> c = Ok (listed c).
Proof. by destruct c. Qed.

Lemma download_links_wellformed_witness :
  Forall (fun info => catalog_address (WUDownloadInfo.url info))
         (listed (get_download_urls (Raise FetchError) (Ok sample_dialog))).
Proof.
  assert (Hi : get_download_urls (Raise FetchError) (Ok sample_dialog) =
               Ok (listed (get_download_urls (Raise FetchError) (Ok sample_dialog))))
    by (apply listed_spec; vm_compute; reflexivity).
  destruct (download_links_wellformed _ _ _ Hi) as (raw & _ & _ & HF).
  eapply Forall_impl; [exact HF|]. by intros info [Ha _].
Defined.

Lemma download_url_never_none_witness :
  download_url (WindowsUpdate.details older_update)
               (Ok "<html>The website has encountered a problem</html>")
    = Raise TypeError /\
  download_url (Raise FetchError)
               (Ok "<html>The website has encountered a problem</html>")
    = Raise FetchError.
Proof.
  assert (Hf : findall_downloads
                 (PyStr.strip "<html>The website has encountered a problem</html>") = [])
    by (vm_compute; reflexivity).
  split.
  - eapply (proj1 (proj1 (proj2 (download_url_never_none
                                   (WindowsUpdate.details older_update)
                                   (Raise FetchError))) _ Hf)).
    reflexivity.
  - apply (proj2 (proj1 (proj2 (download_url_never_none (Raise FetchError)
                                  (Raise FetchError))) _ Hf)).
    reflexivity.
Defined.

Section RecordLinks.
Context `{PyLib}.




End RecordLinks.


(** *** The attributes of a download *)

Lemma attribute_char_not_quote (c : ascii) :
  attribute_char c = true -> not_quote c = true.
Proof.
  destruct c as [[] [] [] [] [] [] [] []]; vm_compute; intros; congruence.
Qed.

Lemma all_chars_impl (p q : ascii -> bool) (s : string) :
  (forall c, p c = true -> q c = true) -> all_chars p s = true -> all_chars q s = true.
Proof.
  intros Hpq. induction s as [|c s IH]; [done|]. cbn.
  intros [Hc Hs]%andb_true_iff. by rewrite (Hpq _ Hc), IH.
Qed.

Lemma match_attribute_spec (prefix s value : string) :
  match_attribute prefix s = Some value ->
  all_chars attribute_char value = true /\
  exists q q' post,
    is_quote q = true /\ is_quote q' = true /\
    s = (prefix +:+ String q value +:+ String q' ";") +:+ post.
Proof.
  unfold match_attribute.
  destruct (strip_prefix prefix s) as [[|q s1]|] eqn:H1; try discriminate.
  destruct (is_quote q) eqn:Hq; [|discriminate].
  destruct (drop_while attribute_char s1) as [|q' [|semicolon post]] eqn:H2;
    try discriminate.
  destruct (is_quote q') eqn:Hq'; [|discriminate].
  destruct (Ascii.eqb_spec semicolon ";") as [->|]; [|discriminate].
  cbn [andb]. intros [= <-]. split; [apply take_while_all|].
  exists q, q', post. split; [exact Hq|]. split; [exact Hq'|].
  apply strip_prefix_spec in H1. rewrite H1.
  rewrite (take_drop_while attribute_char s1) at 1. rewrite H2.
  repeat (rewrite string_app_assoc || rewrite string_app_cons). reflexivity.
Qed.

Lemma search_attribute_found (download_id raw_name raw : string) :
  attribute_found download_id raw_name raw
    (search_attribute (attribute_prefix download_id raw_name) raw).
Proof.
  unfold attribute_found.
  generalize (attribute_prefix download_id raw_name) as prefix. intros prefix.
  assert (Hgen : forall pre s value,
             search_attribute prefix s = Some value ->
             all_chars attribute_char value = true /\
             exists q q', is_quote q = true /\ is_quote q' = true /\
               PyStr.contains (prefix +:+ String q value +:+ String q' ";") (pre +:+ s)
               = true).
  { intros pre s. revert pre. induction s as [|c s IH]; intros pre value Hs.
    - cbn [search_attribute] in Hs. exfalso.
      unfold match_attribute in Hs. by destruct prefix.
    - cbn [search_attribute] in Hs.
      destruct (match_attribute prefix (String c s)) eqn:Hm.
      + injection Hs as ->. destruct (match_attribute_spec _ _ _ Hm)
          as (Hv & q & q' & post & Hq & Hq' & Heq).
        split; [exact Hv|]. exists q, q'. split; [exact Hq|]. split; [exact Hq'|].
        rewrite Heq. apply contains_app.
      + destruct (IH (pre +:+ String c "") _ Hs) as (Hv & q & q' & Hq & Hq' & Hc).
        split; [exact Hv|]. exists q, q'. split; [exact Hq|]. split; [exact Hq'|].
        rewrite string_app_assoc in Hc. exact Hc. }
  destruct (search_attribute prefix raw) as [value|] eqn:Hs; [|exact I].
  destruct (Hgen "" raw value Hs) as (Hv & q & q' & Hq & Hq' & Hc).
  split; [exact Hv|]. split; [exact (all_chars_impl _ _ _ attribute_char_not_quote Hv)|].
  exists q, q'. split; [exact Hq|]. split; [exact Hq'|]. exact Hc.
Qed.

(** X19: an attribute of a download is set only to a text of letters,
    digits and the characters of the pattern's class, hence free of
    quotes, that stands in the answer between two quotes, after the
    bracketed id and the attribute's name and before a semicolon. *)
Theorem download_attributes_found (download_id url raw : string) :
  let info := WUDownloadInfo.init download_id url raw in
  WUDownloadInfo.url info = url /\
  attribute_found download_id "digest" raw (WUDownloadInfo.digest info) /\
  attribute_found download_id "architectures" raw (WUDownloadInfo.architectures info) /\
  attribute_found download_id "languages" raw (WUDownloadInfo.languages info) /\
  attribute_found download_id "longLanguages" raw (WUDownloadInfo.long_languages info) /\
  attribute_found download_id "fileName" raw (WUDownloadInfo.file_name info).
Proof.
  cbn zeta. cbn [WUDownloadInfo.init WUDownloadInfo.url WUDownloadInfo.digest
    WUDownloadInfo.architectures WUDownloadInfo.languages WUDownloadInfo.long_languages
    WUDownloadInfo.file_name].
  split; [reflexivity|]. repeat split; apply search_attribute_found.
Qed.

(** ** The links of the support page *)

Section Support.
Import PyStr.

Lemma lower_digits (s : string) : all_chars isdecimal s = true -> lower s = s.
Proof.
  induction s as [|c s IH]; [done|]. cbn. intros [Hc Hs]%andb_true_iff.
  rewrite IH by done. f_equal.
  destruct c as [[] [] [] [] [] [] [] []]; vm_compute in Hc |- *; congruence.
Qed.

Lemma digits_lack_kb (s : string) :
  all_chars isdecimal s = true -> contains "kb" s = false.
Proof.
  induction s as [|c s IH]; [done|]. cbn [all_chars]. intros [Hc Hs]%andb_true_iff.
  cbn [contains]. rewrite IH by done.
  destruct (String.prefix "kb" (String c s)) eqn:Hp; [|reflexivity].
  apply prefix_true in Hp. rewrite string_app_cons in Hp. injection Hp as -> _.
  vm_compute in Hc. discriminate Hc.
Qed.

Lemma support_page_url_digits (n : string) :
  all_chars isdecimal n = true ->
  support_page_url n = support_base +:+ n /\
  support_page_url ("KB" +:+ n) = support_base +:+ n /\
  support_page_url ("kb" +:+ n) = support_base +:+ n.
Proof.
  intros Hn. unfold support_page_url. cbn zeta.
  assert (Hr : replace "kb" "" n = n) by (apply replace_absent; by apply digits_lack_kb).
  split; [by rewrite lower_digits, Hr|].
  assert (Hkb : replace "kb" "" ("kb" +:+ n) = n).
  { unfold replace in *. change ("kb" +:+ n) with (String "k" (String "b" n)).
    cbn [replace_from String.prefix]. 
    destruct (ascii_dec "k" "k"); [|done]. destruct (ascii_dec "b" "b"); [|done].
    destruct n; cbn; exact Hr. }
  split.
  - change ("KB" +:+ n) with (String "K" (String "B" n)). cbn [lower].
    rewrite lower_digits by done.
    change (String (lower_char "K") (String (lower_char "B") n)) with ("kb" +:+ n).
    by rewrite Hkb.
  - change ("kb" +:+ n) with (String "k" (String "b" n)). cbn [lower].
    rewrite lower_digits by done.
    change (String (lower_char "k") (String (lower_char "b") n)) with ("kb" +:+ n).
    by rewrite Hkb.
Qed.

End Support.

(** X20: get_patch_link returns hrefs of anchors of the support page whose
    address is the base followed by the search text in lower case without
    its occurrences of kb, and only hrefs that contain
    /download/details.aspx?; a page without a canonical link gives no
    link whatever its anchors are; and a KB number gives the same links
    with and without the prefix KB, in either case. *)
Theorem get_patch_link_spec (fetch : string -> exc SupportPage) :
  (forall kb link, link ∈ get_patch_link fetch kb ->
     exists soup,
       fetch (support_page_url kb) = Ok soup /\ canonical_link soup = true /\
       Some link ∈ anchor_hrefs soup /\ PyStr.contains details_marker link = true) /\
  (forall kb soup, fetch (support_page_url kb) = Ok soup -> canonical_link soup = false ->
     get_patch_link fetch kb = []) /\
  (forall n, all_chars PyStr.isdecimal n = true ->
     get_patch_link fetch ("KB" +:+ n) = get_patch_link fetch n /\
     get_patch_link fetch ("kb" +:+ n) = get_patch_link fetch n).
Proof.
  split; [|split].
  - intros kb link. unfold get_patch_link.
    destruct (fetch (support_page_url kb)) as [soup|]; cbn [bind try_except];
      [|by intros ?%elem_of_nil].
    destruct (canonical_link soup) eqn:Hc; cbn [negb try_except];
      [|by intros ?%elem_of_nil].
    intros Hl. exists soup. split; [reflexivity|]. split; [exact Hc|].
    destruct (anchor_hrefs soup) as [|a l]; [by apply elem_of_nil in Hl|].
    cbn [try_except] in Hl. apply list_elem_of_In, filter_In in Hl as [Hl Hm].
    split; [|exact Hm]. apply list_elem_of_In in Hl.
    apply list_elem_of_omap in Hl as (x & Hx & Hid). cbn in Hid. by subst x.
  - intros kb soup Hf Hc. unfold get_patch_link. rewrite Hf. cbn [bind]. by rewrite Hc.
  - intros n Hn. unfold get_patch_link.
    destruct (support_page_url_digits n Hn) as (-> & -> & ->). by split.
Qed.

Lemma get_patch_link_spec_witness :
  get_patch_link sample_support "KB5034123" = get_patch_link sample_support "5034123" /\
  get_patch_link (fun _ => Ok {| canonical_link := false;
                                anchor_hrefs := [Some "/download/details.aspx?id=1"] |})
                 "5034123" = [].
Proof.
  split.
  - apply (proj1 (proj2 (proj2 (get_patch_link_spec sample_support)) "5034123" eq_refl)).
  - eapply (proj1 (proj2 (get_patch_link_spec _)) "5034123"); reflexivity.
Defined.

(** ** The details literal of a download page *)

Section Literal.
Import PyStr.

Lemma replace_char_cons (c x : ascii) (s : string) :
  replace (str1 c) "" (String x s) =
  if Ascii.eqb x c then replace (str1 c) "" s else String x (replace (str1 c) "" s).
Proof.
  unfold replace. cbn [replace_from str1 String.prefix String.length].
  destruct (ascii_dec c x) as [<-|Hne].
  - rewrite Ascii.eqb_refl. by destruct s.
  - destruct (Ascii.eqb_spec x c) as [->|_]; [done|reflexivity].
Qed.

Lemma all_chars_replace_char (p : ascii -> bool) (c : ascii) (s : string) :
  all_chars p s = true -> all_chars p (replace (str1 c) "" s) = true.
Proof.
  induction s as [|x s IH]; [done|]. rewrite replace_char_cons.
  cbn [all_chars]. intros [Hx Hs]%andb_true_iff.
  destruct (Ascii.eqb x c); [by apply IH|]. cbn [all_chars]. by rewrite Hx, IH.
Qed.

Lemma replace_char_lacks (c : ascii) (s : string) :
  lacks_char c (replace (str1 c) "" s) = true.
Proof.
  unfold lacks_char. induction s as [|x s IH]; [done|]. rewrite replace_char_cons.
  destruct (Ascii.eqb x c) eqn:E; [exact IH|]. cbn [all_chars]. by rewrite E, IH.
Qed.

Lemma clean_literal_cleaned (info_dict : string) : cleaned (clean_literal info_dict).
Proof.
  unfold cleaned, clean_literal, lacks_char. cbn zeta. repeat split.
  - do 3 apply all_chars_replace_char. apply replace_char_lacks.
  - do 2 apply all_chars_replace_char. apply replace_char_lacks.
  - apply all_chars_replace_char. apply replace_char_lacks.
  - apply replace_char_lacks.
Qed.

Lemma all_chars_take (p : ascii -> bool) (n : nat) (s : string) :
  all_chars p s = true -> all_chars p (take n s) = true.
Proof.
  revert n. induction s as [|x s IH]; intros [|n]; try done. cbn.
  intros [Hx Hs]%andb_true_iff. by rewrite Hx, IH.
Qed.

Lemma all_chars_drop (p : ascii -> bool) (n : nat) (s : string) :
  all_chars p s = true -> all_chars p (drop n s) = true.
Proof.
  revert n. induction s as [|x s IH]; intros [|n]; try done. cbn.
  intros [Hx Hs]%andb_true_iff. by apply IH.
Qed.

Lemma all_chars_from_before (p : ascii -> bool) (i : nat) (s : string) :
  all_chars p s = true -> all_chars p (from_before i s) = true.
Proof. destruct i; apply all_chars_drop. Qed.

Lemma slice_cleaned (key stop info_dict text : string) :
  cleaned info_dict -> slice key stop info_dict = Ok text -> cleaned text.
Proof.
  unfold slice. intros (H1 & H2 & H3 & H4).
  destruct (index key info_dict) as [i|]; [|discriminate].
  destruct (index stop _) as [j|]; [|discriminate].
  intros Ht. apply Ok_inj in Ht as <-.
  repeat split; by apply all_chars_take, all_chars_from_before.
Qed.

(** *** Where a slice ends *)

Lemma index_cons_some (sub : string) (x : ascii) (s : string) (j : nat) :
  index sub (String x s) = Some j ->
  (j = 0 /\ String.prefix sub (String x s) = true) \/
  (exists j', j = S j' /\ String.prefix sub (String x s) = false /\
              index sub s = Some j').
Proof.
  cbn [index]. destruct (String.prefix sub (String x s)).
  - intros [= <-]. by left.
  - destruct (index sub s) as [j'|]; [|discriminate]. cbn. intros [= <-].
    right. by exists j'.
Qed.

Lemma index_empty_text (sub : string) (j : nat) :
  index sub "" = Some j -> sub = "".
Proof. cbn. destruct sub; [done|discriminate]. Qed.

Lemma prefix_take (p : string) (n : nat) (s : string) :
  String.prefix p (take n s) = true -> String.prefix p s = true.
Proof.
  revert n s. induction p as [|a p IH]; intros n s; [by destruct s|].
  destruct n as [|n], s as [|b s]; try done. cbn.
  destruct (ascii_dec a b); [apply IH|done].
Qed.

(** A slice cut at a single character. *)
Lemma index_char_take (c : ascii) (x : string) (j : nat) :
  index (str1 c) x = Some j ->
  take (j + 1) x = take j x +:+ str1 c /\ lacks_char c (take j x) = true.
Proof.
  revert j. induction x as [|a x IH]; intros j Hj.
  - by apply index_empty_text in Hj.
  - apply index_cons_some in Hj as [[-> Hp] | (j' & -> & Hp & Hj')].
    + cbn in Hp. destruct (ascii_dec c a) as [<-|]; [|discriminate]. by split.
    + destruct (IH _ Hj') as [Ht Hl]. cbn [Nat.add take]. rewrite Ht.
      split; [by rewrite string_app_cons|].
      unfold lacks_char in *. cbn [all_chars]. rewrite Hl, andb_true_r.
      apply negb_true_iff. destruct (Ascii.eqb_spec a c) as [->|]; [|done].
      change (String c x) with (str1 c +:+ x) in Hp. by rewrite prefix_app in Hp.
Qed.

(** A slice cut at the first of two characters. *)
Lemma index_pair_take (c d : ascii) (x : string) (j : nat) :
  index (String c (str1 d)) x = Some j ->
  take (j + 1) x = take j x +:+ str1 c /\
  contains (String c (str1 d)) (take (j + 1) x) = false.
Proof.
  revert j. induction x as [|a x IH]; intros j Hj.
  - by apply index_empty_text in Hj.
  - apply index_cons_some in Hj as [[-> Hp] | (j' & -> & Hp & Hj')].
    + apply prefix_true in Hp. rewrite string_app_cons in Hp. injection Hp as -> _.
      split; [reflexivity|]. cbn. destruct (ascii_dec c c); [|done]. reflexivity.
    + destruct (IH _ Hj') as [Ht Hc]. cbn [Nat.add take]. rewrite Ht.
      split; [by rewrite string_app_cons|].
      rewrite <- Ht. cbn [contains]. rewrite Hc.
      destruct (String.prefix _ (String a (take (j' + 1) x))) eqn:Hq; [|reflexivity].
      apply (prefix_take _ (S (j' + 1)) (String a x)) in Hq. congruence.
Qed.

Lemma slice_bracket (key info_dict text : string) :
  slice key "]" info_dict = Ok text -> bracket_slice text.
Proof.
  unfold slice. destruct (index key info_dict) as [i|]; [|discriminate].
  destruct (index "]" _) as [j|] eqn:Hj; [|discriminate].
  intros Ht. apply Ok_inj in Ht as <-.
  destruct (index_char_take "]" _ _ Hj) as [Ht Hl]. by eexists.
Qed.

Lemma slice_quoted (key info_dict text : string) :
  slice key QUOTE_COMMA info_dict = Ok text -> quoted_slice text.
Proof.
  unfold slice. destruct (index key info_dict) as [i|]; [|discriminate].
  destruct (index QUOTE_COMMA _) as [j|] eqn:Hj; [|discriminate].
  intros Ht. apply Ok_inj in Ht as <-.
  destruct (index_pair_take DQUOTE "," _ _ Hj) as [Ht Hc]. by eexists.
Qed.

End Literal.

Example scrape_sample :
  get_microsoft_windows_product_update (scrape (H:=sample_json) (Ok sample_download_page)) =
  get_microsoft_windows_product_update
    (Ok (Some (sample_details "Security Update for Windows (KB5034123)"
                              "windows11.0-kb5034123-x64.msu"))).
Proof. vm_compute. reflexivity. Qed.

Lemma scraped_spec (page : Scrape) : readable page = true -> page = Ok (Some (scraped page)).
Proof. by destruct page as [[d|]|]. Qed.

Section Placing.
Import PyStr.

Lemma length_drop (n : nat) (s : string) :
  String.length (drop n s) = String.length s - n.
Proof.
  revert n. induction s as [|c s IH]; intros [|n]; try reflexivity. cbn. apply IH.
Qed.

Lemma length_take_le (n : nat) (s : string) : String.length (take n s) <= String.length s.
Proof.
  revert n. induction s as [|c s IH]; intros [|n]; cbn; try lia.
  specialize (IH n). lia.
Qed.

Lemma take_drop (n : nat) (s : string) : take n s +:+ drop n s = s.
Proof.
  revert n. induction s as [|c s IH]; intros [|n]; try reflexivity.
  cbn [take drop]. rewrite string_app_cons. by rewrite IH.
Qed.

Lemma length_take (n : nat) (s : string) :
  n <= String.length s -> String.length (take n s) = n.
Proof.
  revert n. induction s as [|c s IH]; intros [|n]; cbn; try lia.
  intros Hn. rewrite IH; lia.
Qed.

Lemma drop_drop (n m : nat) (s : string) : drop n (drop m s) = drop (m + n) s.
Proof.
  revert m. induction s as [|c s IH]; intros [|m]; try reflexivity.
  - by destruct n.
  - cbn. apply IH.
Qed.

Lemma index_prefix (sub s : string) (i : nat) :
  index sub s = Some i ->
  String.prefix sub (drop i s) = true /\ i <= String.length s.
Proof.
  revert i. induction s as [|c s IH]; intros i Hi.
  - cbn [index] in Hi. destruct (String.prefix sub "") eqn:Hp; [|discriminate Hi].
    injection Hi as <-. by split.
  - apply index_cons_some in Hi as [[-> Hp] | (i' & -> & _ & Hi')].
    + split; [exact Hp|lia].
    + destruct (IH _ Hi') as [Hp Hle]. split; [exact Hp|cbn; lia].
Qed.

Lemma index_lt (sub s : string) (j : nat) :
  sub <> "" -> index sub s = Some j -> j < String.length s.
Proof.
  intros Hne Hj. destruct (index_prefix _ _ _ Hj) as [Hp Hle].
  destruct (decide (j = String.length s)) as [->|]; [|lia].
  exfalso. assert (Hd : drop (String.length s) s = "").
  { pose proof (length_drop (String.length s) s) as Hl.
    destruct (drop (String.length s) s); [done|cbn in Hl; lia]. }
  rewrite Hd in Hp. by destruct sub.
Qed.

Lemma index_split (sub s : string) (i : nat) :
  index sub s = Some i ->
  s = take i s +:+ sub +:+ drop (i + String.length sub) s /\
  String.length (take i s) = i.
Proof.
  intros Hi. destruct (index_prefix _ _ _ Hi) as [Hp Hle].
  split; [|by apply length_take].
  apply prefix_true in Hp. rewrite drop_drop in Hp. rewrite <- Hp. by rewrite take_drop.
Qed.

Lemma first_piece_before (sep s : string) : before_first sep s (first_piece sep s).
Proof.
  unfold before_first, first_piece. destruct (index sep s) as [i|] eqn:Hi.
  - exists (drop i s). split; [by rewrite take_drop|].
    apply length_take. by destruct (index_prefix _ _ _ Hi).
  - exists "". split; [|reflexivity].
    clear. induction s as [|c s IH]; [reflexivity|]. rewrite string_app_cons. by rewrite <- IH.
Qed.

Lemma second_piece_behind (sep s piece : string) :
  second_piece sep s = Ok piece ->
  exists rest, behind_first sep s rest /\ before_first sep rest piece.
Proof.
  unfold second_piece. destruct (index sep s) as [i|] eqn:Hi; [|discriminate].
  intros Hp. apply Ok_inj in Hp as <-.
  exists (drop (i + String.length sep) s). split; [|apply first_piece_before].
  destruct (index_split _ _ _ Hi) as [Hs Hl]. exists (take i s). split; [exact Hs|].
  by rewrite Hl.
Qed.

Lemma replace_char_delete (c : ascii) (s : string) :
  replace (str1 c) "" s = delete_chars [c] s.
Proof.
  induction s as [|x s IH]; [reflexivity|]. rewrite replace_char_cons.
  cbn [delete_chars existsb]. rewrite orb_false_r. by rewrite IH.
Qed.

Lemma delete_chars_snoc (chars : list ascii) (c : ascii) (s : string) :
  delete_chars [c] (delete_chars chars s) = delete_chars (chars ++ [c]) s.
Proof.
  induction s as [|x s IH]; [reflexivity|]. cbn [delete_chars].
  rewrite existsb_app. cbn [existsb]. rewrite orb_false_r.
  destruct (existsb (Ascii.eqb x) chars); cbn [orb]; [exact IH|].
  cbn [delete_chars existsb]. rewrite orb_false_r.
  destruct (Ascii.eqb x c); [exact IH|]. by rewrite IH.
Qed.

Lemma clean_literal_delete (info_dict : string) :
  clean_literal info_dict = delete_chars [BACKSLASH; LF; TAB; CR] info_dict.
Proof.
  unfold clean_literal. cbn zeta. rewrite !replace_char_delete.
  rewrite (delete_chars_snoc [BACKSLASH] LF).
  rewrite (delete_chars_snoc ([BACKSLASH] ++ [LF]) TAB).
  rewrite (delete_chars_snoc (([BACKSLASH] ++ [LF]) ++ [TAB]) CR).
  reflexivity.
Qed.

Lemma slice_cut (key stop info_dict text : string) :
  stop <> "" -> slice key stop info_dict = Ok text -> cut_of key stop info_dict text.
Proof.
  intros Hstop. unfold slice.
  destruct (index key info_dict) as [i|] eqn:Hi; [|discriminate].
  destruct (index stop (from_before i info_dict)) as [j|] eqn:Hj; [|discriminate].
  intros Ht. apply Ok_inj in Ht as <-.
  set (start := match i with O => String.length info_dict - 1 | S i' => i' end).
  assert (Hx : from_before i info_dict = drop start info_dict) by (by destruct i).
  assert (Hstart : start <= String.length info_dict).
  { destruct (index_prefix _ _ _ Hi) as [_ Hle]. unfold start. destruct i; lia. }
  rewrite Hx in Hj |- *.
  exists (take start info_dict), (drop (j + 1) (drop start info_dict)), i, j.
  split; [by rewrite !take_drop|]. split; [exact Hi|].
  split; [by apply length_take|]. split; [by rewrite take_drop|].
  apply length_take. pose proof (index_lt _ _ _ Hstop Hj). lia.
Qed.

End Placing.

Section Scrape.
Context `{PyJson}.

(** X21: when the scrape of a download page succeeds, the link of the
    details is the href of the canonical link, and the four dicts are
    decoded from four slices of the details literal of the page: the
    literal is the text of the scripts behind the first marker, up to the
    next marker and the first end of a script, without its backslashes,
    line feeds, tabs and carriage returns; each slice begins in it one
    character before the first occurrence of its key; the slice of the
    files ends with the first closing bracket from there on, the three
    others with the double quote of the first quote-and-comma. *)
Theorem scrape_slices (resp : exc DownloadPage) (d : DLCDetails) :
  scrape resp = Ok (Some d) ->
  exists soup info_dict file title description system,
    resp = Ok soup /\ canonical_href soup = Some (actual_download_link d) /\
    literal_of (scripts soup) info_dict /\
    cut_of "downloadFile" "]" info_dict file /\
    cut_of "downloadTitle" QUOTE_COMMA info_dict title /\
    cut_of "downloadDescription" QUOTE_COMMA info_dict description /\
    cut_of "operatingSystem" QUOTE_COMMA info_dict system /\
    loads_object file = Ok (download_file d) /\
    loads_object title = Ok (download_title d) /\
    loads_object description = Ok (download_description d) /\
    loads_object system = Ok (operating_system d) /\
    bracket_slice file /\ quoted_slice title /\ quoted_slice description /\
    quoted_slice system /\
    Forall cleaned [file; title; description; system].
Proof.
  unfold scrape. destruct resp as [soup|]; [|discriminate]. cbn [bind].
  destruct (canonical_href soup) as [href|] eqn:Hhref; [|discriminate]. cbn [bind].
  destruct (PyStr.contains DLC_MARKER (scripts soup)); [|discriminate].
  destruct (PyStr.contains "downloadFile" (scripts soup)); [|discriminate].
  destruct (second_piece DLC_MARKER (scripts soup)) as [piece|] eqn:Hpiece;
    [|discriminate].
  cbn [bind]. cbn zeta.
  pose proof (clean_literal_cleaned (first_piece SCRIPT_END piece)) as Hclean.
  assert (Hlit : literal_of (scripts soup) (clean_literal (first_piece SCRIPT_END piece))).
  { destruct (second_piece_behind _ _ _ Hpiece) as (rest & Hrest & Hbefore).
    exists rest, piece, (first_piece SCRIPT_END piece).
    split; [exact Hrest|]. split; [exact Hbefore|].
    split; [apply first_piece_before|apply clean_literal_delete]. }
  set (info_dict := clean_literal (first_piece SCRIPT_END piece)) in *.
  destruct (slice "downloadFile" "]" info_dict) as [file|] eqn:Sf; cbn [bind];
    [|discriminate].
  destruct (loads_object file) as [df|] eqn:Lf; cbn [bind]; [|discriminate].
  destruct (slice "downloadTitle" QUOTE_COMMA info_dict) as [title|] eqn:St; cbn [bind];
    [|discriminate].
  destruct (loads_object title) as [dt|] eqn:Lt; cbn [bind]; [|discriminate].
  destruct (slice "downloadDescription" QUOTE_COMMA info_dict) as [description|] eqn:Sd;
    cbn [bind]; [|discriminate].
  destruct (loads_object description) as [dd|] eqn:Ld; cbn [bind]; [|discriminate].
  destruct (slice "operatingSystem" QUOTE_COMMA info_dict) as [system|] eqn:Ss;
    cbn [bind]; [|discriminate].
  destruct (loads_object system) as [ds|] eqn:Ls; cbn [bind]; [|discriminate].
  intros Hd. apply Ok_inj in Hd. apply (inj Some) in Hd. subst d.
  cbn [actual_download_link download_file download_title download_description
       operating_system].
  exists soup, info_dict, file, title, description, system.
  split; [reflexivity|]. split; [exact Hhref|]. split; [exact Hlit|].
  split; [by apply slice_cut|]. split; [by apply slice_cut|].
  split; [by apply slice_cut|]. split; [by apply slice_cut|].
  split; [exact Lf|]. split; [exact Lt|]. split; [exact Ld|]. split; [exact Ls|].
  split; [exact (slice_bracket _ _ _ Sf)|].
  split; [exact (slice_quoted _ _ _ St)|].
  split; [exact (slice_quoted _ _ _ Sd)|].
  split; [exact (slice_quoted _ _ _ Ss)|].
  repeat constructor; eapply slice_cleaned; eauto.
Qed.

End Scrape.

Lemma scrape_slices_witness :
  exists info_dict file,
    literal_of sample_scripts info_dict /\
    cut_of "downloadFile" "]" info_dict file /\
    loads_object (H:=sample_json) file =
      Ok (download_file (scraped (scrape (H:=sample_json) (Ok sample_download_page)))) /\
    bracket_slice file /\ cleaned file.
Proof.
  assert (Hd : scrape (H:=sample_json) (Ok sample_download_page) =
               Ok (Some (scraped (scrape (H:=sample_json) (Ok sample_download_page)))))
    by (apply scraped_spec; vm_compute; reflexivity).
  destruct (scrape_slices (H:=sample_json) _ _ Hd)
    as (soup & info_dict & file & title & description & system & Hs & _ & Hlit & Hcut & _
        & _ & _ & Lf & _ & _ & _ & Bf & _ & _ & _ & Hc).
  apply Ok_inj in Hs. subst soup.
  exists info_dict, file. split; [exact Hlit|]. split; [exact Hcut|].
  split; [exact Lf|]. split; [exact Bf|]. by inversion Hc.
Defined.

Section NoLiteral.
Context `{PyJson}.

(** X22: a download page without a canonical link makes the scrape fail;
    a page with one yields no details, and no failure either, exactly
    when the text of its scripts lacks the marker of the details literal
    or the word downloadFile. *)
Theorem scrape_no_literal (soup : DownloadPage) :
  (canonical_href soup = None -> scrape (Ok soup) = Raise AttributeError) /\
  (canonical_href soup <> None ->
   (scrape (Ok soup) = Ok None <->
    PyStr.contains DLC_MARKER (scripts soup) = false \/
    PyStr.contains "downloadFile" (scripts soup) = false)).
Proof.
  unfold scrape. cbn [bind]. split.
  - by intros ->.
  - intros Hc. destruct (canonical_href soup) as [href|]; [|done]. cbn [bind].
    destruct (PyStr.contains DLC_MARKER (scripts soup)); [|split; [by left|done]].
    destruct (PyStr.contains "downloadFile" (scripts soup)); [|split; [by right|done]].
    split; [|by intros [|]].
    intros Hs. exfalso. cbn zeta in Hs.
    repeat match type of Hs with
           | bind ?c _ = Ok None =>
               destruct c; cbn [bind] in Hs; [|discriminate Hs]
           end.
    discriminate Hs.
Qed.

End NoLiteral.

Lemma scrape_no_literal_witness :
  scrape (H:=sample_json)
         (Ok {| canonical_href := None; scripts := sample_scripts |})
    = Raise AttributeError /\
  scrape (H:=sample_json)
         (Ok {| canonical_href := Some VNone; scripts := "[<script>var a;</script>]" |})
    = Ok None.
Proof.
  split.
  - apply (proj1 (scrape_no_literal (H:=sample_json) _)). reflexivity.
  - apply (proj2 (scrape_no_literal (H:=sample_json) _)); [discriminate|].
    left. vm_compute. reflexivity.
Defined.

Section KeyAtStart.
Import PyStr.

Lemma index_pair_short (c d : ascii) (x : string) :
  String.length x <= 1 -> index (String c (str1 d)) x = None.
Proof.
  destruct x as [|a [|b x]]; cbn [String.length]; try lia; intros _.
  - reflexivity.
  - cbn. by destruct (ascii_dec c a).
Qed.

(** X23: when the literal begins with the key, the slice is taken from
    the last character of the literal, the index before the key being
    -1: it has at most one character, and the slices that end at a
    quote-and-comma fail with ValueError. *)
Theorem slice_key_at_start (key info_dict : string) :
  index key info_dict = Some 0 ->
  (forall stop text, slice key stop info_dict = Ok text -> String.length text <= 1) /\
  slice key QUOTE_COMMA info_dict = Raise ValueError.
Proof.
  intros Hk. unfold slice. rewrite Hk. cbn [from_before].
  assert (Hlen : String.length (drop (String.length info_dict - 1) info_dict) <= 1)
    by (rewrite length_drop; lia).
  split.
  - intros stop text. destruct (index stop _) as [j|]; [|discriminate].
    intros Ht. apply Ok_inj in Ht as <-.
    etransitivity; [apply length_take_le|exact Hlen].
  - change QUOTE_COMMA with (String DQUOTE (str1 ",")). by rewrite index_pair_short.
Qed.

End KeyAtStart.

Lemma slice_key_at_start_witness :
  slice "downloadTitle" QUOTE_COMMA
        (double_quoted "downloadTitle`:`Security Update`,`x`:1}") = Raise ValueError.
Proof.
  assert (Hk : PyStr.index "downloadTitle"
                 (double_quoted "downloadTitle`:`Security Update`,`x`:1}") = Some 0)
    by (vm_compute; reflexivity).
  exact (proj2 (slice_key_at_start "downloadTitle" _ Hk)).
Defined.

(** ** The walk of the catalog *)

Example find_updates_sample :
  find_updates [Ok (sample_catalog_page [newer_update] false);
                Ok (sample_catalog_page [older_update] true);
                Raise FetchError] true None false None =
  ([newer_update; older_update],
   [None;
    Some [("__EVENTTARGET", "ctl00$catalogBody$nextPageLinkText");
          ("__EVENTVALIDATION", "ZXZlbnQ="); ("__VIEWSTATE", "dDwtMTA4")]]) /\
  snd (find_updates [Ok (sample_catalog_page [newer_update] false);
                     Ok (sample_catalog_page [older_update] true)]
                    true (Some "Last Updated") true None) =
  [None;
   Some [("__EVENTTARGET", "ctl00$catalogBody$updateMatches$ctl02$dateHeaderLink");
         ("__EVENTVALIDATION", "ZXZlbnQ="); ("__VIEWSTATE", "dDwtMTA4")];
   Some [("__EVENTTARGET", "ctl00$catalogBody$updateMatches$ctl02$dateHeaderLink");
         ("__EVENTVALIDATION", "ZXZlbnQ="); ("__VIEWSTATE", "dDwtMTA4")]].
Proof. split; reflexivity. Qed.

Section Walk.

Lemma find_updates_turn (catalog : CatalogPage) (later : list (exc CatalogPage))
    (data : option FormData) :
  turnable catalog = true ->
  find_updates (Ok catalog :: later) true None false data =
  (updates_of catalog ++ fst (find_updates later true None false (next_data catalog)),
   data :: snd (find_updates later true None false (next_data catalog))).
Proof.
  unfold turnable, updates_of, next_data. cbn [find_updates sort_given].
  destruct (updateMatches catalog) as [[|headers rows]|]; try discriminate.
  destruct (yield_rows rows) as [updates ended]. cbn [fst snd].
  intros [[-> ->]%andb_true_iff Hd]%andb_true_iff. cbn [andb negb].
  destruct (build_action_data catalog NEXT_PAGE) as [data'|]; [|discriminate].
  by destruct (find_updates later true None false (Some data')).
Qed.

Lemma find_updates_stop (catalog : CatalogPage) (later : list (exc CatalogPage))
    (data : option FormData) :
  has_table catalog = true -> turnable catalog = false ->
  find_updates (Ok catalog :: later) true None false data = (updates_of catalog, [data]).
Proof.
  unfold has_table, turnable, updates_of. cbn [find_updates sort_given].
  destruct (updateMatches catalog) as [[|headers rows]|]; try discriminate.
  intros _. destruct (yield_rows rows) as [updates ended]. cbn [fst snd].
  destruct ended; [|reflexivity].
  destruct (nextPage catalog); [reflexivity|]. cbn [andb negb].
  by destruct (build_action_data catalog NEXT_PAGE).
Qed.

Lemma find_updates_broken (responses : list (exc CatalogPage)) (all_updates : bool)
    (sort : option string) (sort_reverse : bool) (data : option FormData) :
  match responses with [] => True | resp :: _ => broken resp = true end ->
  find_updates responses all_updates sort sort_reverse data = ([], [data]).
Proof.
  destruct responses as [|[catalog|e] later]; try reflexivity.
  unfold broken, has_table. cbn [find_updates].
  by destruct (updateMatches catalog) as [[|headers rows]|].
Qed.

Lemma last_cons_default {A} (x d : A) (l : list A) :
  List.last (x :: l) d = List.last l x.
Proof.
  revert x d. induction l as [|y l IH]; intros x d; [reflexivity|].
  change (List.last (x :: y :: l) d) with (List.last (y :: l) d).
  by rewrite !IH.
Qed.

Lemma removelast_last {A} (d : A) (l : list A) :
  List.removelast (d :: l) ++ [List.last l d] = d :: l.
Proof.
  revert d. induction l as [|x l IH]; intros d; [reflexivity|].
  change (List.removelast (d :: x :: l)) with (d :: List.removelast (x :: l)).
  rewrite last_cons_default. cbn [app]. by rewrite IH.
Qed.

Lemma find_updates_turns (pages : list CatalogPage) (rest : list (exc CatalogPage))
    (data : option FormData) :
  Forall (fun catalog => turnable catalog = true) pages ->
  find_updates ((Ok <$> pages) ++ rest) true None false data =
  (concat (updates_of <$> pages) ++
     fst (find_updates rest true None false (List.last (next_data <$> pages) data)),
   List.removelast (data :: (next_data <$> pages)) ++
     snd (find_updates rest true None false (List.last (next_data <$> pages) data))).
Proof.
  intros HF. revert data. induction HF as [|catalog pages Hc _ IH]; intros data.
  - cbn. by destruct (find_updates rest true None false data).
  - rewrite fmap_cons. cbn [app]. rewrite (find_updates_turn _ _ _ Hc).
    rewrite IH. rewrite !fmap_cons. cbn [concat fst snd].
    rewrite <- app_assoc. rewrite last_cons_default.
    reflexivity.
Qed.

(** X24: the walk yields the updates of every page up to and including
    the first one after which it cannot go on (the page marked as the
    last, a page one of whose rows fails, which gives the rows before
    that one, or a page whose hidden fields cannot be read), in the
    order of the pages; it makes one request for each of these pages,
    each request after the first carrying the data built from the page
    before it, and it leaves the later answers alone. *)
Theorem catalog_walk (pages : list CatalogPage) (stop : CatalogPage)
    (later : list (exc CatalogPage)) (data : option FormData) :
  Forall (fun catalog => turnable catalog = true) pages ->
  has_table stop = true -> turnable stop = false ->
  find_updates ((Ok <$> pages) ++ Ok stop :: later) true None false data =
  (concat (updates_of <$> pages) ++ updates_of stop, data :: (next_data <$> pages)).
Proof.
  intros HF Ht Hs. rewrite (find_updates_turns _ _ _ HF).
  rewrite (find_updates_stop _ _ _ Ht Hs). cbn [fst snd].
  by rewrite removelast_last.
Qed.

(** X25: a request that fails, a page without the table of matches and
    the end of the answers stop the walk without any error: the updates
    of the pages before are yielded as if they were all there is, and
    when this happens at the first request the search of the catalog
    returns None. *)
Theorem catalog_walk_cut_short `{PyLib} (pages : list CatalogPage)
    (rest : list (exc CatalogPage)) (data : option FormData) :
  Forall (fun catalog => turnable catalog = true) pages ->
  match rest with [] => True | resp :: _ => broken resp = true end ->
  find_updates ((Ok <$> pages) ++ rest) true None false data =
    (concat (updates_of <$> pages), data :: (next_data <$> pages)) /\
  find_microsoft_catelogue_updates (fst (find_updates rest true None false data)) = None.
Proof.
  intros HF Hr. split.
  - rewrite (find_updates_turns _ _ _ HF).
    rewrite (find_updates_broken _ _ _ _ _ Hr). cbn [fst snd].
    by rewrite app_nil_r, removelast_last.
  - by rewrite (find_updates_broken _ _ _ _ _ Hr).
Qed.

Lemma find_updates_sorted (catalog : CatalogPage) (later : list (exc CatalogPage))
    (all_updates sort_reverse : bool) (sort : option string) (column target : string)
    (data : option FormData) (data' : FormData) :
  sort_given sort = Some column ->
  sort_target catalog column = Ok target ->
  build_action_data catalog target = Ok data' ->
  find_updates (Ok catalog :: later) all_updates sort sort_reverse data =
  after_request data
    (find_updates later all_updates (if sort_reverse then sort else None) false
                  (Some data')).
Proof.
  intros Hs Ht Hd. unfold sort_target in Ht. cbn [find_updates].
  destruct (updateMatches catalog) as [[|headers rows]|]; try discriminate.
  rewrite Hs.
  destruct (event_target_pairs (header_links headers)) as [pairs|]; [|discriminate].
  cbn [bind] in Ht |- *. rewrite Ht. cbn [bind]. rewrite Hd.
  by destruct (find_updates later all_updates _ false (Some data')).
Qed.

(** X26: with a column to sort by, the rows of the first page are never
    yielded: the walk asks for the page again with the target of the
    column's header and reads that answer without sorting, and when the
    order is to be reversed it asks once more with the target found in
    the second answer, so that the updates come from the third request
    on; a column that the headers do not have yields no update and no
    error. *)
Theorem catalog_sort (first second : CatalogPage) (later : list (exc CatalogPage))
    (all_updates : bool) (sort : option string) (column : string)
    (data : option FormData) :
  sort_given sort = Some column ->
  (forall e sort_reverse, sort_target first column = Raise e ->
     find_updates (Ok first :: later) all_updates sort sort_reverse data = ([], [data])) /\
  (forall target data', sort_target first column = Ok target ->
     build_action_data first target = Ok data' ->
     find_updates (Ok first :: later) all_updates sort false data =
       after_request data (find_updates later all_updates None false (Some data')) /\
     forall target2 data2, sort_target second column = Ok target2 ->
       build_action_data second target2 = Ok data2 ->
       find_updates (Ok first :: Ok second :: later) all_updates sort true data =
         after_request data
           (after_request (Some data')
              (find_updates later all_updates None false (Some data2)))).
Proof.
  intros Hs. split.
  - intros e sort_reverse Ht. unfold sort_target in Ht. cbn [find_updates].
    destruct (updateMatches first) as [[|headers rows]|]; try reflexivity.
    rewrite Hs.
    destruct (event_target_pairs (header_links headers)) as [pairs|];
      cbn [bind] in Ht |- *; [|reflexivity].
    by rewrite Ht.
  - intros target data' Ht Hd. split.
    + by rewrite (find_updates_sorted _ _ _ _ _ _ _ _ _ Hs Ht Hd).
    + intros target2 data2 Ht2 Hd2.
      rewrite (find_updates_sorted _ _ _ _ _ _ _ _ _ Hs Ht Hd).
      by rewrite (find_updates_sorted _ _ _ _ _ _ _ _ _ Hs Ht2 Hd2).
Qed.

End Walk.

Lemma catalog_walk_witness :
  find_updates [Ok (sample_catalog_page [newer_update] false);
                Ok (sample_catalog_page [older_update] true);
                Raise FetchError] true None false None =
  ([newer_update; older_update],
   [None; next_data (sample_catalog_page [newer_update] false)]).
Proof.
  apply (catalog_walk [sample_catalog_page [newer_update] false]
                      (sample_catalog_page [older_update] true) [Raise FetchError] None).
  - repeat constructor.
  - reflexivity.
  - reflexivity.
Defined.

Lemma catalog_walk_cut_short_witness :
  find_updates [Ok (sample_catalog_page [newer_update] false); Raise FetchError]
               true None false None =
    ([newer_update], [None; next_data (sample_catalog_page [newer_update] false)]) /\
  find_microsoft_catelogue_updates (H:=stub_lib)
    (fst (find_updates [Raise FetchError] true None false None)) = None.
Proof.
  assert (Hp : Forall (fun catalog => turnable catalog = true)
                      [sample_catalog_page [newer_update] false])
    by (repeat constructor).
  split.
  - apply (proj1 (catalog_walk_cut_short (H:=stub_lib)
                    [sample_catalog_page [newer_update] false] [Raise FetchError] None
                    Hp eq_refl)).
  - apply (proj2 (catalog_walk_cut_short (H:=stub_lib) [] [Raise FetchError] None
                    (Forall_nil_2 _) eq_refl)).
Defined.

Lemma catalog_sort_witness :
  find_updates [Ok (sample_catalog_page [newer_update] false);
                Ok (sample_catalog_page [older_update] true)]
               true (Some "Size") false None = ([], [None]).
Proof.
  apply (proj1 (catalog_sort (sample_catalog_page [newer_update] false)
                  (sample_catalog_page [] true) _ true (Some "Size") "Size" None eq_refl)
           KeyError false).
  reflexivity.
Defined.

(** ** The program *)

Example main_updates_sample :
  (fun updates => (length updates, first_record updates !! "kb"))
    (written (main_updates (H:=stub_lib) (H0:=sample_json) "KB5034123"
                [Raise FetchError] sample_support sample_download)) =
  (1, Some (VStr "5034123")) /\
  main_updates (H:=stub_lib) (H0:=sample_json) "KB0000000"
    [Raise FetchError] sample_support sample_download = None.
Proof. split; vm_compute; reflexivity. Qed.



(** ** The keys of a record *)

Section Keys.
Context `{PyLib}.

Lemma list_to_map_keys (l : list (string * PyVal)) (k : string) :
  is_Some ((list_to_map l : pydict) !! k) <-> k ∈ l.*1.
Proof.
  rewrite <- elem_of_dom. rewrite dom_list_to_map_L. by rewrite elem_of_list_to_set.
Qed.

Lemma catalog_record_keys (u : WindowsUpdate.t) (r : pydict) (k : string) :
  catalog_record u = Ok r -> is_Some (r !! k) <-> k ∈ catalog_keys.
Proof.
  intros Hr. unfold catalog_record in Hr. bind_inv Hr. apply Ok_inj in Hr as <-.
  rewrite list_to_map_keys. cbn [fmap list_fmap fst].
  unfold catalog_keys, fixed_keys. rewrite !elem_of_cons. rewrite !elem_of_nil. tauto.
Qed.

Lemma patch_record_keys (kb : PyVal) (update r : pydict) (k : string) :
  patch_record kb update = Ok r -> is_Some (r !! k) <-> k ∈ fallback_keys.
Proof.
  intros Hr. unfold patch_record in Hr. bind_inv Hr. apply Ok_inj in Hr as <-.
  rewrite list_to_map_keys. cbn [fmap list_fmap fst].
  unfold fallback_keys, fixed_keys. rewrite !elem_of_cons. rewrite !elem_of_nil. tauto.
Qed.

(** X28: the keys of a record are exactly the twenty fixed ones and, on
    the catalog path, update_id and kb_number, on the download-center
    path, kb_numbers: a record of the catalog never has kb_numbers, a
    record of the download center never has update_id or kb_number. *)
Theorem record_keys_exact (search : string) (found : list WindowsUpdate.t)
    (patch_pages : list Scrape) (updates : list pydict) (r : pydict) :
  final_updates search found patch_pages = Some updates -> r ∈ updates ->
  forall k, is_Some (r !! k) <->
            k ∈ (if from_catalog found then catalog_keys else fallback_keys).
Proof.
  unfold final_updates, from_catalog. intros Hf Hr k.
  destruct (find_microsoft_catelogue_updates found) as [[|u us]|] eqn:Hc.
  - destruct patch_pages as [|p ps]; [discriminate|].
    apply (inj Some) in Hf. subst updates.
    apply list_elem_of_In, in_concat in Hr as (l & Hl & Hr).
    apply list_elem_of_In, list_elem_of_fmap in Hl as (page & -> & _).
    apply list_elem_of_In in Hr.
    destruct (download_center_elem _ _ _ Hr) as (d & pd & _ & _ & Hp).
    by eapply patch_record_keys.
  - apply (inj Some) in Hf. subst updates.
    destruct (catalog_updates_elem _ _ _ Hc Hr) as (x & _ & Hx).
    by eapply catalog_record_keys.
  - destruct patch_pages as [|p ps]; [discriminate|].
    apply (inj Some) in Hf. subst updates.
    apply list_elem_of_In, in_concat in Hr as (l & Hl & Hr).
    apply list_elem_of_In, list_elem_of_fmap in Hl as (page & -> & _).
    apply list_elem_of_In in Hr.
    destruct (download_center_elem _ _ _ Hr) as (d & pd & _ & _ & Hp).
    by eapply patch_record_keys.
Qed.

End Keys.

Lemma record_keys_exact_witness :
  ~ is_Some (first_record (written (final_updates (H:=stub_lib) "5034123" [older_update] []))
               !! "kb_numbers").
Proof.
  assert (Hout : final_updates (H:=stub_lib) "5034123" [older_update] [] =
                 Some (written (final_updates (H:=stub_lib) "5034123" [older_update] [])))
    by (apply written_spec; vm_compute; reflexivity).
  assert (Hr : first_record
                 (written (final_updates (H:=stub_lib) "5034123" [older_update] []))
               ∈ written (final_updates (H:=stub_lib) "5034123" [older_update] []))
    by (apply first_record_elem; vm_compute; reflexivity).
  assert (Hc : from_catalog (H:=stub_lib) [older_update] = true)
    by (vm_compute; reflexivity).
  intros Hs. apply (record_keys_exact (H:=stub_lib) _ _ _ _ _ Hout Hr "kb_numbers") in Hs.
  rewrite Hc in Hs. unfold catalog_keys, fixed_keys in Hs.
  repeat (apply elem_of_cons in Hs as [Hs|Hs]; [discriminate Hs|]).
  by apply elem_of_nil in Hs.
Defined.
